(** * LocateApp: event filtering, date windows, normalisation and the
      Find-My-Night flow

    A shallow embedding of the logic of [src/App.js], [src/SportsScreen.js]
    and [src/MusicScreen.js].

    - JavaScript numbers that hold time values are integers of milliseconds
      since the epoch, or NaN: [option Z], with [None] for NaN.  All of them
      are below 2^53, where the arithmetic of doubles is exact.
    - A [Date] object is its time value.  The calendar functions are the
      abstract operations of ECMA-262 (Day, TimeWithinDay, DayFromYear,
      YearFromTime, MonthFromTime, DateFromTime, WeekDay, MakeTime, MakeDay,
      MakeDate, TimeClip), written over [Z].
    - The local time zone comes in two models.  The first is a zone with a
      constant offset [tza] from UTC (milliseconds), where a local day has
      24 hours and every local time occurs once.  The second, [Zoned], is
      a zone with a list of offset changes, with LocalTime and UTC as
      ECMA-262 has them: a local time that comes twice is the earlier
      instant, one that is skipped is read with the offset before the
      change.  The end of the week, the order of the window boundaries,
      the dates of the fallback list and what the screens show of it are
      stated in the second; the other statements about dates are made in
      the first.
    - [new Date()] is a clock reading, a parameter; [Date.parse] is a
      parameter of the filters, with the ECMAScript date-time string format
      [ISO.parse] as one instance; [fetch] is a parameter of the API service.
    - JavaScript strings are [string]s, sequences of code units below 256.
    - Code that may throw returns a [result]. *)

From Stdlib Require Import ZArith List String Ascii Bool Lia QArith DecimalString.
Import ListNotations.

Local Open Scope Z_scope.

(** ** ECMA-262 time values and calendar arithmetic *)

Module JSDate.

Definition msPerSecond : Z := 1000.
Definition msPerMinute : Z := 60000.
Definition msPerHour : Z := 3600000.
Definition msPerDay : Z := 86400000.

(** The largest magnitude of a time value. *)
Definition maxTime : Z := 8640000000000000.

Definition Day (t : Z) : Z := t / msPerDay.
Definition TimeWithinDay (t : Z) : Z := t mod msPerDay.

Definition isLeapYear (y : Z) : bool :=
  (y mod 4 =? 0) && (negb (y mod 100 =? 0) || (y mod 400 =? 0)).

Definition DaysInYear (y : Z) : Z := if isLeapYear y then 366 else 365.

Definition DayFromYear (y : Z) : Z :=
  365 * (y - 1970) + (y - 1969) / 4 - (y - 1901) / 100 + (y - 1601) / 400.

Definition TimeFromYear (y : Z) : Z := msPerDay * DayFromYear y.

(** The largest year [y] with [TimeFromYear y <= t]: a first estimate from
    the mean length of a Gregorian year, corrected by at most one year. *)
Definition YearFromTime (t : Z) : Z :=
  let d := Day t in
  let y := 1970 + (400 * d) / 146097 in
  if d <? DayFromYear y then y - 1
  else if DayFromYear (y + 1) <=? d then y + 1
  else y.

Definition InLeapYear (t : Z) : bool := isLeapYear (YearFromTime t).

Definition DayWithinYear (t : Z) : Z := Day t - DayFromYear (YearFromTime t).

(** Number of days of the year before the first day of month [m] (0..11);
    [monthStart 12] is the length of the year. *)
Definition monthStart (leap : bool) (m : Z) : Z :=
  let l := if leap then 1 else 0 in
  if m <=? 0 then 0
  else if m =? 1 then 31
  else if m =? 2 then 59 + l
  else if m =? 3 then 90 + l
  else if m =? 4 then 120 + l
  else if m =? 5 then 151 + l
  else if m =? 6 then 181 + l
  else if m =? 7 then 212 + l
  else if m =? 8 then 243 + l
  else if m =? 9 then 273 + l
  else if m =? 10 then 304 + l
  else if m =? 11 then 334 + l
  else 365 + l.

Definition MonthFromTime (t : Z) : Z :=
  let d := DayWithinYear t in
  let leap := InLeapYear t in
  if d <? monthStart leap 1 then 0
  else if d <? monthStart leap 2 then 1
  else if d <? monthStart leap 3 then 2
  else if d <? monthStart leap 4 then 3
  else if d <? monthStart leap 5 then 4
  else if d <? monthStart leap 6 then 5
  else if d <? monthStart leap 7 then 6
  else if d <? monthStart leap 8 then 7
  else if d <? monthStart leap 9 then 8
  else if d <? monthStart leap 10 then 9
  else if d <? monthStart leap 11 then 10
  else 11.

Definition DateFromTime (t : Z) : Z :=
  DayWithinYear t - monthStart (InLeapYear t) (MonthFromTime t) + 1.

Definition DaysInMonth (leap : bool) (m : Z) : Z :=
  monthStart leap (m + 1) - monthStart leap m.

(** 0 = Sunday .. 6 = Saturday; day 0 of the epoch was a Thursday. *)
Definition WeekDay (t : Z) : Z := (Day t + 4) mod 7.

Definition HourFromTime (t : Z) : Z := (t / msPerHour) mod 24.
Definition MinFromTime (t : Z) : Z := (t / msPerMinute) mod 60.
Definition SecFromTime (t : Z) : Z := (t / msPerSecond) mod 60.
Definition msFromTime (t : Z) : Z := t mod msPerSecond.

Definition MakeTime (hour min sec ms : Z) : Z :=
  hour * msPerHour + min * msPerMinute + sec * msPerSecond + ms.

(** [MakeDay year month date]: the day number of the first day of the month
    [month mod 12] of the year [year + month / 12], plus [date - 1]. *)
Definition MakeDay (year month date : Z) : Z :=
  let ym := year + month / 12 in
  let mn := month mod 12 in
  DayFromYear ym + monthStart (isLeapYear ym) mn + date - 1.

Definition MakeDate (day time : Z) : Z := day * msPerDay + time.

Definition TimeClip (t : Z) : option Z :=
  if Z.abs t <=? maxTime then Some t else None.

End JSDate.

Import JSDate.

(** ** JavaScript strings and values *)

Module JSString.

Local Open Scope string_scope.

(** Lower case of a code unit below 256: the letters A-Z and the Latin-1
    capitals U+00C0 .. U+00DE (U+00D7 is the multiplication sign). *)
Definition lowerChar (c : ascii) : ascii :=
  let n := nat_of_ascii c in
  if ((Nat.leb 65 n && Nat.leb n 90) ||
      (Nat.leb 192 n && Nat.leb n 222 && negb (Nat.eqb n 215)))%bool
  then ascii_of_nat (n + 32) else c.

(** [String.prototype.toLowerCase] *)
Fixpoint toLowerCase (s : string) : string :=
  match s with
  | EmptyString => EmptyString
  | String c s' => String (lowerChar c) (toLowerCase s')
  end.

Fixpoint startsWith (s search : string) : bool :=
  match search, s with
  | EmptyString, _ => true
  | String _ _, EmptyString => false
  | String a search', String b s' => Ascii.eqb a b && startsWith s' search'
  end.

(** [s.includes(search)]: [search] occurs in [s] at some position. *)
Fixpoint includes (s search : string) : bool :=
  startsWith s search ||
  match s with
  | EmptyString => false
  | String _ s' => includes s' search
  end.

(** [search] is a substring of [s]. *)
Definition Substring (search s : string) : Prop :=
  exists pre post, s = pre ++ search ++ post.

End JSString.

Import JSString.

(** The values that the filter's [categoryMatch] variable can hold. *)
Inductive jsval : Type :=
| VUndefined
| VBool (b : bool)
| VStr (s : string).

(** ToBoolean *)
Definition truthy (v : jsval) : bool :=
  match v with
  | VUndefined => false
  | VBool b => b
  | VStr s => negb (String.eqb s EmptyString)
  end.

(** [a && b] *)
Definition js_and (a b : jsval) : jsval := if truthy a then b else a.

(** A property that holds a string or is absent ([undefined]). *)
Definition of_field (f : option string) : jsval :=
  match f with
  | None => VUndefined
  | Some s => VStr s
  end.

(** [f || dflt] for a string property [f] *)
Definition or_default (f : option string) (dflt : string) : string :=
  match f with
  | Some s => if String.eqb s EmptyString then dflt else s
  | None => dflt
  end.

(** String conversion of a property inside a template literal. *)
Definition template (f : option string) : string :=
  match f with
  | Some s => s
  | None => "undefined"
  end.

(** Relational comparison of two numbers; false when either is NaN. *)
Definition num_ge (a b : option Z) : bool :=
  match a, b with
  | Some x, Some y => y <=? x
  | _, _ => false
  end.

Definition num_le (a b : option Z) : bool :=
  match a, b with
  | Some x, Some y => x <=? y
  | _, _ => false
  end.

Definition num_gt (a b : option Z) : bool :=
  match a, b with
  | Some x, Some y => y <? x
  | _, _ => false
  end.

(** Arithmetic on numbers propagates NaN. *)
Definition num_add (a b : option Z) : option Z :=
  match a, b with
  | Some x, Some y => Some (x + y)
  | _, _ => None
  end.

Definition num_sub (a b : option Z) : option Z :=
  match a, b with
  | Some x, Some y => Some (x - y)
  | _, _ => None
  end.

(** ** Date objects in a zone of constant offset *)

Section LocalZone.

(** Offset of local time from UTC, in milliseconds. *)
Variable tza : Z.

Definition LocalTime (t : Z) : Z := t + tza.
Definition UTC (t : Z) : Z := t - tza.

(** A Date object is its time value. *)
Definition Date : Type := option Z.

(** [new Date(value)] for a number *)
Definition Date_of_number (v : option Z) : Date :=
  match v with
  | Some t => TimeClip t
  | None => None
  end.

Definition getFullYear (d : Date) : option Z :=
  option_map (fun t => YearFromTime (LocalTime t)) d.

Definition getMonth (d : Date) : option Z :=
  option_map (fun t => MonthFromTime (LocalTime t)) d.

Definition getDate (d : Date) : option Z :=
  option_map (fun t => DateFromTime (LocalTime t)) d.

Definition getDay (d : Date) : option Z :=
  option_map (fun t => WeekDay (LocalTime t)) d.

(** [d.setHours(h, m, s, ms)]: the new time value, which is also returned. *)
Definition setHours (d : Date) (h m s ms : Z) : option Z :=
  match d with
  | None => None
  | Some t =>
      TimeClip (UTC (MakeDate (Day (LocalTime t)) (MakeTime h m s ms)))
  end.

(** [d.setDate(dt)] *)
Definition setDate (d : Date) (dt : option Z) : option Z :=
  match d, dt with
  | Some t, Some dt =>
      let lt := LocalTime t in
      TimeClip (UTC (MakeDate (MakeDay (YearFromTime lt) (MonthFromTime lt) dt)
                              (TimeWithinDay lt)))
  | _, _ => None
  end.

(** [d.setMonth(m)] *)
Definition setMonth (d : Date) (m : option Z) : option Z :=
  match d, m with
  | Some t, Some m =>
      let lt := LocalTime t in
      TimeClip (UTC (MakeDate (MakeDay (YearFromTime lt) m (DateFromTime lt))
                              (TimeWithinDay lt)))
  | _, _ => None
  end.

(** Years 0..99 given to the constructor mean 1900..1999. *)
Definition MakeFullYear (y : Z) : Z :=
  if (0 <=? y) && (y <=? 99) then 1900 + y else y.

(** [new Date(year, month, date)] *)
Definition Date_ymd (year month date : option Z) : Date :=
  match year, month, date with
  | Some y, Some m, Some dt =>
      TimeClip (UTC (MakeDate (MakeDay (MakeFullYear y) m dt) (MakeTime 0 0 0 0)))
  | _, _, _ => None
  end.

End LocalZone.

(** [new Date(value)] for a property that holds a string or is absent;
    [parse] is the engine's [Date.parse], [undefined] converts to NaN. *)
Definition Date_of_field (parse : string -> option Z) (value : option string) : option Z :=
  match value with
  | None => None
  | Some s => parse s
  end.

(** Outcome of a call that may throw. *)
Inductive result (A : Type) : Type :=
| Ok (a : A)
| Throw (err : string).

Arguments Ok {A} a.
Arguments Throw {A} err.

Definition bind {A B : Type} (r : result A) (k : A -> result B) : result B :=
  match r with
  | Ok a => k a
  | Throw e => Throw e
  end.

(** [array.filter(callback)] with a callback that may throw: the first
    exception ends the call. *)
Fixpoint filterM {A : Type} (callback : A -> result bool) (array : list A) : result (list A) :=
  match array with
  | [] => Ok []
  | x :: rest =>
      bind (callback x) (fun keep =>
      bind (filterM callback rest) (fun kept =>
      Ok (if keep then x :: kept else kept)))
  end.

(** [recv.includes(search)]; a TypeError when the receiver is [undefined]. *)
Definition call_includes (recv : option string) (search : string) : result jsval :=
  match recv with
  | Some s => Ok (VBool (includes s search))
  | None => Throw "TypeError"
  end.

(** [recv.toLowerCase()] *)
Definition call_toLowerCase (recv : option string) : result (option string) :=
  match recv with
  | Some s => Ok (Some (toLowerCase s))
  | None => Throw "TypeError"
  end.

(** *** The ECMAScript date-time string format *)

Module ISO.

Local Open Scope string_scope.
Local Open Scope Z_scope.

Definition digitChar (d : Z) : ascii := ascii_of_nat (48 + Z.to_nat d).

Definition digitOf (c : ascii) : option Z :=
  let n := nat_of_ascii c in
  if (Nat.leb 48 n && Nat.leb n 57)%bool then Some (Z.of_nat (n - 48)) else None.

(** [n] written with exactly [width] decimal digits. *)
Fixpoint pad (width : nat) (n : Z) : string :=
  match width with
  | O => EmptyString
  | S w => pad w (n / 10) ++ String (digitChar (n mod 10)) EmptyString
  end.

Definition yearString (y : Z) : string :=
  if (0 <=? y) && (y <=? 9999) then pad 4 y
  else (if y <? 0 then "-" else "+") ++ pad 6 (Z.abs y).

(** [d.toISOString()]; throws a RangeError on an invalid Date. *)
Definition toISOString (d : option Z) : result string :=
  match d with
  | None => Throw "RangeError"
  | Some t =>
      Ok (yearString (YearFromTime t) ++ "-" ++ pad 2 (MonthFromTime t + 1) ++ "-" ++
          pad 2 (DateFromTime t) ++ "T" ++ pad 2 (HourFromTime t) ++ ":" ++
          pad 2 (MinFromTime t) ++ ":" ++ pad 2 (SecFromTime t) ++ "." ++
          pad 3 (msFromTime t) ++ "Z")
  end.

(** Reads exactly [n] decimal digits. *)
Fixpoint digits (n : nat) (acc : Z) (s : string) : option (Z * string) :=
  match n with
  | O => Some (acc, s)
  | S n' =>
      match s with
      | String c s' =>
          match digitOf c with
          | Some d => digits n' (10 * acc + d) s'
          | None => None
          end
      | EmptyString => None
      end
  end.

(** The year: four digits, or a sign and six digits (never [-000000]). *)
Definition parseYear (s : string) : option (Z * string) :=
  match s with
  | String c s' =>
      if Ascii.eqb c "+" then digits 6 0 s'
      else if Ascii.eqb c "-" then
        match digits 6 0 s' with
        | Some (y, r) => if y =? 0 then None else Some (- y, r)
        | None => None
        end
      else digits 4 0 s
  | EmptyString => None
  end.

(** An optional [sep NN] group: the value, or [dflt] when [sep] does not
    follow. *)
Definition optGroup (sep : ascii) (dflt : Z) (s : string) : option (Z * string) :=
  match s with
  | String c s' => if Ascii.eqb c sep then digits 2 0 s' else Some (dflt, s)
  | EmptyString => Some (dflt, s)
  end.

Definition parseMillis (s : string) : option (Z * string) :=
  match s with
  | String "." s' => digits 3 0 s'
  | _ => Some (0, s)
  end.

(** The zone designator: [Some off] for [Z] or [+HH:mm] / [-HH:mm], [None]
    when the string ends without one. *)
Definition parseOffset (s : string) : option (option Z) :=
  match s with
  | EmptyString => Some None
  | String "Z" EmptyString => Some (Some 0)
  | String sign s' =>
      if (Ascii.eqb sign "+" || Ascii.eqb sign "-")%bool then
        match digits 2 0 s' with
        | Some (h, String ":" s'') =>
            match digits 2 0 s'' with
            | Some (m, EmptyString) =>
                if (h <=? 23) && (m <=? 59) then
                  let off := h * msPerHour + m * msPerMinute in
                  Some (Some (if Ascii.eqb sign "-" then - off else off))
                else None
            | _ => None
            end
        | _ => None
        end
      else None
  end.

Definition validTime (h m s : Z) : bool :=
  ((h <=? 23) && (m <=? 59) && (s <=? 59)) || ((h =? 24) && (m =? 0) && (s =? 0)).

(** The fields of a string in the ECMAScript format
    [YYYY-MM-DDTHH:mm:ss.sssZ] or one of its shorter forms: the time value
    that the date and time name, and the offset of the zone designator
    ([None] when a date-time has no designator; a date-only form is UTC). *)
Definition fields (s : string) : option (Z * option Z) :=
  match parseYear s with
  | Some (y, s1) =>
      match optGroup "-" 1 s1 with
      | Some (mo, s2) =>
          match optGroup "-" 1 s2 with
          | Some (d, s3) =>
              if (1 <=? mo) && (mo <=? 12) && (1 <=? d) &&
                 (d <=? DaysInMonth (isLeapYear y) (mo - 1)) then
                let day := MakeDay y (mo - 1) d in
                match s3 with
                | EmptyString => Some (MakeDate day 0, Some 0)
                | String "T" s4 =>
                    match digits 2 0 s4 with
                    | Some (h, String ":" s5) =>
                        match digits 2 0 s5 with
                        | Some (mi, s6) =>
                            match optGroup ":" 0 s6 with
                            | Some (sec, s7) =>
                                match parseMillis s7 with
                                | Some (ms, s8) =>
                                    match parseOffset s8 with
                                    | Some off =>
                                        if validTime h mi sec && ((h <? 24) || (ms =? 0)) then
                                          Some (MakeDate day (MakeTime h mi sec ms), off)
                                        else None
                                    | None => None
                                    end
                                | None => None
                                end
                            | None => None
                            end
                        | None => None
                        end
                    | _ => None
                    end
                | _ => None
                end
              else None
          | None => None
          end
      | None => None
      end
  | None => None
  end.

(** [Date.parse] on the ECMAScript format; every other string is NaN.  A
    date-time without a zone designator is local time. *)
Definition parse (tza : Z) (s : string) : option Z :=
  match fields s with
  | Some (t, Some off) => TimeClip (t - off)
  | Some (t, None) => TimeClip (UTC tza t)
  | None => None
  end.

End ISO.

Local Open Scope string_scope.
Local Open Scope Z_scope.

(** ** The data model *)

(** The internal event shape: what the normaliser and the mock service
    build.  Absent properties are [None]. *)
Record Event : Type := {
  id : string;
  name : string;
  category : string;
  subcategory : option string;
  date : option string;
  venueName : option string;
  imageUrl : string;
  address : string
}.

Record SearchParams : Type := {
  city : string;
  stateCode : string;
  radius : Z
}.

(** ** SportsScreen.js *)

Module SportsScreen.

Section FilteredEvents.

Variable tza : Z.
(** The engine's [Date.parse]. *)
Variable parse : string -> option Z.
(** The clock reading of [new Date()]. *)
Variable now : Z.

Definition startOfDay : option Z := setHours tza (Some now) 0 0 0 0.

Definition endOfDay : option Z := setHours tza (Some now) 23 59 59 999.

Definition endOfWeek : option Z :=
  setDate tza (Date_of_number startOfDay)
    (num_add (num_sub (getDate tza (Date_of_number startOfDay))
                      (getDay tza (Date_of_number startOfDay)))
             (Some 7)).

Definition endOfMonth : option Z :=
  setHours tza
    (Date_ymd tza (getFullYear tza (Some now)) (num_add (getMonth tza (Some now)) (Some 1)) (Some 0))
    23 59 59 999.

Definition endOfNextMonth : option Z :=
  setHours tza
    (Date_ymd tza (getFullYear tza (Some now)) (num_add (getMonth tza (Some now)) (Some 2)) (Some 0))
    23 59 59 999.

Definition timeMatch (timeFilter : string) (event : Event) : bool :=
  let eventDate := Date_of_field parse (date event) in
  if String.eqb timeFilter "Today" then
    num_ge eventDate startOfDay && num_le eventDate endOfDay
  else if String.eqb timeFilter "This Week" then
    num_ge eventDate startOfDay && num_le eventDate endOfWeek
  else if String.eqb timeFilter "This Month" then
    num_ge eventDate startOfDay && num_le eventDate endOfMonth
  else if String.eqb timeFilter "Next Month" then
    num_gt eventDate endOfMonth && num_le eventDate endOfNextMonth
  else false.

Definition categoryMatch (categoryFilter : string) (event : Event) : result jsval :=
  if String.eqb categoryFilter "Sports" then Ok (VBool true)
  else if existsb (String.eqb categoryFilter) ["NFL"; "NBA"; "MLB"; "NHL"] then
    (* event.subcategory && event.subcategory.includes(categoryFilter) *)
    if truthy (of_field (subcategory event)) then
      call_includes (subcategory event) categoryFilter
    else Ok (of_field (subcategory event))
  else Ok (VBool false).

Definition filteredEvents (events : list Event) (timeFilter categoryFilter : string) :
  result (list Event) :=
  filterM (fun event =>
             let timeMatch := timeMatch timeFilter event in
             bind (categoryMatch categoryFilter event) (fun categoryMatch =>
             Ok (truthy (js_and (VBool timeMatch) categoryMatch))))
          events.

End FilteredEvents.

End SportsScreen.

(** ** MusicScreen.js *)

Module MusicScreen.

Section FilteredEvents.

Variable tza : Z.
Variable parse : string -> option Z.
Variable now : Z.

Definition startOfDay : option Z := setHours tza (Some now) 0 0 0 0.

Definition endOfDay : option Z := setHours tza (Some now) 23 59 59 999.

Definition endOfWeek : option Z :=
  setDate tza (Date_of_number startOfDay)
    (num_add (num_sub (getDate tza (Date_of_number startOfDay))
                      (getDay tza (Date_of_number startOfDay)))
             (Some 7)).

Definition endOfMonth : option Z :=
  setHours tza
    (Date_ymd tza (getFullYear tza (Some now)) (num_add (getMonth tza (Some now)) (Some 1)) (Some 0))
    23 59 59 999.

Definition endOfNextMonth : option Z :=
  setHours tza
    (Date_ymd tza (getFullYear tza (Some now)) (num_add (getMonth tza (Some now)) (Some 2)) (Some 0))
    23 59 59 999.

Definition timeMatch (timeFilter : string) (event : Event) : bool :=
  let eventDate := Date_of_field parse (date event) in
  if String.eqb timeFilter "Today" then
    num_ge eventDate startOfDay && num_le eventDate endOfDay
  else if String.eqb timeFilter "This Week" then
    num_ge eventDate startOfDay && num_le eventDate endOfWeek
  else if String.eqb timeFilter "This Month" then
    num_ge eventDate startOfDay && num_le eventDate endOfMonth
  else if String.eqb timeFilter "Next Month" then
    num_gt eventDate endOfMonth && num_le eventDate endOfNextMonth
  else false.

Definition categoryMatch (genreFilter : string) (event : Event) : result jsval :=
  if String.eqb genreFilter "Music" then Ok (VBool true)
  else
    (* event.subcategory &&
       event.subcategory.toLowerCase().includes(genreFilter.toLowerCase()) *)
    if truthy (of_field (subcategory event)) then
      bind (call_toLowerCase (subcategory event)) (fun lowered =>
      call_includes lowered (toLowerCase genreFilter))
    else Ok (of_field (subcategory event)).

Definition filteredEvents (events : list Event) (timeFilter genreFilter : string) :
  result (list Event) :=
  filterM (fun event =>
             let timeMatch := timeMatch timeFilter event in
             bind (categoryMatch genreFilter event) (fun categoryMatch =>
             Ok (truthy (js_and (VBool timeMatch) categoryMatch))))
          events.

End FilteredEvents.

End MusicScreen.

(** ** App.js: the API services *)

(** The parts of a Ticketmaster event payload that the app reads. *)
Record Named : Type := { nm : option string }.

Record Classification : Type := {
  segment : option Named;
  subGenre : option Named
}.

Record Image : Type := { ratio : option string; url : option string }.

Record Address : Type := { line1 : option string }.

Record StateObj : Type := { venueStateCode : option string }.

Record Venue : Type := {
  venue_name : option string;
  venue_address : option Address;
  venue_city : option Named;
  venue_state : option StateObj
}.

Record RawEvent : Type := {
  raw_id : string;
  raw_name : string;
  classifications : option (list Classification);
  (** [dates.start.dateTime] *)
  dates_start_dateTime : option string;
  (** [_embedded.venues] *)
  embedded_venues : option (list Venue);
  images : option (list Image)
}.

(** [data._embedded.events] of the response body. *)
Record Embedded : Type := { events : option (list RawEvent) }.

Record Payload : Type := { _embedded : option Embedded }.

(** What [fetch] followed by [response.json()] comes to: an exception
    (network failure, a body that is not JSON) or the decoded body. *)
Inductive FetchOutcome : Type :=
| TransportFailure
| Response (data : Payload).

(** Optional chaining: [o?.f] and [a?.[0]]. *)
Definition chain {A B : Type} (o : option A) (f : A -> option B) : option B :=
  match o with
  | Some a => f a
  | None => None
  end.

Definition first {A : Type} (a : option (list A)) : option A :=
  chain a (@hd_error A).

Module mockApi.

Section Clock.

Variable tza : Z.
(** The clock readings of the four [new Date()] calls, in order. *)
Variables now1 now2 now3 now4 : Z.

Definition fetchTicketmasterEvents : result (list Event) :=
  let today : option Z := Some now1 in
  let tomorrow := setDate tza (Some now2) (num_add (getDate tza today) (Some 1)) in
  let nextWeek := setDate tza (Some now3) (num_add (getDate tza today) (Some 7)) in
  let nextMonth := setMonth tza (Some now4) (num_add (getMonth tza today) (Some 1)) in
  bind (ISO.toISOString today) (fun date1 =>
  bind (ISO.toISOString today) (fun date2 =>
  bind (ISO.toISOString tomorrow) (fun date3 =>
  bind (ISO.toISOString nextWeek) (fun date4 =>
  bind (ISO.toISOString nextMonth) (fun date5 =>
  Ok [ {| id := "tm-1"; name := "Mock: Indie Showcase"; category := "Music";
          subcategory := None; date := Some date1;
          venueName := Some "The Mockingbird Theater";
          imageUrl := "https://placehold.co/600x400/1a202c/ffffff?text=Mock+Music";
          address := "123 Mock St, Denver, CO" |};
       {| id := "tm-2"; name := "Mock: Broncos Game"; category := "Sports";
          subcategory := Some "NFL"; date := Some date2;
          venueName := Some "Mock Field";
          imageUrl := "https://placehold.co/600x400/FB4F14/ffffff?text=Mock+Football";
          address := "456 Mock Ave, Denver, CO" |};
       {| id := "tm-3"; name := "Mock: Jazz Night"; category := "Music";
          subcategory := None; date := Some date3;
          venueName := Some "The Mock Note";
          imageUrl := "https://placehold.co/600x400/4a5568/ffffff?text=Mock+Jazz";
          address := "789 Mock Blvd, Denver, CO" |};
       {| id := "tm-4"; name := "Mock: Nuggets Game"; category := "Sports";
          subcategory := Some "NBA"; date := Some date4;
          venueName := Some "Mock Arena";
          imageUrl := "https://placehold.co/600x400/0E2240/ffffff?text=Mock+Basketball";
          address := "111 Mock Ct, Denver, CO" |};
       {| id := "tm-5"; name := "Mock: Art Festival"; category := "Social";
          subcategory := None; date := Some date5;
          venueName := Some "Mock Museum";
          imageUrl := "https://placehold.co/600x400/718096/ffffff?text=Mock+Art";
          address := "222 Mock Ln, Denver, CO" |} ]))))).

End Clock.

End mockApi.

Module api.

(** The mapping of one payload event to the internal shape. *)
Definition normalize (event : RawEvent) : Event :=
  let venue := first (embedded_venues event) in
  {| id := raw_id event;
     name := raw_name event;
     category :=
       or_default (chain (chain (first (classifications event)) segment) nm) "Social";
     subcategory :=
       Some (or_default (chain (chain (first (classifications event)) subGenre) nm) "N/A");
     date := dates_start_dateTime event;
     venueName := chain venue venue_name;
     imageUrl :=
       or_default
         (chain (chain (images event)
                       (find (fun img => match ratio img with
                                         | Some r => String.eqb r "16_9"
                                         | None => false
                                         end)))
                url)
         "https://placehold.co/600x400/1a202c/ffffff?text=Event";
     address :=
       template (chain (chain venue venue_address) line1) ++ ", " ++
       template (chain (chain venue venue_city) nm) ++ ", " ++
       template (chain (chain venue venue_state) venueStateCode) |}.

Definition TICKETMASTER_API_KEY : string := "secret".

(** String conversion of a number inside a template literal. *)
Definition numberToString (n : Z) : string := NilZero.string_of_int (Z.to_int n).

(** The request URL; [category] is [None] for [null]. *)
Definition TICKETMASTER_ENDPOINT (city stateCode : string) (radius : Z)
  (category : option string) : string :=
  let classificationQuery :=
    match category with
    | Some c => if truthy (VStr c) then "&classificationName=" ++ c else EmptyString
    | None => EmptyString
    end in
  "https://app.ticketmaster.com/discovery/v2/events.json?city=" ++ city ++
  "&stateCode=" ++ stateCode ++ "&radius=" ++ numberToString radius ++
  "&unit=miles" ++ classificationQuery ++ "&apikey=" ++ TICKETMASTER_API_KEY.

Section Fetch.

Variable tza : Z.
(** The network: what [fetch(url)] and [response.json()] come to. *)
Variable fetch : string -> FetchOutcome.
(** The clock readings that the mock service takes. *)
Variables now1 now2 now3 now4 : Z.

Definition fetchTicketmasterEvents (city stateCode : string) (radius : Z)
  (category : option string) : result (list Event) :=
  let mock := mockApi.fetchTicketmasterEvents tza now1 now2 now3 now4 in
  match fetch (TICKETMASTER_ENDPOINT city stateCode radius category) with
  | Response data =>
      (* !data._embedded || !data._embedded.events ||
         data._embedded.events.length === 0 *)
      match _embedded data with
      | None => mock
      | Some emb =>
          match events emb with
          | None => mock
          | Some evs =>
              if Z.of_nat (List.length evs) =? 0 then mock
              else Ok (map normalize evs)
          end
      end
  | TransportFailure => mock
  end.

End Fetch.

End api.

(** ** App.js: the root component and the Find-My-Night modal *)

Module App.

Record State : Type := {
  activeModule : string;
  selectedEvent : option Event;
  findMyNightVisible : bool;
  suggestedEvent : option Event;
  searchParams : SearchParams;
  (** Pending [setTimeout] callbacks of [handleAcceptSuggestion]; each holds
      the [suggestedEvent] that its closure captured. *)
  timers : list (option Event)
}.

Definition initial : State :=
  {| activeModule := "Sports";
     selectedEvent := None;
     findMyNightVisible := false;
     suggestedEvent := None;
     searchParams := {| city := "Denver"; stateCode := "CO"; radius := 50 |};
     timers := [] |}.

Definition setSelectedEvent (e : option Event) (st : State) : State :=
  {| activeModule := activeModule st;
     selectedEvent := e;
     findMyNightVisible := findMyNightVisible st;
     suggestedEvent := suggestedEvent st;
     searchParams := searchParams st;
     timers := timers st |}.

Definition setFindMyNightVisible (v : bool) (st : State) : State :=
  {| activeModule := activeModule st;
     selectedEvent := selectedEvent st;
     findMyNightVisible := v;
     suggestedEvent := suggestedEvent st;
     searchParams := searchParams st;
     timers := timers st |}.

Definition setSuggestedEvent (e : option Event) (st : State) : State :=
  {| activeModule := activeModule st;
     selectedEvent := selectedEvent st;
     findMyNightVisible := findMyNightVisible st;
     suggestedEvent := e;
     searchParams := searchParams st;
     timers := timers st |}.

Definition setTimeout (captured : option Event) (st : State) : State :=
  {| activeModule := activeModule st;
     selectedEvent := selectedEvent st;
     findMyNightVisible := findMyNightVisible st;
     suggestedEvent := suggestedEvent st;
     searchParams := searchParams st;
     timers := timers st ++ [captured] |}.

Definition handleEventSelect (event : Event) (st : State) : State :=
  setSelectedEvent (Some event) st.

Definition handleBack (st : State) : State := setSelectedEvent None st.

Definition handleAcceptSuggestion (st : State) : State :=
  setTimeout (suggestedEvent st) (setFindMyNightVisible false st).

(** The oldest pending timer fires: [setSelectedEvent(suggestedEvent)]. *)
Definition timerFires (st : State) : State :=
  match timers st with
  | [] => st
  | captured :: rest =>
      setSelectedEvent captured
        {| activeModule := activeModule st;
           selectedEvent := selectedEvent st;
           findMyNightVisible := findMyNightVisible st;
           suggestedEvent := suggestedEvent st;
           searchParams := searchParams st;
           timers := rest |}
  end.

(** The props that [App] passes to the modal. *)
Definition onAccept : State -> State := handleAcceptSuggestion.
Definition onRetry : State -> State := setFindMyNightVisible false.
Definition onClose : State -> State := setFindMyNightVisible false.

(** [FindMyNightModal]: [None] when it returns [null], otherwise the event
    whose card it shows. *)
Definition FindMyNightModal (visible : bool) (event : option Event) : option Event :=
  match event with
  | Some e => if negb visible then None else Some e
  | None => None
  end.

(** The clickable elements of the modal. *)
Inductive Control : Type :=
| Backdrop
| Card
| LetsGo
| TryAgain
| MaybeLater.

(** A click on a control of the modal; there is nothing to click while the
    modal is not rendered. *)
Definition click (c : Control) (st : State) : State :=
  match FindMyNightModal (findMyNightVisible st) (suggestedEvent st) with
  | None => st
  | Some _ =>
      match c with
      | Backdrop => onClose st
      | Card => onClose (onAccept st)
      | LetsGo => onClose (onAccept st)
      | TryAgain => onRetry st
      | MaybeLater => onClose st
      end
  end.

(** What [App] renders in its main area. *)
Inductive Screen : Type :=
| EventDetailsScreen (event : Event)
| ModuleScreen (module : string).

Definition screen (st : State) : Screen :=
  match selectedEvent st with
  | Some e => EventDetailsScreen e
  | None => ModuleScreen (activeModule st)
  end.

Definition modal (st : State) : option Event :=
  FindMyNightModal (findMyNightVisible st) (suggestedEvent st).

End App.

(** ** NightPicker *)

Module NightPicker.

(** A finite distribution: outcomes with their probabilities. *)
Definition dist (A : Type) : Type := list (A * Q).

Definition mass {A : Type} (d : dist A) : Q :=
  fold_right (fun p acc => Qplus (snd p) acc) 0%Q d.

(** Modelled from the spec: [NightPicker.pick], the body behind
    [onFindMyNight(events)]; the sources hold only that call site in
    [DiscoverScreen].  The spec, section 4.3: selects one element uniformly
    at random from [candidates]; returns none if [candidates] is empty. *)
Definition pick (candidates : list Event) : dist (option Event) :=
  match candidates with
  | [] => [(None, 1%Q)]
  | _ :: _ =>
      map (fun e => (Some e, (1 # Pos.of_nat (List.length candidates))%Q)) candidates
  end.

(** Modelled from the spec: the caller of [pick], which [App] does not
    define.  The spec, section 4.3: on none the caller must not open the
    suggestion modal; otherwise the pick becomes the suggestion shown. *)
Definition handleFindMyNight (picked : option Event) (st : App.State) : App.State :=
  match picked with
  | None => st
  | Some e => App.setFindMyNightVisible true (App.setSuggestedEvent (Some e) st)
  end.

End NightPicker.

(** ** Vocabulary of the statements *)

(** Distance kept from the ends of the range of time values: the filter's
    windows reach into the month after next, the mock service sets a month
    of one clock reading on another. *)
Definition margin : Z := 400 * msPerDay.

(** A zone offset of at most a day and a clock reading at least [margin]
    inside the range of time values. *)
Definition clockInRange (tza now : Z) : Prop :=
  Z.abs tza <= msPerDay /\ Z.abs now <= maxTime - margin.

(** The local time [t] falls on the last day of its month. *)
Definition lastDayOfMonth (t : Z) : bool :=
  DateFromTime t =? DaysInMonth (InLeapYear t) (MonthFromTime t).

(** [l1] is [l2] with some elements removed, the others in their order. *)
Inductive Subsequence {A : Type} : list A -> list A -> Prop :=
| sub_nil : Subsequence [] []
| sub_skip x l1 l2 : Subsequence l1 l2 -> Subsequence l1 (x :: l2)
| sub_keep x l1 l2 : Subsequence l1 l2 -> Subsequence (x :: l1) (x :: l2).

(** Comparison of two numbers as a proposition: both are numbers (not NaN)
    and in that order. *)
Definition leN (a b : option Z) : Prop :=
  exists x y, a = Some x /\ b = Some y /\ x <= y.

Definition ltN (a b : option Z) : Prop :=
  exists x y, a = Some x /\ b = Some y /\ x < y.

(** An evaluation ends without an exception and its value is truthy. *)
Definition holds (r : result jsval) : Prop :=
  exists v, r = Ok v /\ truthy v = true.

(** An evaluation ends without an exception. *)
Definition returns {A : Type} (r : result A) : Prop :=
  exists a, r = Ok a.

(** The time value of a local date and time of day, as
    [new Date(y, mo, d, h, mi, s, ms)] computes it. *)
Definition localInstant (tza y mo d h mi s ms : Z) : Z :=
  UTC tza (MakeDate (MakeDay y mo d) (MakeTime h mi s ms)).

(** The truth value of an evaluation; an exception counts as false. *)
Definition accepts (r : result jsval) : bool :=
  match r with
  | Ok v => truthy v
  | Throw _ => false
  end.

(** The response body carries no event. *)
Definition emptyResultSet (data : Payload) : Prop :=
  forall emb evs, _embedded data = Some emb -> events emb = Some evs -> evs = [].

(** Every property that the mock service sets on all its events is there
    and is not the empty string. *)
Definition populated (e : Event) : Prop :=
  id e <> EmptyString /\ name e <> EmptyString /\ category e <> EmptyString /\
  (exists d, date e = Some d /\ d <> EmptyString) /\
  (exists v, venueName e = Some v /\ v <> EmptyString) /\
  imageUrl e <> EmptyString /\ address e <> EmptyString.

(** The payload event has no usable [classifications[0].subGenre.name]. *)
Definition lacksSubGenre (raw : RawEvent) : Prop :=
  chain (chain (first (classifications raw)) subGenre) nm = None \/
  chain (chain (first (classifications raw)) subGenre) nm = Some EmptyString.

Definition lacksSegment (raw : RawEvent) : Prop :=
  chain (chain (first (classifications raw)) segment) nm = None \/
  chain (chain (first (classifications raw)) segment) nm = Some EmptyString.

(** *** Sample data *)

Definition sampleEvent (sub date : option string) : Event :=
  {| id := "ev-1"; name := "Sample"; category := "Sports";
     subcategory := sub; date := date; venueName := None;
     imageUrl := "https://placehold.co/600x400/1a202c/ffffff?text=Event";
     address := "undefined, undefined, undefined" |}.

(** A payload event with nothing but its id and name. *)
Definition bareRawEvent : RawEvent :=
  {| raw_id := "Z7r9jZ1A"; raw_name := "Open Mic";
     classifications := None; dates_start_dateTime := None;
     embedded_venues := None; images := None |}.

(** US Mountain Daylight Time, six hours behind UTC. *)
Definition denver : Z := -21600000.

(** A network that is down. *)
Definition offline (url : string) : FetchOutcome := TransportFailure.

(** ** App.js: navigation *)

Module AppFlow.

Definition setActiveModule (m : string) (st : App.State) : App.State :=
  {| App.activeModule := m;
     App.selectedEvent := App.selectedEvent st;
     App.findMyNightVisible := App.findMyNightVisible st;
     App.suggestedEvent := App.suggestedEvent st;
     App.searchParams := App.searchParams st;
     App.timers := App.timers st |}.

Definition setSearchParams (p : SearchParams) (st : App.State) : App.State :=
  {| App.activeModule := App.activeModule st;
     App.selectedEvent := App.selectedEvent st;
     App.findMyNightVisible := App.findMyNightVisible st;
     App.suggestedEvent := App.suggestedEvent st;
     App.searchParams := p;
     App.timers := App.timers st |}.

(** The three buttons of the bottom navigation. *)
Inductive Tab : Type :=
| SportsTab
| MusicTab
| SocialTab.

Definition tabName (t : Tab) : string :=
  match t with
  | SportsTab => "Sports"
  | MusicTab => "Music"
  | SocialTab => "Social"
  end.

(** What [App] puts in [content]. *)
Inductive Content : Type :=
| SportsContent
| MusicContent
| SocialComingSoon.

Definition content (st : App.State) : Content :=
  if String.eqb (App.activeModule st) "Sports" then SportsContent
  else if String.eqb (App.activeModule st) "Music" then MusicContent
  else SocialComingSoon.

(** Everything that can act on the state of [App]: the handlers that its
    render wires to the elements on screen, and its timers.  The search form
    is rendered only while no event is selected, the cards of a module
    screen (any event, as far as [App] knows) only then and under the
    Sports and Music tabs, the back button only on the details screen; a
    click on an element that is not rendered is no action. *)
Inductive Action : Type :=
| NavButton (t : Tab)
| Search (p : SearchParams)
| CardPress (event : Event)
| BackButton
| ModalClick (c : App.Control)
| TimerFires.

Definition step (st : App.State) (a : Action) : App.State :=
  match a with
  | NavButton t => setActiveModule (tabName t) st
  | Search p =>
      match App.selectedEvent st with
      | None => setSearchParams p st
      | Some _ => st
      end
  | CardPress event =>
      match App.selectedEvent st, content st with
      | None, SportsContent => App.handleEventSelect event st
      | None, MusicContent => App.handleEventSelect event st
      | _, _ => st
      end
  | BackButton =>
      match App.selectedEvent st with
      | Some _ => App.handleBack st
      | None => st
      end
  | ModalClick c => App.click c st
  | TimerFires => App.timerFires st
  end.

Definition run (actions : list Action) (st : App.State) : App.State :=
  fold_left step actions st.

End AppFlow.

(** ** App.js: the night plan *)

Module Gemini.

(** The parts of the response body that [generateNightPlan] reads. *)
Record Part : Type := { text : option string }.

Record Content : Type := { parts : option (list Part) }.

Record Candidate : Type := { content : option Content }.

Record Body : Type := { candidates : option (list Candidate) }.

(** What the POST and [response.json()] come to: an exception or the
    decoded body. *)
Inductive Outcome : Type :=
| Failure
| Response (result : Body).

Definition couldNot : string :=
  "Could not generate a plan at this time. Please try again later.".

Definition sorry : string :=
  "Sorry, I couldn't come up with a plan right now. Check your connection and try again.".

Section Plan.

(** The engine's [Date.parse] and [toLocaleDateString]. *)
Variable parse : string -> option Z.
Variable toLocaleDateString : option Z -> string.
(** The network, by the prompt that the request carries. *)
Variable post : string -> Outcome.

Definition prompt (event : Event) : string :=
  "Create a fun, brief plan for a night out based on this event. Event: " ++
  String (ascii_of_nat 34) (name event) ++ String (ascii_of_nat 34) " at " ++
  template (venueName event) ++ " on " ++
  toLocaleDateString (Date_of_field parse (date event)) ++
  ". The plan should have three short parts: a pre-event suggestion (like a themed bar or quick bite nearby), a post-event suggestion (like a late-night food spot or a place to unwind), and a fun conversation starter related to the event. Make it sound exciting and engaging.".

(** The value that the promise resolves to: a string, or [None] for
    [undefined] (a first part without [text]). *)
Definition generateNightPlan (event : Event) : option string :=
  match post (prompt event) with
  | Response result =>
      (* result.candidates && result.candidates.length > 0 &&
         result.candidates[0].content && result.candidates[0].content.parts &&
         result.candidates[0].content.parts.length > 0 *)
      match candidates result with
      | Some (candidate :: _) =>
          match content candidate with
          | Some c =>
              match parts c with
              | Some (part :: _) => text part
              | Some [] => Some couldNot
              | None => Some couldNot
              end
          | None => Some couldNot
          end
      | Some [] => Some couldNot
      | None => Some couldNot
      end
  | Failure => Some sorry
  end.

(** The state of [EventDetailsScreen]. *)
Record DetailsState : Type := {
  plan : option string;
  isPlanning : bool
}.

Definition mounted : DetailsState :=
  {| plan := Some EmptyString; isPlanning := false |}.

(** [handlePlanMyNight], up to its [await] and after it. *)
Definition planRequested (st : DetailsState) : DetailsState :=
  {| plan := plan st; isPlanning := true |}.

Definition planArrived (result : option string) (st : DetailsState) : DetailsState :=
  {| plan := result; isPlanning := false |}.

Definition handlePlanMyNight (event : Event) (st : DetailsState) : DetailsState :=
  planArrived (generateNightPlan event) (planRequested st).

(** [plan && <section>]: the itinerary section is rendered. *)
Definition planShown (st : DetailsState) : bool := truthy (of_field (plan st)).

End Plan.

End Gemini.

(** ** Vocabulary of the further statements *)

(** The list that the mock service builds, by its five date strings. *)
Definition mockListOf (date1 date2 date3 date4 date5 : string) : list Event :=
  [ {| id := "tm-1"; name := "Mock: Indie Showcase"; category := "Music";
       subcategory := None; date := Some date1;
       venueName := Some "The Mockingbird Theater";
       imageUrl := "https://placehold.co/600x400/1a202c/ffffff?text=Mock+Music";
       address := "123 Mock St, Denver, CO" |};
    {| id := "tm-2"; name := "Mock: Broncos Game"; category := "Sports";
       subcategory := Some "NFL"; date := Some date2;
       venueName := Some "Mock Field";
       imageUrl := "https://placehold.co/600x400/FB4F14/ffffff?text=Mock+Football";
       address := "456 Mock Ave, Denver, CO" |};
    {| id := "tm-3"; name := "Mock: Jazz Night"; category := "Music";
       subcategory := None; date := Some date3;
       venueName := Some "The Mock Note";
       imageUrl := "https://placehold.co/600x400/4a5568/ffffff?text=Mock+Jazz";
       address := "789 Mock Blvd, Denver, CO" |};
    {| id := "tm-4"; name := "Mock: Nuggets Game"; category := "Sports";
       subcategory := Some "NBA"; date := Some date4;
       venueName := Some "Mock Arena";
       imageUrl := "https://placehold.co/600x400/0E2240/ffffff?text=Mock+Basketball";
       address := "111 Mock Ct, Denver, CO" |};
    {| id := "tm-5"; name := "Mock: Art Festival"; category := "Social";
       subcategory := None; date := Some date5;
       venueName := Some "Mock Museum";
       imageUrl := "https://placehold.co/600x400/718096/ffffff?text=Mock+Art";
       address := "222 Mock Ln, Denver, CO" |} ].

(** The test of [images.find]: the image's ratio is 16_9. *)
Definition is16_9 (img : Image) : bool :=
  match ratio img with
  | Some r => String.eqb r "16_9"
  | None => false
  end.

Definition placeholderImage : string :=
  "https://placehold.co/600x400/1a202c/ffffff?text=Event".

(** The number of events in the response body. *)
Definition payloadCount (data : Payload) : nat :=
  match chain (_embedded data) events with
  | Some evs => List.length evs
  | None => O
  end.

(** The constructor reads the year of [t] as it is (it is not one of 0..99). *)
Definition fullYear (t : Z) : Prop := MakeFullYear (YearFromTime t) = YearFromTime t.

(** The length in days of the month after the month of the local time [t]. *)
Definition daysInNextMonth (t : Z) : Z :=
  MakeDay (YearFromTime t) (MonthFromTime t + 2) 0 -
  MakeDay (YearFromTime t) (MonthFromTime t + 1) 0.

(** Nothing is suggested, the modal is hidden and no timer is pending. *)
Definition idle (st : App.State) : Prop :=
  App.suggestedEvent st = None /\ App.findMyNightVisible st = false /\ App.timers st = [].

(** ** Date objects in a zone whose offset changes *)

Module Zoned.

(** A time zone: its offset from UTC (milliseconds) before its first
    change, and its changes in order of time, each the instant from which
    an offset is in force. *)
Record Zone : Type := {
  initial : Z;
  transitions : list (Z * Z)
}.

Fixpoint offsetFrom (o : Z) (changes : list (Z * Z)) (t : Z) : Z :=
  match changes with
  | [] => o
  | (from, o') :: later => if from <=? t then offsetFrom o' later t else o
  end.

(** The offset in force at the instant [t]. *)
Definition offsetAt (z : Zone) (t : Z) : Z :=
  offsetFrom (initial z) (transitions z) t.

(** Every offset that the zone has had. *)
Definition offsets (z : Zone) : list Z := initial z :: map snd (transitions z).

(** ECMA-262 LocalTime(t) *)
Definition LocalTime (z : Zone) (t : Z) : Z := t + offsetAt z t.

(** The instants at which the local clock reads [t]: none when an offset
    change skips [t], two when one repeats it. *)
Definition possibleInstants (z : Zone) (t : Z) : list Z :=
  filter (fun u => LocalTime z u =? t) (map (fun o => t - o) (offsets z)).

Definition earliest (l : list Z) : option Z :=
  match l with
  | [] => None
  | u :: us => Some (fold_left Z.min us u)
  end.

Definition latest (l : list Z) : option Z :=
  match l with
  | [] => None
  | u :: us => Some (fold_left Z.max us u)
  end.

(** ECMA-262 UTC(t): a local time that is repeated is read as its earlier
    instant; a local time that is skipped is read with the offset in force
    before the change, found a day earlier (the standard asserts that the
    local time a day earlier has an instant). *)
Definition UTC (z : Zone) (t : Z) : Z :=
  match earliest (possibleInstants z t) with
  | Some u => t - offsetAt z u
  | None =>
      match latest (possibleInstants z (t - msPerDay)) with
      | Some u => t - offsetAt z u
      | None => t - offsetAt z t
      end
  end.

Section LocalZone.

Variable z : Zone.

Definition getFullYear (d : Date) : option Z :=
  option_map (fun t => YearFromTime (LocalTime z t)) d.

Definition getMonth (d : Date) : option Z :=
  option_map (fun t => MonthFromTime (LocalTime z t)) d.

Definition getDate (d : Date) : option Z :=
  option_map (fun t => DateFromTime (LocalTime z t)) d.

Definition getDay (d : Date) : option Z :=
  option_map (fun t => WeekDay (LocalTime z t)) d.

(** [d.setHours(h, m, s, ms)] *)
Definition setHours (d : Date) (h m s ms : Z) : option Z :=
  match d with
  | None => None
  | Some t =>
      TimeClip (UTC z (MakeDate (Day (LocalTime z t)) (MakeTime h m s ms)))
  end.

(** [d.setDate(dt)] *)
Definition setDate (d : Date) (dt : option Z) : option Z :=
  match d, dt with
  | Some t, Some dt =>
      let lt := LocalTime z t in
      TimeClip (UTC z (MakeDate (MakeDay (YearFromTime lt) (MonthFromTime lt) dt)
                                (TimeWithinDay lt)))
  | _, _ => None
  end.

(** [d.setMonth(m)] *)
Definition setMonth (d : Date) (m : option Z) : option Z :=
  match d, m with
  | Some t, Some m =>
      let lt := LocalTime z t in
      TimeClip (UTC z (MakeDate (MakeDay (YearFromTime lt) m (DateFromTime lt))
                                (TimeWithinDay lt)))
  | _, _ => None
  end.

(** [new Date(year, month, date)] *)
Definition Date_ymd (year month date : option Z) : Date :=
  match year, month, date with
  | Some y, Some m, Some dt =>
      TimeClip (UTC z (MakeDate (MakeDay (MakeFullYear y) m dt) (MakeTime 0 0 0 0)))
  | _, _, _ => None
  end.

(** [Date.parse] on the ECMAScript format; a date-time without a zone
    designator is local time. *)
Definition Date_parse (s : string) : option Z :=
  match ISO.fields s with
  | Some (t, Some off) => TimeClip (t - off)
  | Some (t, None) => TimeClip (UTC z t)
  | None => None
  end.

End LocalZone.

(** The five boundaries of [filteredEvents], SportsScreen.js:41-46. *)
Module SportsScreen.

Section FilteredEvents.

Variable z : Zone.
(** The engine's [Date.parse]. *)
Variable parse : string -> option Z.
(** The clock reading of [new Date()]. *)
Variable now : Z.

Definition startOfDay : option Z := setHours z (Some now) 0 0 0 0.

Definition endOfDay : option Z := setHours z (Some now) 23 59 59 999.

Definition endOfWeek : option Z :=
  setDate z (Date_of_number startOfDay)
    (num_add (num_sub (getDate z (Date_of_number startOfDay))
                      (getDay z (Date_of_number startOfDay)))
             (Some 7)).

Definition endOfMonth : option Z :=
  setHours z
    (Date_ymd z (getFullYear z (Some now)) (num_add (getMonth z (Some now)) (Some 1)) (Some 0))
    23 59 59 999.

Definition endOfNextMonth : option Z :=
  setHours z
    (Date_ymd z (getFullYear z (Some now)) (num_add (getMonth z (Some now)) (Some 2)) (Some 0))
    23 59 59 999.

Definition timeMatch (timeFilter : string) (event : Event) : bool :=
  let eventDate := Date_of_field parse (date event) in
  if String.eqb timeFilter "Today" then
    num_ge eventDate startOfDay && num_le eventDate endOfDay
  else if String.eqb timeFilter "This Week" then
    num_ge eventDate startOfDay && num_le eventDate endOfWeek
  else if String.eqb timeFilter "This Month" then
    num_ge eventDate startOfDay && num_le eventDate endOfMonth
  else if String.eqb timeFilter "Next Month" then
    num_gt eventDate endOfMonth && num_le eventDate endOfNextMonth
  else false.

Definition categoryMatch (categoryFilter : string) (event : Event) : result jsval :=
  if String.eqb categoryFilter "Sports" then Ok (VBool true)
  else if existsb (String.eqb categoryFilter) ["NFL"; "NBA"; "MLB"; "NHL"] then
    (* event.subcategory && event.subcategory.includes(categoryFilter) *)
    if truthy (of_field (subcategory event)) then
      call_includes (subcategory event) categoryFilter
    else Ok (of_field (subcategory event))
  else Ok (VBool false).

Definition filteredEvents (events : list Event) (timeFilter categoryFilter : string) :
  result (list Event) :=
  filterM (fun event =>
             let timeMatch := timeMatch timeFilter event in
             bind (categoryMatch categoryFilter event) (fun categoryMatch =>
             Ok (truthy (js_and (VBool timeMatch) categoryMatch))))
          events.

End FilteredEvents.

End SportsScreen.

(** The five boundaries of [filteredEvents], MusicScreen.js:43-48. *)
Module MusicScreen.

Section FilteredEvents.

Variable z : Zone.
(** The engine's [Date.parse]. *)
Variable parse : string -> option Z.
(** The clock reading of [new Date()]. *)
Variable now : Z.

Definition startOfDay : option Z := setHours z (Some now) 0 0 0 0.

Definition endOfDay : option Z := setHours z (Some now) 23 59 59 999.

Definition endOfWeek : option Z :=
  setDate z (Date_of_number startOfDay)
    (num_add (num_sub (getDate z (Date_of_number startOfDay))
                      (getDay z (Date_of_number startOfDay)))
             (Some 7)).

Definition endOfMonth : option Z :=
  setHours z
    (Date_ymd z (getFullYear z (Some now)) (num_add (getMonth z (Some now)) (Some 1)) (Some 0))
    23 59 59 999.

Definition endOfNextMonth : option Z :=
  setHours z
    (Date_ymd z (getFullYear z (Some now)) (num_add (getMonth z (Some now)) (Some 2)) (Some 0))
    23 59 59 999.

Definition timeMatch (timeFilter : string) (event : Event) : bool :=
  let eventDate := Date_of_field parse (date event) in
  if String.eqb timeFilter "Today" then
    num_ge eventDate startOfDay && num_le eventDate endOfDay
  else if String.eqb timeFilter "This Week" then
    num_ge eventDate startOfDay && num_le eventDate endOfWeek
  else if String.eqb timeFilter "This Month" then
    num_ge eventDate startOfDay && num_le eventDate endOfMonth
  else if String.eqb timeFilter "Next Month" then
    num_gt eventDate endOfMonth && num_le eventDate endOfNextMonth
  else false.

Definition categoryMatch (genreFilter : string) (event : Event) : result jsval :=
  if String.eqb genreFilter "Music" then Ok (VBool true)
  else
    (* event.subcategory &&
       event.subcategory.toLowerCase().includes(genreFilter.toLowerCase()) *)
    if truthy (of_field (subcategory event)) then
      bind (call_toLowerCase (subcategory event)) (fun lowered =>
      call_includes lowered (toLowerCase genreFilter))
    else Ok (of_field (subcategory event)).

Definition filteredEvents (events : list Event) (timeFilter genreFilter : string) :
  result (list Event) :=
  filterM (fun event =>
             let timeMatch := timeMatch timeFilter event in
             bind (categoryMatch genreFilter event) (fun categoryMatch =>
             Ok (truthy (js_and (VBool timeMatch) categoryMatch))))
          events.

End FilteredEvents.

End MusicScreen.

Module mockApi.

Section Clock.

Variable z : Zone.
(** The clock readings of the four [new Date()] calls, in order. *)
Variables now1 now2 now3 now4 : Z.

Definition fetchTicketmasterEvents : result (list Event) :=
  let today : option Z := Some now1 in
  let tomorrow := setDate z (Some now2) (num_add (getDate z today) (Some 1)) in
  let nextWeek := setDate z (Some now3) (num_add (getDate z today) (Some 7)) in
  let nextMonth := setMonth z (Some now4) (num_add (getMonth z today) (Some 1)) in
  bind (ISO.toISOString today) (fun date1 =>
  bind (ISO.toISOString today) (fun date2 =>
  bind (ISO.toISOString tomorrow) (fun date3 =>
  bind (ISO.toISOString nextWeek) (fun date4 =>
  bind (ISO.toISOString nextMonth) (fun date5 =>
  Ok (mockListOf date1 date2 date3 date4 date5)))))).

End Clock.

End mockApi.

Module api.

Section Fetch.

Variable z : Zone.
Variable fetch : string -> FetchOutcome.
Variables now1 now2 now3 now4 : Z.

Definition fetchTicketmasterEvents (city stateCode : string) (radius : Z)
  (category : option string) : result (list Event) :=
  let mock := mockApi.fetchTicketmasterEvents z now1 now2 now3 now4 in
  match fetch (api.TICKETMASTER_ENDPOINT city stateCode radius category) with
  | Response data =>
      match _embedded data with
      | None => mock
      | Some emb =>
          match events emb with
          | None => mock
          | Some evs =>
              if Z.of_nat (List.length evs) =? 0 then mock
              else Ok (map api.normalize evs)
          end
      end
  | TransportFailure => mock
  end.

End Fetch.

End api.

(** *** Vocabulary *)

(** Every offset of the zone is at most a day. *)
Definition bounded (z : Zone) : Prop :=
  Forall (fun o => Z.abs o <= msPerDay) (offsets z).

(** The offset does not change between the instants [a] and [b]. *)
Definition steady (z : Zone) (a b : Z) : Prop :=
  forall t, a <= t <= b -> offsetAt z t = offsetAt z a.

(** The local clock reads [t] at some instant: no change skips [t]. *)
Definition occurs (z : Zone) (t : Z) : Prop :=
  exists u, LocalTime z u = t.

(** The local times that the five boundaries of [now] aim at all occur:
    the first and the last millisecond of today, the midnight that ends
    the week, and the first and the last millisecond of the last day of
    this month and of the next. *)
Definition boundariesOccur (z : Zone) (now : Z) : Prop :=
  occurs z (MakeDate (Day (LocalTime z now)) 0) /\
  occurs z (MakeDate (Day (LocalTime z now)) (msPerDay - 1)) /\
  occurs z (MakeDate (Day (LocalTime z now) + 7 - WeekDay (LocalTime z now)) 0) /\
  occurs z (MakeDate (MakeDay (MakeFullYear (YearFromTime (LocalTime z now)))
                              (MonthFromTime (LocalTime z now) + 1) 0) 0) /\
  occurs z (MakeDate (MakeDay (MakeFullYear (YearFromTime (LocalTime z now)))
                              (MonthFromTime (LocalTime z now) + 1) 0) (msPerDay - 1)) /\
  occurs z (MakeDate (MakeDay (MakeFullYear (YearFromTime (LocalTime z now)))
                              (MonthFromTime (LocalTime z now) + 2) 0) 0) /\
  occurs z (MakeDate (MakeDay (MakeFullYear (YearFromTime (LocalTime z now)))
                              (MonthFromTime (LocalTime z now) + 2) 0) (msPerDay - 1)).

(** Offsets of at most a day and a clock reading at least [margin] inside
    the range of time values. *)
Definition clockInRange (z : Zone) (now : Z) : Prop :=
  bounded z /\ Z.abs now <= maxTime - margin.

(** A zone that keeps one offset. *)
Definition fixed (tza : Z) : Zone := {| initial := tza; transitions := [] |}.

(** America/Denver in 2025: Mountain Standard Time, seven hours behind UTC,
    with daylight time, six hours behind, from 2025-03-09T09:00Z to
    2025-11-02T08:00Z. *)
Definition America_Denver : Zone :=
  {| initial := -25200000;
     transitions := [(1741510800000, -21600000); (1762070400000, -25200000)] |}.

(** America/Santiago in 2025: summer time, three hours behind UTC, until
    2025-04-06T03:00Z, when the clocks go back from 24:00 to 23:00, and again
    from 2025-09-07T04:00Z, when they go from 24:00 to 01:00; four hours
    behind in between. *)
Definition America_Santiago : Zone :=
  {| initial := -10800000;
     transitions := [(1743908400000, -14400000); (1757217600000, -10800000)] |}.

End Zoned.

(** * Properties *)

(** ** The calendar *)

Example epoch_year : YearFromTime 0 = 1970.
Proof. reflexivity. Qed.

Example y2000_day : DayFromYear 2000 = 10957.
Proof. reflexivity. Qed.

Example last_ms_of_1999 :
  (YearFromTime 946684799999, MonthFromTime 946684799999,
   DateFromTime 946684799999, WeekDay 946684799999) = (1999, 11, 31, 5).
Proof. reflexivity. Qed.

Example leap_day_2024 :
  let t := MakeDate (MakeDay 2024 1 29) 0 in
  (t, YearFromTime t, MonthFromTime t, DateFromTime t) = (1709164800000, 2024, 1, 29).
Proof. reflexivity. Qed.

Example before_epoch :
  (YearFromTime (-1), MonthFromTime (-1), DateFromTime (-1), WeekDay (-1)) =
  (1969, 11, 31, 3).
Proof. reflexivity. Qed.

Example month_overflow : MakeDay 2025 12 0 = MakeDay 2025 11 31.
Proof. reflexivity. Qed.

Ltac zdiv := Z.to_euclidean_division_equations; lia.

Lemma DayFromYear_succ y : DayFromYear (y + 1) = DayFromYear y + DaysInYear y.
Proof.
  unfold DayFromYear, DaysInYear, isLeapYear.
  destruct (y mod 4 =? 0) eqn:E4; destruct (y mod 100 =? 0) eqn:E100;
    destruct (y mod 400 =? 0) eqn:E400; cbn [andb orb negb];
    rewrite ?Z.eqb_eq, ?Z.eqb_neq in *; zdiv.
Qed.

Lemma DaysInYear_cases y : DaysInYear y = 365 \/ DaysInYear y = 366.
Proof. unfold DaysInYear. destruct (isLeapYear y); auto. Qed.

Lemma DayFromYear_lt y1 y2 : y1 < y2 -> DayFromYear y1 < DayFromYear y2.
Proof. unfold DayFromYear. intros H. zdiv. Qed.

Lemma DayFromYear_le y1 y2 : y1 <= y2 -> DayFromYear y1 <= DayFromYear y2.
Proof. unfold DayFromYear. intros H. zdiv. Qed.

(** [YearFromTime t] is the year whose days include [Day t]. *)
Lemma YearFromTime_spec t :
  DayFromYear (YearFromTime t) <= Day t < DayFromYear (YearFromTime t + 1).
Proof.
  unfold YearFromTime. set (d := Day t). clearbody d.
  cbv zeta.
  destruct (d <? DayFromYear (1970 + 400 * d / 146097)) eqn:E1;
    [| destruct (DayFromYear (1970 + 400 * d / 146097 + 1) <=? d) eqn:E2 ];
    rewrite ?Z.ltb_lt, ?Z.ltb_ge, ?Z.leb_le, ?Z.leb_gt in *;
    unfold DayFromYear in *; zdiv.
Qed.

(** It is the largest year that starts no later than [t], as ECMA-262
    defines it. *)
Lemma YearFromTime_largest t y :
  TimeFromYear y <= t <-> y <= YearFromTime t.
Proof.
  pose proof (YearFromTime_spec t) as [Hlo Hhi].
  unfold TimeFromYear, Day, msPerDay in *.
  split; intros H.
  - destruct (Z_le_gt_dec y (YearFromTime t)) as [|Hgt]; [assumption|].
    assert (DayFromYear (YearFromTime t + 1) <= DayFromYear y)
      by (apply DayFromYear_le; lia).
    zdiv.
  - pose proof (DayFromYear_le _ _ H). zdiv.
Qed.

Lemma YearFromTime_unique t y :
  DayFromYear y <= Day t < DayFromYear (y + 1) -> YearFromTime t = y.
Proof.
  intros [Hlo Hhi]. pose proof (YearFromTime_spec t) as [Hlo' Hhi'].
  destruct (Z.lt_trichotomy (YearFromTime t) y) as [Hlt | [Heq | Hgt]]; [| assumption |].
  - assert (DayFromYear (YearFromTime t + 1) <= DayFromYear y)
      by (apply DayFromYear_le; lia). lia.
  - assert (DayFromYear (y + 1) <= DayFromYear (YearFromTime t))
      by (apply DayFromYear_le; lia). lia.
Qed.

Lemma DayWithinYear_range t :
  0 <= DayWithinYear t < DaysInYear (YearFromTime t).
Proof.
  unfold DayWithinYear. pose proof (YearFromTime_spec t) as H.
  rewrite DayFromYear_succ in H. lia.
Qed.

Lemma MonthFromTime_range t : 0 <= MonthFromTime t <= 11.
Proof.
  unfold MonthFromTime. cbv zeta.
  repeat match goal with |- context [if ?c then _ else _] => destruct c end; lia.
Qed.

(** The day of the year lies in the month that [MonthFromTime] names. *)
Lemma MonthFromTime_spec t :
  monthStart (InLeapYear t) (MonthFromTime t) <= DayWithinYear t
    < monthStart (InLeapYear t) (MonthFromTime t + 1).
Proof.
  pose proof (DayWithinYear_range t) as H.
  unfold MonthFromTime, DaysInYear, InLeapYear in *. cbv zeta.
  destruct (isLeapYear (YearFromTime t));
    repeat match goal with
           | |- context [if ?a <? ?b then _ else _] =>
               let E := fresh "E" in
               destruct (a <? b) eqn:E;
               [ apply Z.ltb_lt in E | apply Z.ltb_ge in E ]
           end;
    cbv [monthStart] in *; simpl in *; lia.
Qed.

Lemma DateFromTime_range t :
  1 <= DateFromTime t <= DaysInMonth (InLeapYear t) (MonthFromTime t).
Proof.
  pose proof (MonthFromTime_spec t). unfold DateFromTime, DaysInMonth. lia.
Qed.

Lemma DaysInMonth_bounds leap m : 0 <= m <= 11 -> 28 <= DaysInMonth leap m <= 31.
Proof.
  intros H. unfold DaysInMonth.
  assert (m = 0 \/ m = 1 \/ m = 2 \/ m = 3 \/ m = 4 \/ m = 5 \/ m = 6 \/ m = 7 \/
          m = 8 \/ m = 9 \/ m = 10 \/ m = 11) as Hm by lia.
  destruct leap; repeat (destruct Hm as [-> | Hm]); try subst m; cbn; lia.
Qed.

Lemma monthStart_12 leap : monthStart leap 12 = if leap then 366 else 365.
Proof. destruct leap; reflexivity. Qed.

(** The day number of the first day of a month in range. *)
Lemma MakeDay_in_year y m dt :
  0 <= m <= 11 ->
  MakeDay y m dt = DayFromYear y + monthStart (isLeapYear y) m + dt - 1.
Proof.
  intros H. unfold MakeDay. cbv zeta.
  rewrite (Z.div_small m 12), (Z.mod_small m 12) by lia.
  rewrite Z.add_0_r. reflexivity.
Qed.

(** Month 12 of a year is month 0 of the next. *)
Lemma MakeDay_12 y dt : MakeDay y 12 dt = DayFromYear (y + 1) + dt - 1.
Proof. unfold MakeDay. cbn. lia. Qed.

Lemma MakeDay_date y m dt : MakeDay y m dt = MakeDay y m 1 + dt - 1.
Proof. unfold MakeDay. lia. Qed.

(** Every month has at least 28 and at most 31 days, whatever the month
    index. *)
Lemma MakeDay_next_month y m dt :
  MakeDay y m dt + 28 <= MakeDay y (m + 1) dt <= MakeDay y m dt + 31.
Proof.
  unfold MakeDay. cbv zeta.
  assert (0 <= m mod 12 < 12) as Hr by (apply Z.mod_pos_bound; lia).
  destruct (Z.eq_dec (m mod 12) 11) as [E | E].
  - assert ((m + 1) / 12 = m / 12 + 1) as -> by zdiv.
    assert ((m + 1) mod 12 = 0) as -> by zdiv.
    rewrite E. replace (y + (m / 12 + 1)) with (y + m / 12 + 1) by lia.
    rewrite DayFromYear_succ. unfold DaysInYear.
    destruct (isLeapYear (y + m / 12)); destruct (isLeapYear (y + m / 12 + 1)); cbn; lia.
  - assert ((m + 1) / 12 = m / 12) as -> by zdiv.
    assert ((m + 1) mod 12 = m mod 12 + 1) as -> by zdiv.
    pose proof (DaysInMonth_bounds (isLeapYear (y + m / 12)) (m mod 12)) as Hb.
    unfold DaysInMonth in Hb. lia.
Qed.

(** [MakeDay] finds the month that its arguments name (ECMA-262: a time
    value [t] with [YearFromTime t = ym], [MonthFromTime t = mn] and
    [DateFromTime t = 1]). *)
Lemma MakeDay_sound y m :
  let t := MakeDate (MakeDay y m 1) 0 in
  YearFromTime t = y + m / 12 /\ MonthFromTime t = m mod 12 /\ DateFromTime t = 1.
Proof.
  cbv zeta.
  assert (0 <= m mod 12 < 12) as Hr by (apply Z.mod_pos_bound; lia).
  set (ym := y + m / 12). set (mn := m mod 12) in *.
  assert (Day (MakeDate (MakeDay y m 1) 0) = DayFromYear ym + monthStart (isLeapYear ym) mn)
    as HD.
  { unfold MakeDate, Day, MakeDay, msPerDay. cbv zeta. fold ym mn.
    rewrite Z.add_0_r, Z.div_mul by lia. lia. }
  assert (0 <= monthStart (isLeapYear ym) mn /\
          monthStart (isLeapYear ym) mn < monthStart (isLeapYear ym) (mn + 1) /\
          monthStart (isLeapYear ym) (mn + 1) <= DaysInYear ym) as (H0 & H1 & H2).
  { pose proof (DaysInMonth_bounds (isLeapYear ym) mn ltac:(lia)) as Hb.
    unfold DaysInMonth in Hb. unfold DaysInYear.
    assert (mn = 0 \/ mn = 1 \/ mn = 2 \/ mn = 3 \/ mn = 4 \/ mn = 5 \/ mn = 6 \/ mn = 7 \/
            mn = 8 \/ mn = 9 \/ mn = 10 \/ mn = 11) as Hm by lia.
    clearbody mn.
    destruct (isLeapYear ym); repeat (destruct Hm as [-> | Hm]); try subst mn; cbn; lia. }
  assert (YearFromTime (MakeDate (MakeDay y m 1) 0) = ym) as HY.
  { apply YearFromTime_unique. rewrite HD, DayFromYear_succ. lia. }
  assert (DayWithinYear (MakeDate (MakeDay y m 1) 0) = monthStart (isLeapYear ym) mn) as HW.
  { unfold DayWithinYear. rewrite HD, HY. lia. }
  assert (MonthFromTime (MakeDate (MakeDay y m 1) 0) = mn) as HM.
  { pose proof (MonthFromTime_spec (MakeDate (MakeDay y m 1) 0)) as Hs.
    pose proof (MonthFromTime_range (MakeDate (MakeDay y m 1) 0)) as Hg.
    unfold InLeapYear in Hs. rewrite HY, HW in Hs.
    set (k := MonthFromTime (MakeDate (MakeDay y m 1) 0)) in *.
    assert (k = 0 \/ k = 1 \/ k = 2 \/ k = 3 \/ k = 4 \/ k = 5 \/ k = 6 \/ k = 7 \/
            k = 8 \/ k = 9 \/ k = 10 \/ k = 11) as Hk by lia.
    assert (mn = 0 \/ mn = 1 \/ mn = 2 \/ mn = 3 \/ mn = 4 \/ mn = 5 \/ mn = 6 \/ mn = 7 \/
            mn = 8 \/ mn = 9 \/ mn = 10 \/ mn = 11) as Hm by lia.
    clearbody k mn. clear - Hs Hk Hm.
    destruct (isLeapYear ym);
      repeat (destruct Hk as [-> | Hk]); try subst k;
      repeat (destruct Hm as [-> | Hm]); try subst mn; cbn in Hs; lia. }
  split; [exact HY | split; [exact HM |]].
  unfold DateFromTime, InLeapYear. rewrite HW, HY, HM. lia.
Qed.

(** Setting the day of the month within the month of [t]. *)
Lemma MakeDay_same_month t dt :
  MakeDay (YearFromTime t) (MonthFromTime t) dt = Day t - DateFromTime t + dt.
Proof.
  rewrite MakeDay_in_year by apply MonthFromTime_range.
  unfold DateFromTime, DayWithinYear, InLeapYear. lia.
Qed.

(** Day 0 of the following month is the last day of the month of [t]. *)
Lemma MakeDay_month_end t :
  MakeDay (YearFromTime t) (MonthFromTime t + 1) 0 =
  Day t + (DaysInMonth (InLeapYear t) (MonthFromTime t) - DateFromTime t).
Proof.
  pose proof (MonthFromTime_range t) as Hr.
  unfold DaysInMonth, DateFromTime, DayWithinYear, InLeapYear.
  destruct (Z.eq_dec (MonthFromTime t) 11) as [E | E].
  - rewrite E. change (11 + 1) with 12. rewrite MakeDay_12, DayFromYear_succ, monthStart_12.
    unfold DaysInYear. destruct (isLeapYear (YearFromTime t)); lia.
  - rewrite MakeDay_in_year by lia. lia.
Qed.

Lemma Day_MakeDate d time :
  0 <= time < msPerDay -> Day (MakeDate d time) = d.
Proof. unfold Day, MakeDate, msPerDay. intros H. zdiv. Qed.

Lemma TimeWithinDay_MakeDate d time :
  0 <= time < msPerDay -> TimeWithinDay (MakeDate d time) = time.
Proof. unfold TimeWithinDay, MakeDate, msPerDay. intros H. zdiv. Qed.

Lemma Day_bounds t : Day t * msPerDay <= t < Day t * msPerDay + msPerDay.
Proof. unfold Day, msPerDay. zdiv. Qed.

Lemma WeekDay_range t : 0 <= WeekDay t <= 6.
Proof. unfold WeekDay. zdiv. Qed.

(** Bounds on the year of a time value in the range of Date objects. *)
Lemma YearFromTime_bounds t :
  Z.abs t <= maxTime -> -271821 <= YearFromTime t <= 275760.
Proof.
  intros H. pose proof (YearFromTime_spec t) as [Hlo Hhi].
  assert (-100000000 <= Day t <= 100000000) by (unfold Day, msPerDay, maxTime in *; zdiv).
  split.
  - destruct (Z_le_gt_dec (-271821) (YearFromTime t)); [assumption|].
    assert (DayFromYear (YearFromTime t + 1) <= DayFromYear (-271821))
      by (apply DayFromYear_le; lia).
    vm_compute (DayFromYear (-271821)) in *. lia.
  - destruct (Z_le_gt_dec (YearFromTime t) 275760); [assumption|].
    assert (DayFromYear 275761 <= DayFromYear (YearFromTime t))
      by (apply DayFromYear_le; lia).
    vm_compute (DayFromYear 275761) in *. lia.
Qed.

(** ** Date methods *)

Lemma TimeClip_in_range t : Z.abs t <= maxTime -> TimeClip t = Some t.
Proof.
  intros H. unfold TimeClip. apply Z.leb_le in H. rewrite H. reflexivity.
Qed.

Lemma TimeClip_Some t v : TimeClip t = Some v -> v = t /\ Z.abs t <= maxTime.
Proof.
  unfold TimeClip. destruct (Z.abs t <=? maxTime) eqn:E; [|discriminate].
  intros [= <-]. apply Z.leb_le in E. auto.
Qed.

Lemma LocalTime_UTC tza t : LocalTime tza (UTC tza t) = t.
Proof. unfold LocalTime, UTC. lia. Qed.

Lemma MakeTime_midnight : MakeTime 0 0 0 0 = 0.
Proof. reflexivity. Qed.

Lemma MakeTime_last_ms : MakeTime 23 59 59 999 = msPerDay - 1.
Proof. reflexivity. Qed.

(** The days that the range hypothesis leaves to the filter. *)
Lemma clockInRange_day tza now :
  clockInRange tza now ->
  -100000000 + 398 <= Day (LocalTime tza now) <= 100000000 - 399.
Proof.
  unfold clockInRange, margin, LocalTime, Day, maxTime, msPerDay.
  intros [Hz Hn]. zdiv.
Qed.

(** A local day at least two days inside the range converts to a time value,
    whatever the time of day. *)
Lemma local_day_in_range tza d time :
  Z.abs tza <= msPerDay -> 0 <= time < msPerDay ->
  -100000000 + 2 <= d <= 100000000 - 2 ->
  TimeClip (UTC tza (MakeDate d time)) = Some (UTC tza (MakeDate d time)).
Proof.
  intros Hz Ht Hd. apply TimeClip_in_range.
  unfold UTC, MakeDate, maxTime, msPerDay in *. lia.
Qed.

(** ** The date windows *)

(** The value of each boundary instant, whenever it is a number. *)
Section WindowValues.

Variables tza now : Z.

Local Abbreviation L := (LocalTime tza now).
Local Abbreviation D := (Day (LocalTime tza now)).
Local Abbreviation Y := (YearFromTime (LocalTime tza now)).
Local Abbreviation M := (MonthFromTime (LocalTime tza now)).

Lemma startOfDay_Some sod :
  SportsScreen.startOfDay tza now = Some sod -> sod = UTC tza (MakeDate D 0).
Proof.
  unfold SportsScreen.startOfDay, setHours. rewrite MakeTime_midnight.
  intros H. apply TimeClip_Some in H as [-> _]. reflexivity.
Qed.

Lemma endOfDay_Some eod :
  SportsScreen.endOfDay tza now = Some eod -> eod = UTC tza (MakeDate D (msPerDay - 1)).
Proof.
  unfold SportsScreen.endOfDay, setHours. rewrite MakeTime_last_ms.
  intros H. apply TimeClip_Some in H as [-> _]. reflexivity.
Qed.

Lemma endOfWeek_Some eow :
  SportsScreen.endOfWeek tza now = Some eow ->
  eow = UTC tza (MakeDate (D + 7 - WeekDay L) 0).
Proof.
  unfold SportsScreen.endOfWeek.
  destruct (SportsScreen.startOfDay tza now) as [sod |] eqn:Hs;
    [| unfold Date_of_number, setDate; discriminate].
  apply startOfDay_Some in Hs. unfold Date_of_number.
  destruct (TimeClip sod) as [x |] eqn:Hc; [| unfold setDate; discriminate].
  apply TimeClip_Some in Hc as [-> _]. subst sod.
  unfold getDate, getDay, option_map, num_sub, num_add, setDate. cbv zeta.
  rewrite LocalTime_UTC, MakeDay_same_month.
  rewrite TimeWithinDay_MakeDate, Day_MakeDate by (unfold msPerDay; lia).
  assert (WeekDay (MakeDate D 0) = WeekDay L) as ->.
  { unfold WeekDay. rewrite Day_MakeDate by (unfold msPerDay; lia). reflexivity. }
  replace (D - DateFromTime (MakeDate D 0) + (DateFromTime (MakeDate D 0) - WeekDay L + 7))
    with (D + 7 - WeekDay L) by lia.
  intros H. apply TimeClip_Some in H as [-> _]. reflexivity.
Qed.

(** The end of the month [k] months after the current one: the last
    millisecond of day 0 of month [M + k] of the constructor's year. *)
Lemma monthEnd_Some k v :
  setHours tza
    (Date_ymd tza (getFullYear tza (Some now)) (num_add (getMonth tza (Some now)) (Some k))
              (Some 0)) 23 59 59 999 = Some v ->
  v = UTC tza (MakeDate (MakeDay (MakeFullYear Y) (M + k) 0) (msPerDay - 1)).
Proof.
  unfold getFullYear, getMonth, option_map, num_add, Date_ymd.
  rewrite MakeTime_midnight.
  destruct (TimeClip (UTC tza (MakeDate (MakeDay (MakeFullYear Y) (M + k) 0) 0)))
    as [x |] eqn:Hc; [| unfold setHours; discriminate].
  apply TimeClip_Some in Hc as [-> _].
  unfold setHours.
  rewrite LocalTime_UTC, Day_MakeDate, MakeTime_last_ms by (unfold msPerDay; lia).
  intros H. apply TimeClip_Some in H as [-> _]. reflexivity.
Qed.

Lemma endOfMonth_Some eom :
  SportsScreen.endOfMonth tza now = Some eom ->
  eom = UTC tza (MakeDate (MakeDay (MakeFullYear Y) (M + 1) 0) (msPerDay - 1)).
Proof. unfold SportsScreen.endOfMonth. apply monthEnd_Some. Qed.

Lemma endOfNextMonth_Some eonm :
  SportsScreen.endOfNextMonth tza now = Some eonm ->
  eonm = UTC tza (MakeDate (MakeDay (MakeFullYear Y) (M + 2) 0) (msPerDay - 1)).
Proof. unfold SportsScreen.endOfNextMonth. apply monthEnd_Some. Qed.

End WindowValues.

(** In range every boundary instant is a number. *)
Section Windows.

Variables tza now : Z.
Hypothesis Hrange : clockInRange tza now.

Local Abbreviation L := (LocalTime tza now).
Local Abbreviation D := (Day (LocalTime tza now)).
Local Abbreviation Y := (YearFromTime (LocalTime tza now)).
Local Abbreviation M := (MonthFromTime (LocalTime tza now)).

Lemma startOfDay_value :
  SportsScreen.startOfDay tza now = Some (UTC tza (MakeDate D 0)).
Proof.
  pose proof (clockInRange_day _ _ Hrange). destruct Hrange as [Hz _].
  unfold SportsScreen.startOfDay, setHours. rewrite MakeTime_midnight.
  apply local_day_in_range; unfold msPerDay in *; lia.
Qed.

Lemma endOfDay_value :
  SportsScreen.endOfDay tza now = Some (UTC tza (MakeDate D (msPerDay - 1))).
Proof.
  pose proof (clockInRange_day _ _ Hrange). destruct Hrange as [Hz _].
  unfold SportsScreen.endOfDay, setHours. rewrite MakeTime_last_ms.
  apply local_day_in_range; unfold msPerDay in *; lia.
Qed.

Lemma endOfWeek_value :
  SportsScreen.endOfWeek tza now = Some (UTC tza (MakeDate (D + 7 - WeekDay L) 0)).
Proof.
  pose proof (clockInRange_day _ _ Hrange) as HD. pose proof Hrange as [Hz _].
  pose proof (WeekDay_range L) as HW.
  unfold SportsScreen.endOfWeek. rewrite startOfDay_value.
  unfold Date_of_number.
  rewrite local_day_in_range by (unfold msPerDay in *; lia).
  unfold getDate, getDay, option_map, num_sub, num_add, setDate. cbv zeta.
  rewrite LocalTime_UTC, MakeDay_same_month.
  rewrite TimeWithinDay_MakeDate, Day_MakeDate by (unfold msPerDay; lia).
  assert (WeekDay (MakeDate D 0) = WeekDay L) as ->.
  { unfold WeekDay. rewrite Day_MakeDate by (unfold msPerDay; lia). reflexivity. }
  replace (D - DateFromTime (MakeDate D 0) + (DateFromTime (MakeDate D 0) - WeekDay L + 7))
    with (D + 7 - WeekDay L) by lia.
  apply local_day_in_range; unfold msPerDay in *; lia.
Qed.

(** The local day on which the window of [k] months ends: day 0 of the
    month [M + k] of the constructor's year. *)
Local Abbreviation monthEnd k := (MakeDay (MakeFullYear Y) (M + k) 0).

Lemma year_of_now : -271821 <= Y <= 275760.
Proof.
  apply YearFromTime_bounds. destruct Hrange as [Hz Hn].
  unfold LocalTime, margin, maxTime, msPerDay in *. lia.
Qed.

(** The constructor's year is the year of [now], unless that year is one of
    0..99, which the constructor reads as 1900..1999. *)
Lemma monthEnd_1 :
  (MakeFullYear Y = Y /\
   monthEnd 1 = D + (DaysInMonth (InLeapYear L) M - DateFromTime L)) \/
  (0 <= Y <= 99 /\ D < DayFromYear 100 /\ DayFromYear 1900 - 1 <= monthEnd 1 <= DayFromYear 2001).
Proof.
  unfold MakeFullYear.
  destruct ((0 <=? Y) && (Y <=? 99)) eqn:E.
  - right. apply andb_true_iff in E as [E1 E2]. apply Z.leb_le in E1, E2.
    pose proof (YearFromTime_spec L) as [_ Hhi].
    pose proof (DayFromYear_le (Y + 1) 100 ltac:(lia)).
    pose proof (MonthFromTime_range L) as HM.
    split; [lia | split; [lia |]].
    destruct (Z.eq_dec M 11) as [E11 | E11].
    + rewrite E11. change (11 + 1) with 12. rewrite MakeDay_12.
      pose proof (DayFromYear_le 1900 (1900 + Y + 1) ltac:(lia)).
      pose proof (DayFromYear_le (1900 + Y + 1) 2001 ltac:(lia)). lia.
    + rewrite MakeDay_in_year by lia.
      pose proof (DayFromYear_le 1900 (1900 + Y) ltac:(lia)).
      pose proof (DayFromYear_le (1900 + Y + 1) 2001 ltac:(lia)).
      rewrite DayFromYear_succ in *.
      pose proof (DaysInMonth_bounds (isLeapYear (1900 + Y)) M ltac:(lia)) as Hb.
      assert (0 <= monthStart (isLeapYear (1900 + Y)) (M + 1) <= DaysInYear (1900 + Y)).
      { unfold DaysInYear.
        assert (M = 0 \/ M = 1 \/ M = 2 \/ M = 3 \/ M = 4 \/ M = 5 \/ M = 6 \/ M = 7 \/
                M = 8 \/ M = 9 \/ M = 10) as Hm by lia.
        destruct (isLeapYear (1900 + Y));
          repeat (destruct Hm as [-> | Hm]); try rewrite Hm; cbn; lia. }
      lia.
  - left. split; [reflexivity | apply MakeDay_month_end].
Qed.

Lemma monthEnd_2 : monthEnd 1 + 28 <= monthEnd 2 <= monthEnd 1 + 31.
Proof.
  replace (M + 2) with (M + 1 + 1) by lia. apply MakeDay_next_month.
Qed.

Lemma monthEnd_range :
  -100000000 + 2 <= monthEnd 1 <= 100000000 - 2 /\
  -100000000 + 2 <= monthEnd 2 <= 100000000 - 2.
Proof.
  pose proof (clockInRange_day _ _ Hrange) as HD.
  pose proof monthEnd_2 as H2.
  pose proof (DateFromTime_range L) as Hd.
  pose proof (DaysInMonth_bounds (InLeapYear L) M (MonthFromTime_range L)) as Hb.
  destruct monthEnd_1 as [[_ H1] | (_ & _ & H1)].
  - lia.
  - vm_compute (DayFromYear 1900) in H1. vm_compute (DayFromYear 2001) in H1. lia.
Qed.

Lemma endOfMonth_value :
  SportsScreen.endOfMonth tza now = Some (UTC tza (MakeDate (monthEnd 1) (msPerDay - 1))).
Proof.
  pose proof monthEnd_range as [H1 _]. pose proof Hrange as [Hz _].
  unfold SportsScreen.endOfMonth, getFullYear, getMonth, option_map, num_add, Date_ymd.
  rewrite MakeTime_midnight, local_day_in_range by (unfold msPerDay in *; lia).
  unfold setHours. rewrite LocalTime_UTC, Day_MakeDate, MakeTime_last_ms by (unfold msPerDay; lia).
  apply local_day_in_range; unfold msPerDay in *; lia.
Qed.

Lemma endOfNextMonth_value :
  SportsScreen.endOfNextMonth tza now = Some (UTC tza (MakeDate (monthEnd 2) (msPerDay - 1))).
Proof.
  pose proof monthEnd_range as [_ H2]. pose proof Hrange as [Hz _].
  unfold SportsScreen.endOfNextMonth, getFullYear, getMonth, option_map, num_add, Date_ymd.
  rewrite MakeTime_midnight, local_day_in_range by (unfold msPerDay in *; lia).
  unfold setHours. rewrite LocalTime_UTC, Day_MakeDate, MakeTime_last_ms by (unfold msPerDay; lia).
  apply local_day_in_range; unfold msPerDay in *; lia.
Qed.

(** The last day of the month of [now] is not before today. *)
Lemma today_le_monthEnd : D <= monthEnd 1.
Proof.
  pose proof (DateFromTime_range L).
  destruct monthEnd_1 as [[_ H1] | (_ & Hd & H1 & _)].
  - lia.
  - pose proof (DayFromYear_lt 100 1900 ltac:(lia)). lia.
Qed.

Lemma today_lt_monthEnd : lastDayOfMonth L = false -> D < monthEnd 1.
Proof.
  unfold lastDayOfMonth. intros Hl. apply Z.eqb_neq in Hl.
  pose proof (DateFromTime_range L).
  destruct monthEnd_1 as [[_ H1] | (_ & Hd & H1 & _)].
  - lia.
  - pose proof (DayFromYear_lt 100 1900 ltac:(lia)). lia.
Qed.

End Windows.

(** ** Strings *)

Lemma startsWith_spec s search :
  startsWith s search = true <-> exists post, s = search ++ post.
Proof.
  revert s. induction search as [| a search IH]; intros s; simpl.
  - split; [intros _; exists s; reflexivity | intros _; destruct s; reflexivity].
  - destruct s as [| b s].
    + simpl. split; [discriminate | intros [post H]; discriminate].
    + simpl. rewrite andb_true_iff, Ascii.eqb_eq, IH. split.
      * intros [-> [post ->]]. exists post. reflexivity.
      * intros [post H]. injection H as -> ->. split; [reflexivity | exists post; reflexivity].
Qed.

(** [includes] decides the substring relation. *)
Lemma includes_spec s search :
  includes s search = true <-> Substring search s.
Proof.
  unfold Substring. induction s as [| c s IH]; cbn [includes].
  - rewrite orb_false_r, startsWith_spec. split.
    + intros [post H]. exists EmptyString, post. exact H.
    + intros [pre [post H]]. destruct pre; simpl in H.
      * exists post. exact H.
      * discriminate.
  - rewrite orb_true_iff, startsWith_spec, IH. split.
    + intros [[post H] | [pre [post H]]].
      * exists EmptyString, post. exact H.
      * exists (String c pre), post. simpl. rewrite H. reflexivity.
    + intros [pre [post H]]. destruct pre as [| c' pre]; simpl in H.
      * left. exists post. exact H.
      * right. injection H as _ H. exists pre, post. exact H.
Qed.

Lemma includes_empty s : includes s EmptyString = true.
Proof. destruct s; reflexivity. Qed.

Lemma Substring_of_empty search : Substring search EmptyString -> search = EmptyString.
Proof.
  intros [pre [post H]]. destruct pre; simpl in H; [| discriminate].
  destruct search; [reflexivity | discriminate].
Qed.

Lemma truthy_VStr s : truthy (VStr s) = true <-> s <> EmptyString.
Proof.
  simpl. rewrite negb_true_iff. split.
  - intros H ->. discriminate.
  - intros H. apply String.eqb_neq. exact H.
Qed.

(** ** The filter *)

Lemma filterM_pure {A : Type} (callback : A -> result bool) (p : A -> bool) array :
  (forall x, callback x = Ok (p x)) ->
  filterM callback array = Ok (filter p array).
Proof.
  intros H. induction array as [| x rest IH]; simpl.
  - reflexivity.
  - rewrite H, IH. simpl. reflexivity.
Qed.

Lemma filter_Subsequence {A : Type} (p : A -> bool) l : Subsequence (filter p l) l.
Proof.
  induction l as [| x l IH]; simpl.
  - constructor.
  - destruct (p x); constructor; exact IH.
Qed.

Lemma Subsequence_In {A : Type} (l1 l2 : list A) x :
  Subsequence l1 l2 -> In x l1 -> In x l2.
Proof.
  induction 1; simpl; intros Hin; auto.
  destruct Hin; auto.
Qed.

Lemma num_le_leN a b : num_le a b = true <-> leN a b.
Proof.
  unfold num_le, leN. destruct a as [x |], b as [y |]; split;
    try discriminate;
    try (intros (x' & y' & H1 & H2 & _); discriminate).
  - intros H. apply Z.leb_le in H. eauto.
  - intros (x' & y' & [= <-] & [= <-] & H). apply Z.leb_le. exact H.
Qed.

Lemma num_ge_leN a b : num_ge a b = true <-> leN b a.
Proof.
  unfold num_ge, leN. destruct a as [x |], b as [y |]; split;
    try discriminate;
    try (intros (x' & y' & H1 & H2 & _); discriminate).
  - intros H. apply Z.leb_le in H. eauto.
  - intros (x' & y' & [= <-] & [= <-] & H). apply Z.leb_le. exact H.
Qed.

Lemma num_gt_ltN a b : num_gt a b = true <-> ltN b a.
Proof.
  unfold num_gt, ltN. destruct a as [x |], b as [y |]; split;
    try discriminate;
    try (intros (x' & y' & H1 & H2 & _); discriminate).
  - intros H. apply Z.ltb_lt in H. eauto.
  - intros (x' & y' & [= <-] & [= <-] & H). apply Z.ltb_lt. exact H.
Qed.

Lemma leN_Some x y : leN (Some x) (Some y) <-> x <= y.
Proof.
  unfold leN. split.
  - intros (x' & y' & Hx & Hy & H). congruence.
  - intros H. exists x, y. auto.
Qed.

Lemma ltN_Some x y : ltN (Some x) (Some y) <-> x < y.
Proof.
  unfold ltN. split.
  - intros (x' & y' & Hx & Hy & H). congruence.
  - intros H. exists x, y. auto.
Qed.

(** The two screens compute the same windows and the same time predicate. *)
Lemma Music_windows tza now :
  MusicScreen.startOfDay tza now = SportsScreen.startOfDay tza now /\
  MusicScreen.endOfDay tza now = SportsScreen.endOfDay tza now /\
  MusicScreen.endOfWeek tza now = SportsScreen.endOfWeek tza now /\
  MusicScreen.endOfMonth tza now = SportsScreen.endOfMonth tza now /\
  MusicScreen.endOfNextMonth tza now = SportsScreen.endOfNextMonth tza now.
Proof.
  unfold MusicScreen.endOfWeek, SportsScreen.endOfWeek,
    MusicScreen.startOfDay, SportsScreen.startOfDay,
    MusicScreen.endOfDay, SportsScreen.endOfDay,
    MusicScreen.endOfMonth, SportsScreen.endOfMonth,
    MusicScreen.endOfNextMonth, SportsScreen.endOfNextMonth.
  repeat split; exact eq_refl.
Qed.

Lemma Music_timeMatch tza parse now timeFilter e :
  MusicScreen.timeMatch tza parse now timeFilter e =
  SportsScreen.timeMatch tza parse now timeFilter e.
Proof.
  destruct (Music_windows tza now) as (H1 & H2 & H3 & H4 & H5).
  unfold MusicScreen.timeMatch, SportsScreen.timeMatch.
  rewrite H1, H2, H3, H4, H5. exact eq_refl.
Qed.

(** Decides the comparisons of a literal filter string with the literals of
    the code. *)
Ltac eval_filter :=
  cbv zeta;
  repeat match goal with
         | |- context [String.eqb ?a ?b] =>
             let r := eval vm_compute in (String.eqb a b) in
             change (String.eqb a b) with r
         end;
  cbv iota.

Section TimePredicate.

Variable tza : Z.
Variable parse : string -> option Z.
Variable now : Z.

Local Abbreviation timeMatch := (SportsScreen.timeMatch tza parse now).
Local Abbreviation eventDate e := (Date_of_field parse (date e)).

Lemma timeMatch_Today e :
  timeMatch "Today" e = true <->
  leN (SportsScreen.startOfDay tza now) (eventDate e) /\
  leN (eventDate e) (SportsScreen.endOfDay tza now).
Proof.
  unfold SportsScreen.timeMatch. eval_filter.
  rewrite andb_true_iff, num_ge_leN, num_le_leN. reflexivity.
Qed.

Lemma timeMatch_ThisWeek e :
  timeMatch "This Week" e = true <->
  leN (SportsScreen.startOfDay tza now) (eventDate e) /\
  leN (eventDate e) (SportsScreen.endOfWeek tza now).
Proof.
  unfold SportsScreen.timeMatch. eval_filter.
  rewrite andb_true_iff, num_ge_leN, num_le_leN. reflexivity.
Qed.

Lemma timeMatch_ThisMonth e :
  timeMatch "This Month" e = true <->
  leN (SportsScreen.startOfDay tza now) (eventDate e) /\
  leN (eventDate e) (SportsScreen.endOfMonth tza now).
Proof.
  unfold SportsScreen.timeMatch. eval_filter.
  rewrite andb_true_iff, num_ge_leN, num_le_leN. reflexivity.
Qed.

Lemma timeMatch_NextMonth e :
  timeMatch "Next Month" e = true <->
  ltN (SportsScreen.endOfMonth tza now) (eventDate e) /\
  leN (eventDate e) (SportsScreen.endOfNextMonth tza now).
Proof.
  unfold SportsScreen.timeMatch. eval_filter.
  rewrite andb_true_iff, num_gt_ltN, num_le_leN. reflexivity.
Qed.

(** An event without a valid date matches no time filter, whatever the
    filter string. *)
Lemma timeMatch_invalid_date timeFilter e :
  eventDate e = None -> timeMatch timeFilter e = false.
Proof.
  intros H. unfold SportsScreen.timeMatch. cbv zeta. rewrite H.
  repeat match goal with |- context [if ?c then _ else _] => destruct c end;
    reflexivity.
Qed.

End TimePredicate.

(** ** The date windows: claims *)

Example sunday_2025_06_15 : WeekDay (MakeDate (MakeDay 2025 5 15) 0) = 0.
Proof. reflexivity. Qed.

Example saturday_2025_06_14 : WeekDay (MakeDate (MakeDay 2025 5 14) 0) = 6.
Proof. reflexivity. Qed.

(** The five boundary instants of both screens, as numbers. *)
Lemma windows_values tza now :
  clockInRange tza now ->
  let D := Day (LocalTime tza now) in
  let Y := YearFromTime (LocalTime tza now) in
  let M := MonthFromTime (LocalTime tza now) in
  SportsScreen.startOfDay tza now = Some (UTC tza (MakeDate D 0)) /\
  SportsScreen.endOfDay tza now = Some (UTC tza (MakeDate D (msPerDay - 1))) /\
  SportsScreen.endOfWeek tza now =
    Some (UTC tza (MakeDate (D + 7 - WeekDay (LocalTime tza now)) 0)) /\
  SportsScreen.endOfMonth tza now =
    Some (UTC tza (MakeDate (MakeDay (MakeFullYear Y) (M + 1) 0) (msPerDay - 1))) /\
  SportsScreen.endOfNextMonth tza now =
    Some (UTC tza (MakeDate (MakeDay (MakeFullYear Y) (M + 2) 0) (msPerDay - 1))).
Proof.
  intros H. cbv zeta.
  rewrite startOfDay_value, endOfDay_value, endOfWeek_value,
    endOfMonth_value, endOfNextMonth_value by exact H.
  repeat split.
Qed.

(** In a zone that keeps one offset: [endOfWeek] is [startOfDay] advanced
    by [7 - dayOfWeek(startOfDay)] days of 24 hours, a local midnight and a
    Sunday. *)
Lemma endOfWeek_fixed_offset tza now :
  (forall sod eow,
     SportsScreen.startOfDay tza now = Some sod ->
     SportsScreen.endOfWeek tza now = Some eow ->
     0 <= WeekDay (LocalTime tza sod) <= 6 /\
     eow = sod + (7 - WeekDay (LocalTime tza sod)) * msPerDay /\
     TimeWithinDay (LocalTime tza eow) = 0 /\
     WeekDay (LocalTime tza eow) = 0 /\
     (WeekDay (LocalTime tza now) = 0 -> eow = sod + 7 * msPerDay)) /\
  MusicScreen.startOfDay tza now = SportsScreen.startOfDay tza now /\
  MusicScreen.endOfWeek tza now = SportsScreen.endOfWeek tza now /\
  (clockInRange tza now ->
   exists sod eow,
     SportsScreen.startOfDay tza now = Some sod /\
     SportsScreen.endOfWeek tza now = Some eow).
Proof.
  destruct (Music_windows tza now) as (Msod & _ & Meow & _).
  split; [| split; [exact Msod | split; [exact Meow |]]].
  - intros sod eow Hsod Heow.
    apply startOfDay_Some in Hsod. apply endOfWeek_Some in Heow.
    set (D := Day (LocalTime tza now)) in *.
    set (w := WeekDay (LocalTime tza now)) in *.
    assert (0 <= w <= 6) as Hw by apply WeekDay_range.
    assert (WeekDay (LocalTime tza sod) = w) as Hw'.
    { subst sod. rewrite LocalTime_UTC. unfold WeekDay.
      rewrite Day_MakeDate by (unfold msPerDay; lia). reflexivity. }
    rewrite Hw'. subst sod eow. rewrite !LocalTime_UTC.
    repeat split; try lia.
    + unfold UTC, MakeDate. lia.
    + apply TimeWithinDay_MakeDate. unfold msPerDay. lia.
    + unfold WeekDay. rewrite Day_MakeDate by (unfold msPerDay; lia).
      subst w. unfold WeekDay. fold D. zdiv.
    + intros Hsun. unfold UTC, MakeDate. lia.
  - intros H. destruct (windows_values tza now H) as (Hsod & _ & Heow & _).
    do 2 eexists. split; [exact Hsod | exact Heow].
Qed.

(** In a zone that keeps one offset: the order of the five boundary
    instants, whenever they are time values (they are, in range). *)
Lemma windows_ordered_fixed_offset tza now :
  (forall sod eod eow eom eonm,
     SportsScreen.startOfDay tza now = Some sod ->
     SportsScreen.endOfDay tza now = Some eod ->
     SportsScreen.endOfWeek tza now = Some eow ->
     SportsScreen.endOfMonth tza now = Some eom ->
     SportsScreen.endOfNextMonth tza now = Some eonm ->
     sod <= now <= eod /\
     sod <= eod < eow /\
     eod <= eom /\
     eom < eonm /\
     (lastDayOfMonth (LocalTime tza now) = false -> eod < eom)) /\
  (MusicScreen.startOfDay tza now = SportsScreen.startOfDay tza now /\
   MusicScreen.endOfDay tza now = SportsScreen.endOfDay tza now /\
   MusicScreen.endOfWeek tza now = SportsScreen.endOfWeek tza now /\
   MusicScreen.endOfMonth tza now = SportsScreen.endOfMonth tza now /\
   MusicScreen.endOfNextMonth tza now = SportsScreen.endOfNextMonth tza now) /\
  (clockInRange tza now ->
   exists sod eod eow eom eonm,
     SportsScreen.startOfDay tza now = Some sod /\
     SportsScreen.endOfDay tza now = Some eod /\
     SportsScreen.endOfWeek tza now = Some eow /\
     SportsScreen.endOfMonth tza now = Some eom /\
     SportsScreen.endOfNextMonth tza now = Some eonm).
Proof.
  split; [| split; [apply Music_windows |]].
  - intros sod eod eow eom eonm H1 H2 H3 H4 H5.
    apply startOfDay_Some in H1. apply endOfDay_Some in H2.
    apply endOfWeek_Some in H3. apply endOfMonth_Some in H4.
    apply endOfNextMonth_Some in H5.
    pose proof (today_le_monthEnd tza now) as Hle.
    pose proof (today_lt_monthEnd tza now) as Hlt.
    pose proof (monthEnd_2 tza now) as Hnext.
    pose proof (WeekDay_range (LocalTime tza now)) as Hw.
    pose proof (Day_bounds (LocalTime tza now)) as Hd.
    set (D := Day (LocalTime tza now)) in *.
    set (w := WeekDay (LocalTime tza now)) in *.
    set (e1 := MakeDay (MakeFullYear (YearFromTime (LocalTime tza now)))
                       (MonthFromTime (LocalTime tza now) + 1) 0) in *.
    set (e2 := MakeDay (MakeFullYear (YearFromTime (LocalTime tza now)))
                       (MonthFromTime (LocalTime tza now) + 2) 0) in *.
    clearbody D w e1 e2. subst sod eod eow eom eonm.
    unfold UTC, MakeDate, LocalTime, msPerDay in *.
    repeat split; try lia.
    intros Hlast. specialize (Hlt Hlast). lia.
  - intros H. destruct (windows_values tza now H) as (H1 & H2 & H3 & H4 & H5).
    do 5 eexists. repeat split; eassumption.
Qed.

(** ** The filter: claims *)

Section Scenario.

Variable tza : Z.
Variable parse : string -> option Z.
Hypothesis Hzone : Z.abs tza <= msPerDay.

(** Local noon of Sunday 2025-06-15. *)
Local Abbreviation noon := (localInstant tza 2025 5 15 12 0 0 0).

Lemma noon_in_range : clockInRange tza noon.
Proof.
  split; [exact Hzone |].
  unfold localInstant.
  change (MakeDate (MakeDay 2025 5 15) (MakeTime 12 0 0 0)) with 1749988800000.
  unfold UTC, maxTime, margin, msPerDay in *. lia.
Qed.

Lemma noon_local : LocalTime tza noon = 1749988800000.
Proof. unfold localInstant. rewrite LocalTime_UTC. reflexivity. Qed.

(** The scenario of the spec: at local noon of 2025-06-15, an event of
    20:00 the same day matches Today and does not match Next Month. *)
Lemma scenario_2025_06_15 e :
  date e = Some "2025-06-15T20:00:00" ->
  parse "2025-06-15T20:00:00" = ISO.parse tza "2025-06-15T20:00:00" ->
  SportsScreen.timeMatch tza parse noon "Today" e = true /\
  SportsScreen.timeMatch tza parse noon "Next Month" e = false.
Proof.
  intros Hdate Hparse.
  assert (Date_of_field parse (date e) = Some (UTC tza 1750017600000)) as Hd.
  { rewrite Hdate. unfold Date_of_field. rewrite Hparse. unfold ISO.parse.
    assert (ISO.fields "2025-06-15T20:00:00" = Some (1750017600000, None)) as ->
      by (vm_compute; reflexivity).
    apply TimeClip_in_range. unfold UTC, maxTime, msPerDay in *. lia. }
  destruct (windows_values tza noon noon_in_range) as (H1 & H2 & _ & H4 & _).
  rewrite noon_local in H1, H2, H4.
  assert (Day 1749988800000 = 20254) as HD by (vm_compute; reflexivity).
  assert (MakeDay (MakeFullYear (YearFromTime 1749988800000))
                  (MonthFromTime 1749988800000 + 1) 0 = 20269) as HE
    by (vm_compute; reflexivity).
  rewrite HD in H1, H2. rewrite HE in H4.
  split.
  - apply timeMatch_Today. rewrite Hd, H1, H2, !leN_Some.
    unfold UTC, MakeDate, msPerDay. lia.
  - apply not_true_is_false. intros Hm.
    apply timeMatch_NextMonth in Hm as [Hlt _].
    rewrite H4, Hd, ltN_Some in Hlt.
    unfold UTC, MakeDate, msPerDay in Hlt. lia.
Qed.

End Scenario.

Lemma Sports_catch_all cf e : cf = "Sports" -> SportsScreen.categoryMatch cf e = Ok (VBool true).
Proof. intros ->. reflexivity. Qed.

Lemma Music_catch_all gf e : gf = "Music" -> MusicScreen.categoryMatch gf e = Ok (VBool true).
Proof. intros ->. reflexivity. Qed.

(** With the catch-all sentinel the filter is the time predicate alone. *)
Lemma Sports_filter_catch_all tza parse now events timeFilter :
  SportsScreen.filteredEvents tza parse now events timeFilter "Sports" =
  Ok (filter (SportsScreen.timeMatch tza parse now timeFilter) events).
Proof.
  unfold SportsScreen.filteredEvents. apply filterM_pure.
  intros e. cbv zeta. rewrite Sports_catch_all by reflexivity.
  unfold bind, js_and, truthy. destruct (SportsScreen.timeMatch tza parse now timeFilter e); reflexivity.
Qed.

Lemma Music_filter_catch_all tza parse now events timeFilter :
  MusicScreen.filteredEvents tza parse now events timeFilter "Music" =
  Ok (filter (MusicScreen.timeMatch tza parse now timeFilter) events).
Proof.
  unfold MusicScreen.filteredEvents. apply filterM_pure.
  intros e. cbv zeta. rewrite Music_catch_all by reflexivity.
  unfold bind, js_and, truthy. destruct (MusicScreen.timeMatch tza parse now timeFilter e); reflexivity.
Qed.

(** C1: for an event whose date parses to the time value [d], the time
    predicate of both screens is the boundary table: Today iff
    [startOfDay <= d <= endOfDay], This Week iff [startOfDay <= d <= endOfWeek],
    This Month iff [startOfDay <= d <= endOfMonth], Next Month iff
    [endOfMonth < d <= endOfNextMonth]; the comparisons are those of numbers,
    false on NaN.  An event dated exactly [endOfMonth] matches This Month and
    not Next Month.  At local noon of
    2025-06-15 an event dated [2025-06-15T20:00:00] is included under Today
    and excluded under Next Month. *)
Theorem time_predicate_table tza parse now e d :
  Date_of_field parse (date e) = Some d ->
  (forall timeFilter,
     MusicScreen.timeMatch tza parse now timeFilter e =
     SportsScreen.timeMatch tza parse now timeFilter e) /\
  (SportsScreen.timeMatch tza parse now "Today" e = true <->
   leN (SportsScreen.startOfDay tza now) (Some d) /\
   leN (Some d) (SportsScreen.endOfDay tza now)) /\
  (SportsScreen.timeMatch tza parse now "This Week" e = true <->
   leN (SportsScreen.startOfDay tza now) (Some d) /\
   leN (Some d) (SportsScreen.endOfWeek tza now)) /\
  (SportsScreen.timeMatch tza parse now "This Month" e = true <->
   leN (SportsScreen.startOfDay tza now) (Some d) /\
   leN (Some d) (SportsScreen.endOfMonth tza now)) /\
  (SportsScreen.timeMatch tza parse now "Next Month" e = true <->
   ltN (SportsScreen.endOfMonth tza now) (Some d) /\
   leN (Some d) (SportsScreen.endOfNextMonth tza now)) /\
  (forall sod,
     SportsScreen.startOfDay tza now = Some sod ->
     SportsScreen.endOfMonth tza now = Some d ->
     SportsScreen.timeMatch tza parse now "This Month" e = true /\
     SportsScreen.timeMatch tza parse now "Next Month" e = false) /\
  (Z.abs tza <= msPerDay ->
   now = localInstant tza 2025 5 15 12 0 0 0 ->
   date e = Some "2025-06-15T20:00:00" ->
   parse "2025-06-15T20:00:00" = ISO.parse tza "2025-06-15T20:00:00" ->
   SportsScreen.timeMatch tza parse now "Today" e = true /\
   SportsScreen.timeMatch tza parse now "Next Month" e = false /\
   SportsScreen.filteredEvents tza parse now [e] "Today" "Sports" = Ok [e] /\
   SportsScreen.filteredEvents tza parse now [e] "Next Month" "Sports" = Ok [] /\
   MusicScreen.filteredEvents tza parse now [e] "Today" "Music" = Ok [e] /\
   MusicScreen.filteredEvents tza parse now [e] "Next Month" "Music" = Ok []).
Proof.
  intros Hd.
  split; [intros tf; apply Music_timeMatch |].
  split; [rewrite <- Hd; apply timeMatch_Today |].
  split; [rewrite <- Hd; apply timeMatch_ThisWeek |].
  split; [rewrite <- Hd; apply timeMatch_ThisMonth |].
  split; [rewrite <- Hd; apply timeMatch_NextMonth |].
  split.
  - intros sod Hsod Heom.
    pose proof (today_le_monthEnd tza now) as Hle.
    pose proof (startOfDay_Some tza now sod Hsod) as Hs.
    pose proof (endOfMonth_Some tza now d Heom) as Hval.
    split.
    + apply timeMatch_ThisMonth. rewrite Hd, Hsod, Heom, !leN_Some.
      split; [| lia].
      rewrite Hs, Hval. unfold UTC, MakeDate, msPerDay. lia.
    + apply not_true_is_false. intros Hm.
      apply timeMatch_NextMonth in Hm as [Hlt _].
      rewrite Hd, Heom, ltN_Some in Hlt. lia.
  - intros Hzone -> Hdate Hparse.
    destruct (scenario_2025_06_15 tza parse Hzone e Hdate Hparse) as [Ht Hn].
    split; [exact Ht |]. split; [exact Hn |].
    split; [rewrite Sports_filter_catch_all; cbn [filter]; rewrite Ht; reflexivity |].
    split; [rewrite Sports_filter_catch_all; cbn [filter]; rewrite Hn; reflexivity |].
    split; rewrite Music_filter_catch_all; cbn [filter]; rewrite Music_timeMatch.
    + rewrite Ht. reflexivity.
    + rewrite Hn. reflexivity.
Qed.

Lemma accepts_holds r : accepts r = true <-> holds r.
Proof.
  unfold accepts, holds. destruct r as [v | err]; split.
  - intros H. exists v. auto.
  - intros (v' & [= <-] & H). exact H.
  - discriminate.
  - intros (v' & H & _). discriminate.
Qed.

(** The category predicate of the sports screen throws on no event. *)
Lemma Sports_categoryMatch_returns cf e : returns (SportsScreen.categoryMatch cf e).
Proof.
  unfold returns, SportsScreen.categoryMatch.
  destruct (String.eqb cf "Sports"); [eexists; reflexivity |].
  destruct (existsb (String.eqb cf) ["NFL"; "NBA"; "MLB"; "NHL"]); [| eexists; reflexivity].
  destruct (subcategory e) as [s |]; unfold of_field.
  - destruct (truthy (VStr s)); eexists; reflexivity.
  - cbn [truthy]. eexists; reflexivity.
Qed.

Lemma Music_categoryMatch_returns gf e : returns (MusicScreen.categoryMatch gf e).
Proof.
  unfold returns, MusicScreen.categoryMatch.
  destruct (String.eqb gf "Music"); [eexists; reflexivity |].
  destruct (subcategory e) as [s |]; unfold of_field.
  - destruct (truthy (VStr s)); eexists; reflexivity.
  - cbn [truthy]. eexists; reflexivity.
Qed.

(** The filters as pure list filters. *)
Lemma Sports_filter_pure tza parse now events timeFilter categoryFilter :
  SportsScreen.filteredEvents tza parse now events timeFilter categoryFilter =
  Ok (filter (fun e => SportsScreen.timeMatch tza parse now timeFilter e &&
                       accepts (SportsScreen.categoryMatch categoryFilter e)) events).
Proof.
  unfold SportsScreen.filteredEvents. apply filterM_pure.
  intros e. cbv zeta.
  destruct (Sports_categoryMatch_returns categoryFilter e) as [v ->].
  unfold bind, accepts, js_and. cbn [truthy].
  destruct (SportsScreen.timeMatch tza parse now timeFilter e); reflexivity.
Qed.

Lemma Music_filter_pure tza parse now events timeFilter genreFilter :
  MusicScreen.filteredEvents tza parse now events timeFilter genreFilter =
  Ok (filter (fun e => MusicScreen.timeMatch tza parse now timeFilter e &&
                       accepts (MusicScreen.categoryMatch genreFilter e)) events).
Proof.
  unfold MusicScreen.filteredEvents. apply filterM_pure.
  intros e. cbv zeta.
  destruct (Music_categoryMatch_returns genreFilter e) as [v ->].
  unfold bind, accepts, js_and. cbn [truthy].
  destruct (MusicScreen.timeMatch tza parse now timeFilter e); reflexivity.
Qed.

(** C4: an event whose date is absent or does not parse to a valid
    datetime matches no time filter in either screen, each filter
    evaluation on a list returns (no exception), and its result never holds
    the event. *)
Theorem invalid_date_never_time_matches tza parse now e :
  date e = None \/ (exists s, date e = Some s /\ parse s = None) ->
  (forall timeFilter,
     SportsScreen.timeMatch tza parse now timeFilter e = false /\
     MusicScreen.timeMatch tza parse now timeFilter e = false) /\
  (forall events timeFilter categoryFilter,
     exists kept,
       SportsScreen.filteredEvents tza parse now events timeFilter categoryFilter = Ok kept /\
       ~ In e kept) /\
  (forall events timeFilter genreFilter,
     exists kept,
       MusicScreen.filteredEvents tza parse now events timeFilter genreFilter = Ok kept /\
       ~ In e kept).
Proof.
  intros Hdate.
  assert (Date_of_field parse (date e) = None) as Hd.
  { destruct Hdate as [-> | (s & -> & Hs)]; [reflexivity | exact Hs]. }
  assert (forall tf, SportsScreen.timeMatch tza parse now tf e = false) as Ht
    by (intros tf; apply timeMatch_invalid_date; exact Hd).
  split; [intros tf; split; [apply Ht | rewrite Music_timeMatch; apply Ht] |].
  split; intros events tf cf.
  - rewrite Sports_filter_pure. eexists. split; [reflexivity |].
    intros Hin. apply filter_In in Hin as [_ Hin]. rewrite Ht in Hin. discriminate.
  - rewrite Music_filter_pure. eexists. split; [reflexivity |].
    intros Hin. apply filter_In in Hin as [_ Hin].
    rewrite Music_timeMatch, Ht in Hin. discriminate.
Qed.

Lemma invalid_date_never_time_matches_witness :
  SportsScreen.timeMatch denver (ISO.parse denver) 1750010400000 "Today"
    (sampleEvent (Some "NFL") (Some "next Friday")) = false.
Proof.
  assert (date (sampleEvent (Some "NFL") (Some "next Friday")) = None \/
          exists s, date (sampleEvent (Some "NFL") (Some "next Friday")) = Some s /\
                    ISO.parse denver s = None) as H
    by (right; exists "next Friday"; split; vm_compute; reflexivity).
  destruct (invalid_date_never_time_matches denver (ISO.parse denver) 1750010400000
              (sampleEvent (Some "NFL") (Some "next Friday")) H) as [Ht _].
  exact (proj1 (Ht "Today")).
Defined.

(** C6: with the catch-all sentinel ("Sports" in the sports screen, "Music"
    in the music screen) the filter returns exactly the events that satisfy
    the time predicate, in their original order. *)
Theorem catch_all_is_time_filter tza parse now events timeFilter :
  SportsScreen.filteredEvents tza parse now events timeFilter "Sports" =
    Ok (filter (SportsScreen.timeMatch tza parse now timeFilter) events) /\
  MusicScreen.filteredEvents tza parse now events timeFilter "Music" =
    Ok (filter (MusicScreen.timeMatch tza parse now timeFilter) events) /\
  Subsequence (filter (SportsScreen.timeMatch tza parse now timeFilter) events) events /\
  Subsequence (filter (MusicScreen.timeMatch tza parse now timeFilter) events) events /\
  (forall e, In e (filter (SportsScreen.timeMatch tza parse now timeFilter) events) <->
             In e events /\ SportsScreen.timeMatch tza parse now timeFilter e = true) /\
  (forall e, In e (filter (MusicScreen.timeMatch tza parse now timeFilter) events) <->
             In e events /\ MusicScreen.timeMatch tza parse now timeFilter e = true).
Proof.
  split; [apply Sports_filter_catch_all |].
  split; [apply Music_filter_catch_all |].
  split; [apply filter_Subsequence |].
  split; [apply filter_Subsequence |].
  split; intros e; apply filter_In.
Qed.

(** ** The category predicate: claims *)

(** [sub && sub.includes(search)], the guarded call of both screens. *)
Lemma guarded_includes_holds (sub : option string) (k : string -> string) search :
  holds (if truthy (of_field sub)
         then bind (match sub with
                    | Some s => Ok (Some (k s))
                    | None => Throw "TypeError"
                    end)
                   (fun recv => call_includes recv search)
         else Ok (of_field sub)) <->
  exists s, sub = Some s /\ s <> EmptyString /\ Substring search (k s).
Proof.
  unfold holds. destruct sub as [s |]; unfold of_field.
  - destruct (truthy (VStr s)) eqn:Et.
    + apply truthy_VStr in Et. unfold bind, call_includes. split.
      * intros (v & [= <-] & Hv). cbn [truthy] in Hv. apply includes_spec in Hv. eauto.
      * intros (s' & [= <-] & _ & Hs). eexists. split; [reflexivity |].
        cbn [truthy]. apply includes_spec. exact Hs.
    + split.
      * intros (v & [= <-] & Hv). congruence.
      * intros (s' & [= <-] & Hne & _). apply truthy_VStr in Hne. congruence.
  - cbn [truthy]. split.
    + intros (v & [= <-] & Hv). discriminate.
    + intros (s' & Hs & _). discriminate.
Qed.

Lemma Sports_categoryMatch_token cf e :
  In cf ["NFL"; "NBA"; "MLB"; "NHL"] ->
  SportsScreen.categoryMatch cf e =
  if truthy (of_field (subcategory e))
  then call_includes (subcategory e) cf
  else Ok (of_field (subcategory e)).
Proof.
  intros Hin. unfold SportsScreen.categoryMatch.
  cbn [In] in Hin.
  destruct Hin as [<- | [<- | [<- | [<- | []]]]]; reflexivity.
Qed.

Lemma Sports_categoryMatch_holds cf e :
  In cf ["NFL"; "NBA"; "MLB"; "NHL"] ->
  holds (SportsScreen.categoryMatch cf e) <->
  exists s, subcategory e = Some s /\ Substring cf s.
Proof.
  intros Hin. rewrite Sports_categoryMatch_token by exact Hin.
  pose proof (guarded_includes_holds (subcategory e) (fun s => s) cf) as H.
  assert (forall recv : option string,
             bind (match recv with
                   | Some s => Ok (Some s)
                   | None => Throw "TypeError"
                   end) (fun r => call_includes r cf) = call_includes recv cf) as Hb
    by (intros [s |]; reflexivity).
  rewrite Hb in H. rewrite H. split.
  - intros (s & Hs & _ & Hsub). eauto.
  - intros (s & Hs & Hsub). exists s. repeat split; auto.
    intros ->. apply Substring_of_empty in Hsub. subst cf.
    cbn [In] in Hin. destruct Hin as [H0 | [H0 | [H0 | [H0 | []]]]]; discriminate.
Qed.

Lemma Music_categoryMatch_holds gf e :
  gf <> "Music" ->
  holds (MusicScreen.categoryMatch gf e) <->
  exists s, subcategory e = Some s /\ s <> EmptyString /\
            Substring (toLowerCase gf) (toLowerCase s).
Proof.
  intros Hne. unfold MusicScreen.categoryMatch.
  apply String.eqb_neq in Hne. rewrite Hne.
  apply (guarded_includes_holds (subcategory e) toLowerCase (toLowerCase gf)).
Qed.

Example NFL_Preseason_includes_NFL : includes "NFL - Preseason" "NFL" = true.
Proof. reflexivity. Qed.

Example sports_match_is_case_sensitive : includes "nfl - preseason" "NFL" = false.
Proof. reflexivity. Qed.

Example music_match_folds_case :
  accepts (MusicScreen.categoryMatch "hip-hop" (sampleEvent (Some "Hip-Hop/Rap") None)) = true.
Proof. reflexivity. Qed.

Lemma toLowerCase_empty s : toLowerCase s = EmptyString -> s = EmptyString.
Proof. destruct s; [reflexivity | discriminate]. Qed.

(** Under a genre filter that is not the empty string, the guard on the
    subcategory adds nothing to the substring test. *)
Lemma Music_categoryMatch_nonempty gf e :
  gf <> "Music" -> gf <> EmptyString ->
  holds (MusicScreen.categoryMatch gf e) <->
  exists s, subcategory e = Some s /\ Substring (toLowerCase gf) (toLowerCase s).
Proof.
  intros Hne Hgf. rewrite Music_categoryMatch_holds by exact Hne. split.
  - intros (s & Hs & _ & Hsub). eauto.
  - intros (s & Hs & Hsub). exists s. repeat split; auto.
    intros ->. apply Substring_of_empty in Hsub.
    apply toLowerCase_empty in Hsub. contradiction.
Qed.

(** The empty string is no filter of the music screen (its buttons are
    Music, Rock, Hip-Hop, Electronic and Country); it is the one string at
    which the guard shows: an empty subcategory is falsy. *)
Example empty_genre_filter_corner :
  MusicScreen.categoryMatch EmptyString (sampleEvent (Some EmptyString) None) =
  Ok (VStr EmptyString).
Proof. reflexivity. Qed.

(** C2: when the category filter is not the catch-all sentinel, the
    category predicate holds iff the event's subcategory is present and
    contains the filter string: as it is written in the sports screen
    (filters NFL, NBA, MLB, NHL); with both sides lower-cased in the music
    screen, for every filter that is not the empty string, the four genre
    buttons Rock, Hip-Hop, Electronic and Country among them.  An event
    with subcategory "NFL - Preseason" passes the filter "NFL" and is kept
    exactly when it also matches the time filter; an event without
    subcategory is never kept under that filter. *)
Theorem category_predicate_substring e :
  (forall cf, In cf ["NFL"; "NBA"; "MLB"; "NHL"] ->
     (holds (SportsScreen.categoryMatch cf e) <->
      exists s, subcategory e = Some s /\ Substring cf s)) /\
  (forall gf, gf <> "Music" -> gf <> EmptyString ->
     (holds (MusicScreen.categoryMatch gf e) <->
      exists s, subcategory e = Some s /\
                Substring (toLowerCase gf) (toLowerCase s))) /\
  (forall gf, In gf ["Rock"; "Hip-Hop"; "Electronic"; "Country"] ->
     (holds (MusicScreen.categoryMatch gf e) <->
      exists s, subcategory e = Some s /\
                Substring (toLowerCase gf) (toLowerCase s))) /\
  (subcategory e = Some "NFL - Preseason" ->
   holds (SportsScreen.categoryMatch "NFL" e) /\
   forall tza parse now events timeFilter,
   exists kept,
     SportsScreen.filteredEvents tza parse now events timeFilter "NFL" = Ok kept /\
     (In e kept <-> In e events /\ SportsScreen.timeMatch tza parse now timeFilter e = true)) /\
  (subcategory e = None ->
   ~ holds (SportsScreen.categoryMatch "NFL" e) /\
   forall tza parse now events timeFilter,
   exists kept,
     SportsScreen.filteredEvents tza parse now events timeFilter "NFL" = Ok kept /\
     ~ In e kept).
Proof.
  assert (In "NFL" ["NFL"; "NBA"; "MLB"; "NHL"]) as Hnfl by (left; reflexivity).
  split; [| split; [| split; [| split]]].
  - intros cf Hin. apply Sports_categoryMatch_holds. exact Hin.
  - intros gf Hne Hgf. apply Music_categoryMatch_nonempty; assumption.
  - intros gf Hin. cbn [In] in Hin.
    apply Music_categoryMatch_nonempty;
      destruct Hin as [<- | [<- | [<- | [<- | []]]]]; discriminate.
  - intros Hsub.
    assert (holds (SportsScreen.categoryMatch "NFL" e)) as Hh.
    { apply Sports_categoryMatch_holds; [exact Hnfl |].
      exists "NFL - Preseason". split; [exact Hsub |].
      apply includes_spec. reflexivity. }
    split; [exact Hh |].
    intros tza parse now events tf. rewrite Sports_filter_pure.
    eexists. split; [reflexivity |].
    rewrite filter_In, andb_true_iff, accepts_holds. tauto.
  - intros Hsub.
    assert (~ holds (SportsScreen.categoryMatch "NFL" e)) as Hh.
    { rewrite Sports_categoryMatch_holds by exact Hnfl.
      intros (s & Hs & _). congruence. }
    split; [exact Hh |].
    intros tza parse now events tf. rewrite Sports_filter_pure.
    eexists. split; [reflexivity |].
    rewrite filter_In, andb_true_iff, accepts_holds. tauto.
Qed.

Lemma category_predicate_substring_witness :
  holds (SportsScreen.categoryMatch "NFL" (sampleEvent (Some "NFL - Preseason") None)) /\
  ~ holds (SportsScreen.categoryMatch "NFL" (sampleEvent None None)) /\
  holds (MusicScreen.categoryMatch "Rock" (sampleEvent (Some "Alternative Rock") None)).
Proof.
  split; [| split].
  - apply (category_predicate_substring (sampleEvent (Some "NFL - Preseason") None)).
    reflexivity.
  - apply (category_predicate_substring (sampleEvent None None)).
    reflexivity.
  - assert (In "Rock" ["Rock"; "Hip-Hop"; "Electronic"; "Country"]) as Hin
      by (left; reflexivity).
    destruct (category_predicate_substring (sampleEvent (Some "Alternative Rock") None))
      as (_ & _ & H & _).
    apply (H "Rock" Hin).
    exists "Alternative Rock". split; [reflexivity |].
    apply includes_spec. reflexivity.
Defined.

(** ** The normaliser: claims *)

Lemma or_default_nonempty f dflt :
  dflt <> EmptyString -> or_default f dflt <> EmptyString.
Proof.
  intros Hd. unfold or_default. destruct f as [s |]; [| exact Hd].
  destruct (String.eqb s EmptyString) eqn:E; [exact Hd |].
  apply String.eqb_neq. exact E.
Qed.

Lemma or_default_lacking f dflt :
  f = None \/ f = Some EmptyString -> or_default f dflt = dflt.
Proof. intros [-> | ->]; reflexivity. Qed.

(** C10: every event that the normaliser builds has a subcategory that is a
    non-empty string, "N/A" when the payload has no subGenre name, and a
    non-empty category, "Social" when the payload has no segment name; the
    fetch of a response with events returns such events.  So in the music
    screen an event whose payload had no subGenre passes every genre filter
    whose lower-cased text occurs in "n/a", "a" for one. *)
Theorem normalized_subcategory_present raw :
  (exists s, subcategory (api.normalize raw) = Some s /\ s <> EmptyString) /\
  category (api.normalize raw) <> EmptyString /\
  (lacksSegment raw -> category (api.normalize raw) = "Social") /\
  (lacksSubGenre raw ->
   subcategory (api.normalize raw) = Some "N/A" /\
   (forall gf, Substring (toLowerCase gf) "n/a" ->
               holds (MusicScreen.categoryMatch gf (api.normalize raw))) /\
   holds (MusicScreen.categoryMatch "a" (api.normalize raw)) /\
   forall tza parse now events timeFilter,
   exists kept,
     MusicScreen.filteredEvents tza parse now events timeFilter "a" = Ok kept /\
     (In (api.normalize raw) kept <->
      In (api.normalize raw) events /\
      MusicScreen.timeMatch tza parse now timeFilter (api.normalize raw) = true)) /\
  (forall tza fetch now1 now2 now3 now4 city stateCode radius category emb evs,
     fetch (api.TICKETMASTER_ENDPOINT city stateCode radius category) =
       Response {| _embedded := Some emb |} ->
     events emb = Some evs -> In raw evs ->
     api.fetchTicketmasterEvents tza fetch now1 now2 now3 now4 city stateCode radius category =
       Ok (map api.normalize evs) /\
     In (api.normalize raw) (map api.normalize evs)).
Proof.
  assert ("N/A" <> EmptyString) as Hna by discriminate.
  assert ("Social" <> EmptyString) as Hso by discriminate.
  split; [| split; [| split; [| split]]].
  - eexists. split; [reflexivity |]. apply or_default_nonempty. exact Hna.
  - apply or_default_nonempty. exact Hso.
  - intros H. apply or_default_lacking. exact H.
  - intros H.
    assert (subcategory (api.normalize raw) = Some "N/A") as Hsub.
    { cbn [api.normalize subcategory]. f_equal. apply or_default_lacking. exact H. }
    assert (forall gf, Substring (toLowerCase gf) "n/a" ->
                       holds (MusicScreen.categoryMatch gf (api.normalize raw))) as Hall.
    { intros gf Hgf.
      destruct (String.eqb gf "Music") eqn:E.
      - apply String.eqb_eq in E. rewrite Music_catch_all by exact E.
        exists (VBool true). split; reflexivity.
      - apply String.eqb_neq in E. apply Music_categoryMatch_holds; [exact E |].
        exists "N/A". split; [exact Hsub |]. split; [exact Hna | exact Hgf]. }
    assert (holds (MusicScreen.categoryMatch "a" (api.normalize raw))) as Ha.
    { apply Hall. apply includes_spec. reflexivity. }
    split; [exact Hsub |]. split; [exact Hall |]. split; [exact Ha |].
    intros tza parse now events tf. rewrite Music_filter_pure.
    eexists. split; [reflexivity |].
    rewrite filter_In, andb_true_iff, accepts_holds. tauto.
  - intros tza fetch now1 now2 now3 now4 city stateCode radius category emb evs Hf Hevs Hin.
    split; [| apply in_map; exact Hin].
    unfold api.fetchTicketmasterEvents. cbv zeta. rewrite Hf. cbn [_embedded]. rewrite Hevs.
    destruct evs as [| x evs]; [destruct Hin |]. reflexivity.
Qed.

Lemma normalized_subcategory_present_witness :
  subcategory (api.normalize bareRawEvent) = Some "N/A" /\
  holds (MusicScreen.categoryMatch "a" (api.normalize bareRawEvent)).
Proof.
  assert (lacksSubGenre bareRawEvent) as H by (left; reflexivity).
  destruct (normalized_subcategory_present bareRawEvent) as (_ & _ & _ & Hl & _).
  destruct (Hl H) as (H1 & _ & H2 & _).
  exact (conj H1 H2).
Defined.

(** ** The event fetch: claims *)

Lemma append_cons_nonempty a c b : (a ++ String c b)%string <> EmptyString.
Proof. destruct a; discriminate. Qed.

(** The ISO rendering of a valid Date is a string, and not the empty one. *)
Lemma toISOString_valid t :
  exists s, ISO.toISOString (Some t) = Ok s /\ s <> EmptyString.
Proof.
  unfold ISO.toISOString. eexists. split; [reflexivity |].
  apply append_cons_nonempty.
Qed.

Lemma MakeDay_year_bounds y m :
  0 <= m <= 12 -> DayFromYear y <= MakeDay y m 1 <= DayFromYear (y + 1).
Proof.
  intros Hm. destruct (Z.eq_dec m 12) as [-> | Hne].
  - rewrite MakeDay_12. pose proof (DayFromYear_le y (y + 1)). lia.
  - rewrite MakeDay_in_year by lia. rewrite DayFromYear_succ. unfold DaysInYear.
    assert (m = 0 \/ m = 1 \/ m = 2 \/ m = 3 \/ m = 4 \/ m = 5 \/ m = 6 \/ m = 7 \/
            m = 8 \/ m = 9 \/ m = 10 \/ m = 11) as H by lia.
    destruct (isLeapYear y); repeat (destruct H as [-> | H]); try subst m; cbn; lia.
Qed.

Section MockClock.

Variables tza today : Z.
Hypothesis Htoday : clockInRange tza today.

(** [d.setDate(today.getDate() + k)] on a Date [d] in range. *)
Lemma setDate_of_today t k :
  clockInRange tza t -> 0 <= k <= 7 ->
  setDate tza (Some t) (num_add (getDate tza (Some today)) (Some k)) =
  Some (UTC tza (MakeDate (Day (LocalTime tza t) - DateFromTime (LocalTime tza t) +
                           (DateFromTime (LocalTime tza today) + k))
                          (TimeWithinDay (LocalTime tza t)))).
Proof.
  intros Ht Hk.
  pose proof (clockInRange_day _ _ Ht) as HD. destruct Ht as [Hz _].
  pose proof (DateFromTime_range (LocalTime tza t)) as H1.
  pose proof (DateFromTime_range (LocalTime tza today)) as H2.
  pose proof (DaysInMonth_bounds (InLeapYear (LocalTime tza t)) _
                (MonthFromTime_range (LocalTime tza t))) as B1.
  pose proof (DaysInMonth_bounds (InLeapYear (LocalTime tza today)) _
                (MonthFromTime_range (LocalTime tza today))) as B2.
  unfold setDate, getDate, option_map, num_add. cbv zeta.
  rewrite MakeDay_same_month.
  apply local_day_in_range; [exact Hz | | lia].
  unfold TimeWithinDay, msPerDay. zdiv.
Qed.

Lemma setMonth_of_today t :
  clockInRange tza t ->
  setMonth tza (Some t) (num_add (getMonth tza (Some today)) (Some 1)) =
  Some (UTC tza (MakeDate (MakeDay (YearFromTime (LocalTime tza t))
                                   (MonthFromTime (LocalTime tza today) + 1)
                                   (DateFromTime (LocalTime tza t)))
                          (TimeWithinDay (LocalTime tza t)))).
Proof.
  intros Ht.
  pose proof (clockInRange_day _ _ Ht) as HD. destruct Ht as [Hz _].
  pose proof (DateFromTime_range (LocalTime tza t)) as H1.
  pose proof (DaysInMonth_bounds (InLeapYear (LocalTime tza t)) _
                (MonthFromTime_range (LocalTime tza t))) as B1.
  pose proof (MonthFromTime_range (LocalTime tza today)) as HM.
  pose proof (MakeDay_year_bounds (YearFromTime (LocalTime tza t))
                (MonthFromTime (LocalTime tza today) + 1) ltac:(lia)) as HY.
  pose proof (YearFromTime_spec (LocalTime tza t)) as HS.
  rewrite DayFromYear_succ in HS, HY.
  pose proof (DaysInYear_cases (YearFromTime (LocalTime tza t))) as HC.
  unfold setMonth, getMonth, option_map, num_add. cbv zeta.
  rewrite MakeDay_date.
  apply local_day_in_range; [exact Hz | | lia].
  unfold TimeWithinDay, msPerDay. zdiv.
Qed.

(** When the readings are one instant: [k] days later ... *)
Lemma setDate_same_reading k :
  0 <= k <= 7 ->
  setDate tza (Some today) (num_add (getDate tza (Some today)) (Some k)) =
  Some (today + k * msPerDay).
Proof.
  intros Hk. rewrite setDate_of_today by assumption. f_equal.
  unfold UTC, MakeDate, TimeWithinDay, LocalTime, Day, msPerDay. zdiv.
Qed.

(** ... and later by the length of the current month. *)
Lemma setMonth_same_reading :
  setMonth tza (Some today) (num_add (getMonth tza (Some today)) (Some 1)) =
  Some (today + DaysInMonth (InLeapYear (LocalTime tza today))
                            (MonthFromTime (LocalTime tza today)) * msPerDay).
Proof.
  rewrite setMonth_of_today by assumption. f_equal.
  pose proof (MakeDay_month_end (LocalTime tza today)) as H.
  pose proof (MakeDay_date (YearFromTime (LocalTime tza today))
                (MonthFromTime (LocalTime tza today) + 1) 0) as E0.
  pose proof (MakeDay_date (YearFromTime (LocalTime tza today))
                (MonthFromTime (LocalTime tza today) + 1)
                (DateFromTime (LocalTime tza today))) as E1.
  set (m := MakeDay (YearFromTime (LocalTime tza today))
                    (MonthFromTime (LocalTime tza today) + 1)
                    (DateFromTime (LocalTime tza today))) in *.
  set (m0 := MakeDay (YearFromTime (LocalTime tza today))
                     (MonthFromTime (LocalTime tza today) + 1) 0) in *.
  set (m1 := MakeDay (YearFromTime (LocalTime tza today))
                     (MonthFromTime (LocalTime tza today) + 1) 1) in *.
  set (dim := DaysInMonth (InLeapYear (LocalTime tza today))
                          (MonthFromTime (LocalTime tza today))) in *.
  set (dt := DateFromTime (LocalTime tza today)) in *.
  clearbody m m0 m1 dim dt.
  unfold UTC, MakeDate, TimeWithinDay, LocalTime, Day, msPerDay in *. zdiv.
Qed.

End MockClock.

(** ** The date-time string format: parsing what [toISOString] prints *)

Lemma digitOf_digitChar d : 0 <= d <= 9 -> ISO.digitOf (ISO.digitChar d) = Some d.
Proof.
  intros H.
  assert (d = 0 \/ d = 1 \/ d = 2 \/ d = 3 \/ d = 4 \/ d = 5 \/ d = 6 \/ d = 7 \/
          d = 8 \/ d = 9) as Hd by lia.
  repeat (destruct Hd as [-> | Hd]); try subst d; reflexivity.
Qed.

Lemma append_assoc (a b c : string) : ((a ++ b) ++ c = a ++ (b ++ c))%string.
Proof. induction a as [| x a IH]; cbn [append]; [reflexivity | rewrite IH; reflexivity]. Qed.

(** Reading [n + 1] digits is reading [n] digits and one more. *)
Lemma digits_snoc n acc s :
  ISO.digits (S n) acc s =
  match ISO.digits n acc s with
  | Some (a, String c r) =>
      match ISO.digitOf c with
      | Some d => Some (10 * a + d, r)
      | None => None
      end
  | _ => None
  end.
Proof.
  revert acc s. induction n as [| n IH]; intros acc s.
  - cbn [ISO.digits]. destruct s as [| c r]; [reflexivity |].
    destruct (ISO.digitOf c); reflexivity.
  - change (ISO.digits (S (S n)) acc s) with
      (match s with
       | String c s' =>
           match ISO.digitOf c with
           | Some d => ISO.digits (S n) (10 * acc + d) s'
           | None => None
           end
       | EmptyString => None
       end).
    destruct s as [| c s']; [reflexivity |].
    destruct (ISO.digitOf c) as [d |] eqn:Hc.
    + rewrite IH. cbn [ISO.digits]. rewrite Hc. reflexivity.
    + cbn [ISO.digits]. rewrite Hc. reflexivity.
Qed.

(** [digits] reads back what [pad] prints. *)
Lemma digits_pad n v acc rest :
  0 <= v < 10 ^ Z.of_nat n ->
  ISO.digits n acc (ISO.pad n v ++ rest) = Some (acc * 10 ^ Z.of_nat n + v, rest).
Proof.
  revert v rest. induction n as [| n IH]; intros v rest Hv.
  - change (10 ^ Z.of_nat 0) with 1 in *. cbn [ISO.digits ISO.pad append].
    replace (acc * 1 + v) with acc by lia. reflexivity.
  - rewrite Nat2Z.inj_succ, Z.pow_succ_r in * by lia.
    rewrite digits_snoc. cbn [ISO.pad]. rewrite append_assoc. cbn [append].
    rewrite IH by zdiv.
    rewrite digitOf_digitChar by zdiv.
    replace (10 * (acc * 10 ^ Z.of_nat n + v / 10) + v mod 10)
      with (acc * (10 * 10 ^ Z.of_nat n) + v) by zdiv.
    reflexivity.
Qed.

Lemma digits_head n acc c r v :
  ISO.digits (S n) acc (String c r) = Some v -> ISO.digitOf c <> None.
Proof. cbn [ISO.digits]. destruct (ISO.digitOf c); [discriminate | discriminate]. Qed.

Lemma parseYear_yearString y rest :
  -999999 <= y <= 999999 ->
  ISO.parseYear (ISO.yearString y ++ rest) = Some (y, rest).
Proof.
  intros Hy. unfold ISO.yearString.
  destruct ((0 <=? y) && (y <=? 9999)) eqn:E.
  - apply andb_true_iff in E as [E1 E2]. apply Z.leb_le in E1, E2.
    pose proof (digits_pad 4 y 0 rest ltac:(change (10 ^ Z.of_nat 4) with 10000; lia)) as Hd.
    unfold ISO.parseYear.
    destruct (ISO.pad 4 y ++ rest)%string as [| c r] eqn:Es; [discriminate Hd |].
    pose proof (digits_head _ _ _ _ _ Hd) as Hc.
    destruct (Ascii.eqb c "+") eqn:Ep.
    { apply Ascii.eqb_eq in Ep. subst c. elim Hc. reflexivity. }
    destruct (Ascii.eqb c "-") eqn:Em.
    { apply Ascii.eqb_eq in Em. subst c. elim Hc. reflexivity. }
    rewrite Hd. replace (0 * 10 ^ Z.of_nat 4 + y) with y by lia. reflexivity.
  - apply andb_false_iff in E.
    destruct (y <? 0) eqn:En; cbn [append]; unfold ISO.parseYear.
    + apply Z.ltb_lt in En.
      change (Ascii.eqb "-" "+") with false. change (Ascii.eqb "-" "-") with true.
      cbv iota.
      rewrite digits_pad by (change (10 ^ Z.of_nat 6) with 1000000; lia).
      replace (0 * 10 ^ Z.of_nat 6 + Z.abs y) with (- y) by lia.
      destruct (- y =? 0) eqn:E0; [apply Z.eqb_eq in E0; lia |].
      rewrite Z.opp_involutive. reflexivity.
    + apply Z.ltb_ge in En.
      change (Ascii.eqb "+" "+") with true. cbv iota.
      rewrite digits_pad by (change (10 ^ Z.of_nat 6) with 1000000; lia).
      replace (0 * 10 ^ Z.of_nat 6 + Z.abs y) with y by lia. reflexivity.
Qed.

Lemma optGroup_pad sep dflt v rest :
  0 <= v < 100 ->
  ISO.optGroup sep dflt (String sep (ISO.pad 2 v ++ rest)) = Some (v, rest).
Proof.
  intros Hv. unfold ISO.optGroup. rewrite Ascii.eqb_refl.
  rewrite digits_pad by (change (10 ^ Z.of_nat 2) with 100; lia).
  replace (0 * 10 ^ Z.of_nat 2 + v) with v by lia. reflexivity.
Qed.

Lemma time_fields t :
  0 <= HourFromTime t <= 23 /\ 0 <= MinFromTime t <= 59 /\
  0 <= SecFromTime t <= 59 /\ 0 <= msFromTime t <= 999 /\
  MakeTime (HourFromTime t) (MinFromTime t) (SecFromTime t) (msFromTime t) =
  TimeWithinDay t.
Proof.
  unfold HourFromTime, MinFromTime, SecFromTime, msFromTime, MakeTime, TimeWithinDay,
    msPerHour, msPerMinute, msPerSecond, msPerDay.
  zdiv.
Qed.

(** Parsing the ISO rendering of a time value gives the time value back,
    in every zone. *)
Theorem parse_toISOString tza t s :
  Z.abs t <= maxTime ->
  ISO.toISOString (Some t) = Ok s ->
  ISO.parse tza s = Some t.
Proof.
  intros Ht Hs. unfold ISO.toISOString in Hs.
  apply (f_equal (fun r => match r with Ok x => x | Throw _ => EmptyString end)) in Hs.
  cbv beta iota in Hs. subst s.
  pose proof (YearFromTime_bounds t Ht) as HY.
  pose proof (MonthFromTime_range t) as HM.
  pose proof (DateFromTime_range t) as HD.
  pose proof (DaysInMonth_bounds (InLeapYear t) _ HM) as HB.
  destruct (time_fields t) as (Hh & Hmi & Hse & Hms & Htime).
  cbn [append]. unfold ISO.parse, ISO.fields.
  rewrite parseYear_yearString by lia. cbv beta iota.
  rewrite optGroup_pad by lia. cbv beta iota.
  rewrite optGroup_pad by lia. cbv beta iota.
  replace (MonthFromTime t + 1 - 1) with (MonthFromTime t) by lia.
  fold (InLeapYear t).
  assert ((1 <=? MonthFromTime t + 1) && (MonthFromTime t + 1 <=? 12) &&
          (1 <=? DateFromTime t) &&
          (DateFromTime t <=? DaysInMonth (InLeapYear t) (MonthFromTime t)) = true) as ->.
  { rewrite !andb_true_iff, !Z.leb_le. lia. }
  cbv beta iota zeta.
  rewrite (digits_pad 2) by (change (10 ^ Z.of_nat 2) with 100; lia).
  cbv beta iota.
  rewrite (digits_pad 2) by (change (10 ^ Z.of_nat 2) with 100; lia).
  cbv beta iota.
  rewrite (optGroup_pad ":" 0) by lia. cbv beta iota.
  unfold ISO.parseMillis. cbv beta iota.
  rewrite (digits_pad 3) by (change (10 ^ Z.of_nat 3) with 1000; lia).
  cbv beta iota. unfold ISO.parseOffset. cbv beta iota.
  replace (0 * 10 ^ Z.of_nat 2 + HourFromTime t) with (HourFromTime t) by lia.
  replace (0 * 10 ^ Z.of_nat 2 + MinFromTime t) with (MinFromTime t) by lia.
  replace (0 * 10 ^ Z.of_nat 3 + msFromTime t) with (msFromTime t) by lia.
  assert (ISO.validTime (HourFromTime t) (MinFromTime t) (SecFromTime t) &&
          ((HourFromTime t <? 24) || (msFromTime t =? 0)) = true) as ->.
  { unfold ISO.validTime.
    rewrite !andb_true_iff, !orb_true_iff, !andb_true_iff, !Z.leb_le, Z.ltb_lt. lia. }
  cbv beta iota.
  rewrite MakeDay_same_month, Htime.
  replace (Day t - DateFromTime t + DateFromTime t) with (Day t) by lia.
  replace (MakeDate (Day t) (TimeWithinDay t) - 0) with t
    by (unfold MakeDate, Day, TimeWithinDay, msPerDay; zdiv).
  apply TimeClip_in_range. exact Ht.
Qed.

(** On a failure or an empty result set the fetch is the mock service. *)
Lemma fetch_fallback tza fetch now1 now2 now3 now4 city stateCode radius category :
  fetch (api.TICKETMASTER_ENDPOINT city stateCode radius category) = TransportFailure \/
  (exists data,
     fetch (api.TICKETMASTER_ENDPOINT city stateCode radius category) = Response data /\
     emptyResultSet data) ->
  api.fetchTicketmasterEvents tza fetch now1 now2 now3 now4 city stateCode radius category =
  mockApi.fetchTicketmasterEvents tza now1 now2 now3 now4.
Proof.
  unfold api.fetchTicketmasterEvents, emptyResultSet. cbv zeta.
  intros [-> | (data & -> & Hempty)]; [reflexivity |].
  destruct (_embedded data) as [emb |]; [| reflexivity].
  destruct (events emb) as [evs |] eqn:Hevs; [| reflexivity].
  rewrite (Hempty emb evs eq_refl Hevs). reflexivity.
Qed.

(** What the mock service returns when its clock readings are in range. *)
Lemma mock_events tza now1 now2 now3 now4 :
  clockInRange tza now1 -> clockInRange tza now2 ->
  clockInRange tza now3 -> clockInRange tza now4 ->
  exists evs d1 d3 d4 d5,
    mockApi.fetchTicketmasterEvents tza now1 now2 now3 now4 = Ok evs /\
    map id evs = ["tm-1"; "tm-2"; "tm-3"; "tm-4"; "tm-5"] /\
    map name evs = ["Mock: Indie Showcase"; "Mock: Broncos Game"; "Mock: Jazz Night";
                    "Mock: Nuggets Game"; "Mock: Art Festival"] /\
    map category evs = ["Music"; "Sports"; "Music"; "Sports"; "Social"] /\
    map subcategory evs = [None; Some "NFL"; None; Some "NBA"; None] /\
    map date evs = [Some d1; Some d1; Some d3; Some d4; Some d5] /\
    Forall populated evs /\
    ISO.toISOString (Some now1) = Ok d1 /\
    ISO.toISOString
      (setDate tza (Some now2) (num_add (getDate tza (Some now1)) (Some 1))) = Ok d3 /\
    ISO.toISOString
      (setDate tza (Some now3) (num_add (getDate tza (Some now1)) (Some 7))) = Ok d4 /\
    ISO.toISOString
      (setMonth tza (Some now4) (num_add (getMonth tza (Some now1)) (Some 1))) = Ok d5.
Proof.
  intros H1 H2 H3 H4.
  pose proof (setDate_of_today tza now1 now2 1 H2 ltac:(lia)) as E1.
  pose proof (setDate_of_today tza now1 now3 7 H3 ltac:(lia)) as E2.
  pose proof (setMonth_of_today tza now1 now4 H4) as E3.
  unfold mockApi.fetchTicketmasterEvents. cbv zeta.
  rewrite E1, E2, E3.
  destruct (toISOString_valid now1) as (d1 & -> & N1).
  match goal with |- context [ISO.toISOString (Some ?v)] =>
    destruct (toISOString_valid v) as (d3 & -> & N3) end.
  match goal with |- context [ISO.toISOString (Some ?v)] =>
    destruct (toISOString_valid v) as (d4 & -> & N4) end.
  match goal with |- context [ISO.toISOString (Some ?v)] =>
    destruct (toISOString_valid v) as (d5 & -> & N5) end.
  cbn [bind].
  eexists. exists d1, d3, d4, d5.
  split; [reflexivity |].
  cbn [map id name category subcategory date].
  repeat (split; [reflexivity |]).
  split; [| repeat split].
  repeat constructor; cbn [id name category date venueName imageUrl address];
    try discriminate; eexists; (split; [reflexivity |]); (assumption || discriminate).
Qed.

Lemma time_predicate_table_witness :
  SportsScreen.timeMatch denver (ISO.parse denver) 1750010400000 "Today"
    (sampleEvent None (Some "2025-06-15T20:00:00")) = true /\
  SportsScreen.timeMatch denver (ISO.parse denver) 1750010400000 "Next Month"
    (sampleEvent None (Some "2025-06-15T20:00:00")) = false.
Proof.
  assert (Date_of_field (ISO.parse denver)
            (date (sampleEvent None (Some "2025-06-15T20:00:00"))) = Some 1750039200000) as Hd
    by (vm_compute; reflexivity).
  destruct (time_predicate_table denver (ISO.parse denver) 1750010400000
              (sampleEvent None (Some "2025-06-15T20:00:00")) 1750039200000 Hd)
    as (_ & _ & _ & _ & _ & _ & Hs).
  assert (Z.abs denver <= msPerDay) as Hz by (unfold denver, msPerDay; lia).
  assert (1750010400000 = localInstant denver 2025 5 15 12 0 0 0) as Hnow
    by (vm_compute; reflexivity).
  destruct (Hs Hz Hnow eq_refl eq_refl) as (H1 & H2 & _).
  exact (conj H1 H2).
Defined.

(** ** Find My Night: claims *)

Lemma mass_const {A : Type} (d : NightPicker.dist A) (q : Q) :
  Forall (fun p => snd p = q) d ->
  Qeq (NightPicker.mass d) (Qmult (inject_Z (Z.of_nat (List.length d))) q).
Proof.
  induction 1 as [| p d Hp _ IH]; unfold NightPicker.mass in *; cbn [fold_right List.length].
  - rewrite Qmult_0_l. reflexivity.
  - rewrite IH, Hp, Nat2Z.inj_succ. unfold Z.succ. rewrite inject_Z_plus.
    rewrite Qmult_plus_distr_l, Qmult_1_l. apply Qplus_comm.
Qed.

Lemma pick_nonempty_map (candidates : list Event) :
  candidates <> [] ->
  NightPicker.pick candidates =
  map (fun e => (Some e, (1 # Pos.of_nat (List.length candidates))%Q)) candidates.
Proof. destruct candidates; [congruence | reflexivity]. Qed.

(** C8: [pick] on the empty list returns none with certainty, and
    the modal is then not opened (the caller leaves the state as it is, and
    the modal renders nothing without a suggestion); on a singleton it
    returns the element with certainty; on a non-empty list every outcome
    is an element of the list, each position has probability 1/n, and the
    probabilities sum to 1. *)
Theorem pick_uniform :
  NightPicker.pick [] = [(None, 1%Q)] /\
  (forall st, NightPicker.handleFindMyNight None st = st) /\
  App.modal (NightPicker.handleFindMyNight None App.initial) = None /\
  (forall visible, App.FindMyNightModal visible None = None) /\
  (forall e, NightPicker.pick [e] = [(Some e, 1%Q)]) /\
  (forall candidates, candidates <> [] ->
     map fst (NightPicker.pick candidates) = map Some candidates /\
     Forall (fun p => snd p = (1 # Pos.of_nat (List.length candidates))%Q)
            (NightPicker.pick candidates) /\
     Qeq (NightPicker.mass (NightPicker.pick candidates)) 1%Q /\
     (forall o p, In (o, p) (NightPicker.pick candidates) ->
                  exists e, o = Some e /\ In e candidates)).
Proof.
  split; [reflexivity |].
  split; [reflexivity |].
  split; [reflexivity |].
  split; [reflexivity |].
  split; [reflexivity |].
  intros candidates Hne. rewrite (pick_nonempty_map candidates Hne).
  set (q := (1 # Pos.of_nat (List.length candidates))%Q).
  assert (Forall (fun p : option Event * Q => snd p = q)
                 (map (fun e => (Some e, q)) candidates)) as Hall.
  { apply Forall_forall. intros p Hp. apply in_map_iff in Hp as (e & <- & _). reflexivity. }
  split; [| split; [exact Hall | split]].
  - rewrite map_map. cbn [fst]. reflexivity.
  - rewrite (mass_const _ q Hall), length_map. subst q.
    destruct candidates as [| c cs]; [congruence |].
    unfold Qeq, Qmult, inject_Z. cbn [Qnum Qden List.length]. lia.
  - intros o p Hin. apply in_map_iff in Hin as (e & [= <- _] & He). eauto.
Qed.

Lemma pick_uniform_witness :
  Qeq (NightPicker.mass
         (NightPicker.pick [sampleEvent None None; sampleEvent (Some "NFL") None])) 1%Q.
Proof.
  destruct pick_uniform as (_ & _ & _ & _ & _ & H).
  destruct (H [sampleEvent None None; sampleEvent (Some "NFL") None] ltac:(discriminate))
    as (_ & _ & Hm & _).
  exact Hm.
Defined.

(** ** Evaluations *)

Example parse_local : ISO.parse denver "2025-06-15T20:00:00" = Some 1750039200000.
Proof. vm_compute. reflexivity. Qed.

Example parse_utc : ISO.parse denver "2025-06-15T20:00:00Z" = Some 1750017600000.
Proof. vm_compute. reflexivity. Qed.

Example parse_date_only : ISO.parse denver "2025-06-15" = Some 1749945600000.
Proof. vm_compute. reflexivity. Qed.

Example parse_rejects_day_30_of_february : ISO.parse denver "2025-02-30" = None.
Proof. vm_compute. reflexivity. Qed.

Example toISOString_noon : ISO.toISOString (Some 1750010400000) = Ok "2025-06-15T18:00:00.000Z".
Proof. vm_compute. reflexivity. Qed.

Example toISOString_parse_back :
  ISO.parse denver "2025-06-15T18:00:00.000Z" = Some 1750010400000.
Proof. vm_compute. reflexivity. Qed.

Example toISOString_expanded_year :
  ISO.toISOString (Some (-62198755200001)) = Ok "-000002-12-31T23:59:59.999Z".
Proof. vm_compute. reflexivity. Qed.

Example endpoint_sports :
  api.TICKETMASTER_ENDPOINT "Denver" "CO" 50 (Some "Sports") =
  "https://app.ticketmaster.com/discovery/v2/events.json?city=Denver&stateCode=CO&radius=50&unit=miles&classificationName=Sports&apikey=secret".
Proof. vm_compute. reflexivity. Qed.

(** The windows at local noon of Sunday 2025-06-15 in Denver: the week ends
    at the midnight that begins Sunday 2025-06-22, the months end with
    their last millisecond. *)
Example windows_at_denver_noon :
  (SportsScreen.startOfDay denver 1750010400000, SportsScreen.endOfDay denver 1750010400000,
   SportsScreen.endOfWeek denver 1750010400000, SportsScreen.endOfMonth denver 1750010400000,
   SportsScreen.endOfNextMonth denver 1750010400000) =
  (ISO.parse denver "2025-06-15T00:00:00.000", ISO.parse denver "2025-06-15T23:59:59.999",
   ISO.parse denver "2025-06-22T00:00:00.000", ISO.parse denver "2025-06-30T23:59:59.999",
   ISO.parse denver "2025-07-31T23:59:59.999").
Proof. vm_compute. reflexivity. Qed.

(** January 31: the month after next is reached through month index 13. *)
Example windows_at_year_end :
  (SportsScreen.endOfMonth 0 (MakeDate (MakeDay 2024 11 31) 0),
   SportsScreen.endOfNextMonth 0 (MakeDate (MakeDay 2024 11 31) 0)) =
  (ISO.parse 0 "2024-12-31T23:59:59.999", ISO.parse 0 "2025-01-31T23:59:59.999").
Proof. vm_compute. reflexivity. Qed.

(** The mock list through the sports screen at the instant it was built:
    the week filter keeps today's and tomorrow's events and drops the one
    seven days ahead, which falls after the midnight that ends the week. *)
Example mock_list_this_week :
  match mockApi.fetchTicketmasterEvents denver 1750010400000 1750010400000
          1750010400000 1750010400000 with
  | Ok evs =>
      match SportsScreen.filteredEvents denver (ISO.parse denver) 1750010400000 evs
              "This Week" "Sports" with
      | Ok kept => map id kept
      | Throw _ => []
      end
  | Throw _ => []
  end = ["tm-1"; "tm-2"; "tm-3"].
Proof. vm_compute. reflexivity. Qed.

Example mock_list_nfl_today :
  match mockApi.fetchTicketmasterEvents denver 1750010400000 1750010400000
          1750010400000 1750010400000 with
  | Ok evs =>
      match SportsScreen.filteredEvents denver (ISO.parse denver) 1750010400000 evs
              "Today" "NFL" with
      | Ok kept => map id kept
      | Throw _ => []
      end
  | Throw _ => []
  end = ["tm-2"].
Proof. vm_compute. reflexivity. Qed.

(** A payload event with every optional property is mapped property by
    property. *)
Example normalize_full :
  api.normalize
    {| raw_id := "vvG1"; raw_name := "Broncos vs. Raiders";
       classifications :=
         Some [ {| segment := Some {| nm := Some "Sports" |};
                   subGenre := Some {| nm := Some "NFL" |} |} ];
       dates_start_dateTime := Some "2025-09-21T20:25:00Z";
       embedded_venues :=
         Some [ {| venue_name := Some "Empower Field";
                   venue_address := Some {| line1 := Some "1701 Bryant St" |};
                   venue_city := Some {| nm := Some "Denver" |};
                   venue_state := Some {| venueStateCode := Some "CO" |} |} ];
       images := Some [ {| ratio := Some "4_3"; url := Some "https://img/a.jpg" |};
                        {| ratio := Some "16_9"; url := Some "https://img/b.jpg" |} ] |} =
  {| id := "vvG1"; name := "Broncos vs. Raiders"; category := "Sports";
     subcategory := Some "NFL"; date := Some "2025-09-21T20:25:00Z";
     venueName := Some "Empower Field"; imageUrl := "https://img/b.jpg";
     address := "1701 Bryant St, Denver, CO" |}.
Proof. reflexivity. Qed.

Example normalize_bare :
  api.normalize bareRawEvent =
  {| id := "Z7r9jZ1A"; name := "Open Mic"; category := "Social";
     subcategory := Some "N/A"; date := None; venueName := None;
     imageUrl := "https://placehold.co/600x400/1a202c/ffffff?text=Event";
     address := "undefined, undefined, undefined" |}.
Proof. reflexivity. Qed.

(** A clock in the year 50: the constructor reads the year as 1950. *)
Example two_digit_year :
  SportsScreen.endOfMonth 0 (MakeDate (MakeDay 50 5 15) 0) =
  ISO.parse 0 "1950-06-30T23:59:59.999".
Proof. vm_compute. reflexivity. Qed.

(** At the ends of the range of time values a boundary is NaN. *)
Example windows_at_the_ends :
  (SportsScreen.startOfDay denver (- maxTime), SportsScreen.endOfNextMonth denver maxTime) =
  (None, None).
Proof. vm_compute. reflexivity. Qed.

(** * Further properties *)

(** ** The filter as a list operation *)

Lemma filter_impl_Subsequence {A : Type} (p q : A -> bool) l :
  (forall x, In x l -> p x = true -> q x = true) ->
  Subsequence (filter p l) (filter q l).
Proof.
  induction l as [| x l IH]; intros H; cbn [filter].
  - constructor.
  - assert (Subsequence (filter p l) (filter q l)) as IH'
      by (apply IH; intros y Hy; apply H; right; exact Hy).
    destruct (p x) eqn:Ep.
    + rewrite (H x (or_introl eq_refl) Ep). apply sub_keep. exact IH'.
    + destruct (q x); [apply sub_skip |]; exact IH'.
Qed.

Lemma filter_idempotent {A : Type} (p : A -> bool) l : filter p (filter p l) = filter p l.
Proof.
  induction l as [| x l IH]; cbn [filter]; [reflexivity |].
  destruct (p x) eqn:Ep; [| exact IH].
  cbn [filter]. rewrite Ep, IH. reflexivity.
Qed.

Lemma Subsequence_length {A : Type} (l1 l2 : list A) :
  Subsequence l1 l2 -> (List.length l1 <= List.length l2)%nat.
Proof. induction 1; cbn [List.length]; lia. Qed.

(** X1: Both screens, for any clock, parser, list and filter strings: the
    filter returns (it throws on no event), what it keeps is the events that
    pass the time predicate and the category predicate, in the order of the
    input; it adds and reorders nothing and is never longer than the input. *)
Theorem filter_keeps_exactly_the_matches tza parse now events timeFilter categoryFilter :
  (exists kept,
     SportsScreen.filteredEvents tza parse now events timeFilter categoryFilter = Ok kept /\
     Subsequence kept events /\
     (List.length kept <= List.length events)%nat /\
     forall e, In e kept <->
               In e events /\
               SportsScreen.timeMatch tza parse now timeFilter e = true /\
               holds (SportsScreen.categoryMatch categoryFilter e)) /\
  (exists kept,
     MusicScreen.filteredEvents tza parse now events timeFilter categoryFilter = Ok kept /\
     Subsequence kept events /\
     (List.length kept <= List.length events)%nat /\
     forall e, In e kept <->
               In e events /\
               MusicScreen.timeMatch tza parse now timeFilter e = true /\
               holds (MusicScreen.categoryMatch categoryFilter e)).
Proof.
  split.
  - rewrite Sports_filter_pure. eexists. split; [reflexivity |].
    split; [apply filter_Subsequence |].
    split; [apply Subsequence_length, filter_Subsequence |].
    intros e. rewrite filter_In, andb_true_iff, accepts_holds. reflexivity.
  - rewrite Music_filter_pure. eexists. split; [reflexivity |].
    split; [apply filter_Subsequence |].
    split; [apply Subsequence_length, filter_Subsequence |].
    intros e. rewrite filter_In, andb_true_iff, accepts_holds. reflexivity.
Qed.

(** X2: Filtering a concatenation is concatenating the filterings, and
    filtering what the filter kept, with the same clock and filters, keeps all
    of it. *)
Theorem filter_distributes_and_is_idempotent tza parse now l1 l2 timeFilter categoryFilter :
  (forall k1 k2,
     SportsScreen.filteredEvents tza parse now l1 timeFilter categoryFilter = Ok k1 ->
     SportsScreen.filteredEvents tza parse now l2 timeFilter categoryFilter = Ok k2 ->
     SportsScreen.filteredEvents tza parse now (l1 ++ l2)%list timeFilter categoryFilter =
       Ok (k1 ++ k2)%list /\
     SportsScreen.filteredEvents tza parse now k1 timeFilter categoryFilter = Ok k1) /\
  (forall k1 k2,
     MusicScreen.filteredEvents tza parse now l1 timeFilter categoryFilter = Ok k1 ->
     MusicScreen.filteredEvents tza parse now l2 timeFilter categoryFilter = Ok k2 ->
     MusicScreen.filteredEvents tza parse now (l1 ++ l2)%list timeFilter categoryFilter =
       Ok (k1 ++ k2)%list /\
     MusicScreen.filteredEvents tza parse now k1 timeFilter categoryFilter = Ok k1).
Proof.
  split; intros k1 k2.
  - rewrite !Sports_filter_pure. intros H1 H2.
    apply (f_equal (fun r => match r with Ok x => x | Throw _ => k1 end)) in H1.
    apply (f_equal (fun r => match r with Ok x => x | Throw _ => k2 end)) in H2.
    cbv beta iota in H1, H2. subst k1 k2.
    rewrite filter_app, filter_idempotent. split; reflexivity.
  - rewrite !Music_filter_pure. intros H1 H2.
    apply (f_equal (fun r => match r with Ok x => x | Throw _ => k1 end)) in H1.
    apply (f_equal (fun r => match r with Ok x => x | Throw _ => k2 end)) in H2.
    cbv beta iota in H1, H2. subst k1 k2.
    rewrite filter_app, filter_idempotent. split; reflexivity.
Qed.

Lemma filter_distributes_and_is_idempotent_witness :
  SportsScreen.filteredEvents denver (ISO.parse denver) 1750010400000
    ([sampleEvent (Some "NFL") (Some "2025-06-15T20:00:00")] ++
     [sampleEvent None (Some "2025-06-15T21:00:00")])%list "Today" "NFL" =
  Ok ([sampleEvent (Some "NFL") (Some "2025-06-15T20:00:00")] ++ [])%list.
Proof.
  destruct (filter_distributes_and_is_idempotent denver (ISO.parse denver) 1750010400000
              [sampleEvent (Some "NFL") (Some "2025-06-15T20:00:00")]
              [sampleEvent None (Some "2025-06-15T21:00:00")] "Today" "NFL") as [H _].
  refine (proj1 (H _ _ _ _)); vm_compute; reflexivity.
Defined.

Lemma filter_nothing {A : Type} (p : A -> bool) l :
  (forall x, p x = false) -> filter p l = [].
Proof.
  intros H. induction l as [| x l IH]; cbn [filter]; [reflexivity |].
  rewrite H. exact IH.
Qed.

(** X3: A time filter other than the four labels matches no event, and in the
    sports screen so does a category filter other than the five labels (the
    comparison is by case: "nfl" is none of them): the list shown is empty,
    whatever the events. *)
Theorem unknown_filter_shows_nothing tza parse now events :
  (forall timeFilter categoryFilter,
     ~ In timeFilter ["Today"; "This Week"; "This Month"; "Next Month"] ->
     SportsScreen.filteredEvents tza parse now events timeFilter categoryFilter = Ok [] /\
     MusicScreen.filteredEvents tza parse now events timeFilter categoryFilter = Ok []) /\
  (forall timeFilter categoryFilter,
     ~ In categoryFilter ["Sports"; "NFL"; "NBA"; "MLB"; "NHL"] ->
     SportsScreen.filteredEvents tza parse now events timeFilter categoryFilter = Ok []).
Proof.
  split.
  - intros tf cf Hn.
    assert (forall e, SportsScreen.timeMatch tza parse now tf e = false) as Ht.
    { intros e. unfold SportsScreen.timeMatch. cbv zeta.
      repeat match goal with
             | |- context [String.eqb tf ?lit] =>
                 let E := fresh "E" in
                 destruct (String.eqb tf lit) eqn:E;
                 [ apply String.eqb_eq in E; subst tf; elim Hn; cbn [In]; tauto |]
             end.
      reflexivity. }
    rewrite Sports_filter_pure, Music_filter_pure. split.
    + rewrite (filter_nothing _ events); [reflexivity |].
      intros e. rewrite Ht. reflexivity.
    + rewrite (filter_nothing _ events); [reflexivity |].
      intros e. rewrite Music_timeMatch, Ht. reflexivity.
  - intros tf cf Hn.
    rewrite Sports_filter_pure. rewrite (filter_nothing _ events); [reflexivity |].
    intros e.
    assert (SportsScreen.categoryMatch cf e = Ok (VBool false)) as ->.
    { unfold SportsScreen.categoryMatch. cbn [existsb].
      repeat match goal with
             | |- context [String.eqb cf ?lit] =>
                 let E := fresh "E" in
                 destruct (String.eqb cf lit) eqn:E;
                 [ apply String.eqb_eq in E; subst cf; elim Hn; cbn [In]; tauto |]
             end.
      reflexivity. }
    apply andb_false_r.
Qed.

Lemma unknown_filter_shows_nothing_witness :
  SportsScreen.filteredEvents denver (ISO.parse denver) 1750010400000
    [sampleEvent (Some "NFL") (Some "2025-06-15T20:00:00")] "Today" "nfl" = Ok [].
Proof.
  destruct (unknown_filter_shows_nothing denver (ISO.parse denver) 1750010400000
              [sampleEvent (Some "NFL") (Some "2025-06-15T20:00:00")]) as [_ H].
  apply H. cbn [In]. intros [H0 | [H0 | [H0 | [H0 | [H0 | []]]]]]; discriminate.
Defined.

(** ** The date windows, further *)

Lemma YearFromTime_Day t t' : Day t = Day t' -> YearFromTime t = YearFromTime t'.
Proof. intros H. unfold YearFromTime. rewrite H. reflexivity. Qed.

Lemma MonthFromTime_Day t t' : Day t = Day t' -> MonthFromTime t = MonthFromTime t'.
Proof.
  intros H. unfold MonthFromTime, DayWithinYear, InLeapYear.
  rewrite (YearFromTime_Day t t' H), H. reflexivity.
Qed.

Lemma windows_same_day tza now now' :
  Day (LocalTime tza now) = Day (LocalTime tza now') ->
  SportsScreen.startOfDay tza now = SportsScreen.startOfDay tza now' /\
  SportsScreen.endOfDay tza now = SportsScreen.endOfDay tza now' /\
  SportsScreen.endOfWeek tza now = SportsScreen.endOfWeek tza now' /\
  SportsScreen.endOfMonth tza now = SportsScreen.endOfMonth tza now' /\
  SportsScreen.endOfNextMonth tza now = SportsScreen.endOfNextMonth tza now'.
Proof.
  intros H.
  assert (SportsScreen.startOfDay tza now = SportsScreen.startOfDay tza now') as Hs
    by (unfold SportsScreen.startOfDay, setHours; rewrite H; reflexivity).
  split; [exact Hs |].
  split; [unfold SportsScreen.endOfDay, setHours; rewrite H; reflexivity |].
  split; [unfold SportsScreen.endOfWeek; rewrite Hs; reflexivity |].
  split.
  - unfold SportsScreen.endOfMonth, getFullYear, getMonth, option_map.
    rewrite (YearFromTime_Day _ _ H), (MonthFromTime_Day _ _ H). reflexivity.
  - unfold SportsScreen.endOfNextMonth, getFullYear, getMonth, option_map.
    rewrite (YearFromTime_Day _ _ H), (MonthFromTime_Day _ _ H). reflexivity.
Qed.

Lemma timeMatch_same_day tza parse now now' timeFilter e :
  Day (LocalTime tza now) = Day (LocalTime tza now') ->
  SportsScreen.timeMatch tza parse now timeFilter e =
  SportsScreen.timeMatch tza parse now' timeFilter e.
Proof.
  intros H. destruct (windows_same_day tza now now' H) as (H1 & H2 & H3 & H4 & H5).
  unfold SportsScreen.timeMatch. rewrite H1, H2, H3, H4, H5. reflexivity.
Qed.

(** X4: Two clock readings on one local day give the same five boundary
    instants, so both screens keep the same events all day: the lists change
    with the clock only when it passes a local midnight. *)
Theorem windows_depend_on_local_day tza now now' :
  Day (LocalTime tza now) = Day (LocalTime tza now') ->
  (SportsScreen.startOfDay tza now = SportsScreen.startOfDay tza now' /\
   SportsScreen.endOfDay tza now = SportsScreen.endOfDay tza now' /\
   SportsScreen.endOfWeek tza now = SportsScreen.endOfWeek tza now' /\
   SportsScreen.endOfMonth tza now = SportsScreen.endOfMonth tza now' /\
   SportsScreen.endOfNextMonth tza now = SportsScreen.endOfNextMonth tza now') /\
  (forall parse events timeFilter categoryFilter,
     SportsScreen.filteredEvents tza parse now events timeFilter categoryFilter =
     SportsScreen.filteredEvents tza parse now' events timeFilter categoryFilter) /\
  (forall parse events timeFilter genreFilter,
     MusicScreen.filteredEvents tza parse now events timeFilter genreFilter =
     MusicScreen.filteredEvents tza parse now' events timeFilter genreFilter).
Proof.
  intros H. split; [apply windows_same_day; exact H |].
  split; intros parse events tf cf.
  - rewrite !Sports_filter_pure. f_equal. apply filter_ext. intros e.
    cbv beta. apply (f_equal2 andb); [| reflexivity].
    apply timeMatch_same_day. exact H.
  - rewrite !Music_filter_pure. f_equal. apply filter_ext. intros e.
    cbv beta. apply (f_equal2 andb); [| reflexivity].
    etransitivity; [apply Music_timeMatch |].
    etransitivity; [| symmetry; apply Music_timeMatch].
    apply timeMatch_same_day. exact H.
Qed.

Lemma windows_depend_on_local_day_witness :
  SportsScreen.endOfWeek denver 1750010400000 = SportsScreen.endOfWeek denver 1750020000000.
Proof.
  assert (Day (LocalTime denver 1750010400000) = Day (LocalTime denver 1750020000000)) as H
    by (vm_compute; reflexivity).
  destruct (windows_depend_on_local_day denver 1750010400000 1750020000000 H)
    as ((_ & _ & Hw & _) & _).
  exact Hw.
Defined.

(** Evaluates [monthStart] on ground arguments in the hypotheses. *)
Ltac eval_monthStart :=
  repeat match goal with
         | H : context [monthStart ?b ?n] |- _ =>
             let v := eval vm_compute in (monthStart b n) in
             change (monthStart b n) with v in H
         end.

(** The year, month and day of the month of a day number given by them. *)
Lemma calendar_of_day y m k t :
  0 <= m <= 11 -> 0 <= k < DaysInMonth (isLeapYear y) m ->
  Day t = DayFromYear y + monthStart (isLeapYear y) m + k ->
  YearFromTime t = y /\ MonthFromTime t = m /\ DateFromTime t = k + 1.
Proof.
  intros Hm Hk HD.
  assert (0 <= monthStart (isLeapYear y) m /\
          monthStart (isLeapYear y) (m + 1) <= DaysInYear y) as (H0 & H2).
  { unfold DaysInYear.
    assert (m = 0 \/ m = 1 \/ m = 2 \/ m = 3 \/ m = 4 \/ m = 5 \/ m = 6 \/ m = 7 \/
            m = 8 \/ m = 9 \/ m = 10 \/ m = 11) as Hc by lia.
    clear - Hc.
    destruct (isLeapYear y); repeat (destruct Hc as [-> | Hc]); try subst m; cbn; lia. }
  unfold DaysInMonth in Hk.
  assert (YearFromTime t = y) as HY.
  { apply YearFromTime_unique. rewrite HD, DayFromYear_succ. lia. }
  assert (DayWithinYear t = monthStart (isLeapYear y) m + k) as HW.
  { unfold DayWithinYear. rewrite HD, HY. lia. }
  assert (MonthFromTime t = m) as HM.
  { pose proof (MonthFromTime_spec t) as Hs.
    pose proof (MonthFromTime_range t) as Hg.
    unfold InLeapYear in Hs. rewrite HY, HW in Hs.
    set (j := MonthFromTime t) in *.
    assert (j = 0 \/ j = 1 \/ j = 2 \/ j = 3 \/ j = 4 \/ j = 5 \/ j = 6 \/ j = 7 \/
            j = 8 \/ j = 9 \/ j = 10 \/ j = 11) as Hj by lia.
    assert (m = 0 \/ m = 1 \/ m = 2 \/ m = 3 \/ m = 4 \/ m = 5 \/ m = 6 \/ m = 7 \/
            m = 8 \/ m = 9 \/ m = 10 \/ m = 11) as Hc by lia.
    clearbody j. clear - Hs Hj Hc Hk.
    destruct (isLeapYear y);
      repeat (destruct Hj as [-> | Hj]); try subst j;
      repeat (destruct Hc as [-> | Hc]); try subst m; eval_monthStart; lia. }
  split; [exact HY | split; [exact HM |]].
  unfold DateFromTime, InLeapYear. rewrite HW, HY, HM. lia.
Qed.



(** ** The time filters against each other *)

Lemma TimeClip_bound t v : TimeClip t = Some v -> Z.abs v <= maxTime.
Proof. intros H. apply TimeClip_Some in H as [-> H]. exact H. Qed.

Lemma startOfDay_bound tza now sod :
  SportsScreen.startOfDay tza now = Some sod -> Z.abs sod <= maxTime.
Proof. unfold SportsScreen.startOfDay, setHours. apply TimeClip_bound. Qed.

Lemma endOfNextMonth_bound tza now eonm :
  SportsScreen.endOfNextMonth tza now = Some eonm -> Z.abs eonm <= maxTime.
Proof.
  unfold SportsScreen.endOfNextMonth, setHours.
  destruct (Date_ymd tza _ _ _) as [x |]; [apply TimeClip_bound | discriminate].
Qed.

(** The end of a month is a time value when its first and last millisecond
    are in the range of time values. *)
Lemma monthEnd_in_bounds tza now k :
  Z.abs (UTC tza (MakeDate (MakeDay (MakeFullYear (YearFromTime (LocalTime tza now)))
                                    (MonthFromTime (LocalTime tza now) + k) 0) 0)) <= maxTime ->
  Z.abs (UTC tza (MakeDate (MakeDay (MakeFullYear (YearFromTime (LocalTime tza now)))
                                    (MonthFromTime (LocalTime tza now) + k) 0)
                           (msPerDay - 1))) <= maxTime ->
  setHours tza
    (Date_ymd tza (getFullYear tza (Some now)) (num_add (getMonth tza (Some now)) (Some k))
              (Some 0)) 23 59 59 999 =
  Some (UTC tza (MakeDate (MakeDay (MakeFullYear (YearFromTime (LocalTime tza now)))
                                   (MonthFromTime (LocalTime tza now) + k) 0)
                          (msPerDay - 1))).
Proof.
  intros B0 B1.
  unfold getFullYear, getMonth, option_map, num_add, Date_ymd.
  rewrite MakeTime_midnight, (TimeClip_in_range _ B0).
  unfold setHours. rewrite LocalTime_UTC, Day_MakeDate, MakeTime_last_ms by (unfold msPerDay; lia).
  apply TimeClip_in_range. exact B1.
Qed.

(** An instant between two time values is a time value. *)
Lemma between_bounds (D e1 e2 tza : Z) :
  Z.abs (UTC tza (MakeDate D 0)) <= maxTime ->
  Z.abs (UTC tza (MakeDate e2 (msPerDay - 1))) <= maxTime ->
  D <= e1 -> e1 + 28 <= e2 <= e1 + 31 ->
  Z.abs (UTC tza (MakeDate e1 0)) <= maxTime /\
  Z.abs (UTC tza (MakeDate e1 (msPerDay - 1))) <= maxTime.
Proof. unfold UTC, MakeDate, msPerDay, maxTime. lia. Qed.

(** [endOfMonth] is a time value whenever [startOfDay] and [endOfNextMonth]
    are: it lies between them. *)
Lemma endOfMonth_defined tza now sod eonm :
  SportsScreen.startOfDay tza now = Some sod ->
  SportsScreen.endOfNextMonth tza now = Some eonm ->
  SportsScreen.endOfMonth tza now =
  Some (UTC tza (MakeDate (MakeDay (MakeFullYear (YearFromTime (LocalTime tza now)))
                                   (MonthFromTime (LocalTime tza now) + 1) 0)
                          (msPerDay - 1))).
Proof.
  intros Hs He.
  pose proof (startOfDay_bound _ _ _ Hs) as Bs.
  pose proof (endOfNextMonth_bound _ _ _ He) as Be.
  rewrite (startOfDay_Some _ _ _ Hs) in Bs.
  rewrite (endOfNextMonth_Some _ _ _ He) in Be.
  destruct (between_bounds _ _ _ _ Bs Be (today_le_monthEnd tza now) (monthEnd_2 tza now))
    as [B0 B1].
  unfold SportsScreen.endOfMonth.
  exact (monthEnd_in_bounds tza now 1 B0 B1).
Qed.



(** A time match, whatever the filter string, is one of the four windows. *)
Lemma timeMatch_true_cases tza parse now timeFilter e :
  SportsScreen.timeMatch tza parse now timeFilter e = true ->
  (leN (SportsScreen.startOfDay tza now) (Date_of_field parse (date e)) /\
   (leN (Date_of_field parse (date e)) (SportsScreen.endOfDay tza now) \/
    leN (Date_of_field parse (date e)) (SportsScreen.endOfWeek tza now) \/
    leN (Date_of_field parse (date e)) (SportsScreen.endOfMonth tza now))) \/
  (ltN (SportsScreen.endOfMonth tza now) (Date_of_field parse (date e)) /\
   leN (Date_of_field parse (date e)) (SportsScreen.endOfNextMonth tza now)).
Proof.
  unfold SportsScreen.timeMatch. cbv zeta.
  destruct (String.eqb timeFilter "Today").
  { intros Ht. apply andb_true_iff in Ht as [Ha Hb].
    apply num_ge_leN in Ha. apply num_le_leN in Hb. left. auto. }
  destruct (String.eqb timeFilter "This Week").
  { intros Ht. apply andb_true_iff in Ht as [Ha Hb].
    apply num_ge_leN in Ha. apply num_le_leN in Hb. left. auto. }
  destruct (String.eqb timeFilter "This Month").
  { intros Ht. apply andb_true_iff in Ht as [Ha Hb].
    apply num_ge_leN in Ha. apply num_le_leN in Hb. left. auto. }
  destruct (String.eqb timeFilter "Next Month"); [| discriminate].
  intros Ht. apply andb_true_iff in Ht as [Ha Hb].
  apply num_gt_ltN in Ha. apply num_le_leN in Hb. right. auto.
Qed.

(** The order of the window boundaries, as arithmetic on day numbers. *)
Lemma boundaries_arith (tza D w e1 e2 : Z) :
  D <= e1 -> e1 + 28 <= e2 <= e1 + 31 -> 0 <= w <= 6 ->
  UTC tza (MakeDate D (msPerDay - 1)) <= UTC tza (MakeDate e2 (msPerDay - 1)) /\
  UTC tza (MakeDate (D + 7 - w) 0) <= UTC tza (MakeDate e2 (msPerDay - 1)) /\
  UTC tza (MakeDate e1 (msPerDay - 1)) <= UTC tza (MakeDate e2 (msPerDay - 1)) /\
  UTC tza (MakeDate D 0) <= UTC tza (MakeDate e1 (msPerDay - 1)).
Proof. unfold UTC, MakeDate, msPerDay. lia. Qed.

(** X7: Whenever [startOfDay] and [endOfNextMonth] are time values: an event
    dated [d] matches some time filter exactly when [startOfDay <= d <=
    endOfNextMonth], so an event before today or after the end of next month
    is on no list; and every event in that range matches exactly one of This
    Month and Next Month. *)
Theorem month_filters_partition_the_range tza parse now e d sod eonm :
  Date_of_field parse (date e) = Some d ->
  SportsScreen.startOfDay tza now = Some sod ->
  SportsScreen.endOfNextMonth tza now = Some eonm ->
  ((exists timeFilter, SportsScreen.timeMatch tza parse now timeFilter e = true) <->
   sod <= d <= eonm) /\
  (sod <= d <= eonm ->
   SportsScreen.timeMatch tza parse now "This Month" e =
   negb (SportsScreen.timeMatch tza parse now "Next Month" e)) /\
  (forall timeFilter,
     MusicScreen.timeMatch tza parse now timeFilter e =
     SportsScreen.timeMatch tza parse now timeFilter e).
Proof.
  intros Hd Hsod Heonm.
  pose proof (endOfMonth_defined tza now sod eonm Hsod Heonm) as Heom.
  pose proof (startOfDay_Some tza now sod Hsod) as Vs.
  pose proof (endOfNextMonth_Some tza now eonm Heonm) as Vn.
  destruct (boundaries_arith tza _ _ _ _ (today_le_monthEnd tza now) (monthEnd_2 tza now)
              (WeekDay_range (LocalTime tza now))) as (A1 & A2 & A3 & A4).
  rewrite <- Vs in A4. rewrite <- Vn in A1, A2, A3.
  clear Vs Vn.
  remember (UTC tza (MakeDate (MakeDay (MakeFullYear (YearFromTime (LocalTime tza now)))
              (MonthFromTime (LocalTime tza now) + 1) 0) (msPerDay - 1))) as eom eqn:Eeom.
  clear Eeom.
  assert (SportsScreen.timeMatch tza parse now "This Month" e = true <->
          sod <= d <= eom) as HM.
  { rewrite timeMatch_ThisMonth, Hd, Hsod, Heom, !leN_Some. reflexivity. }
  assert (SportsScreen.timeMatch tza parse now "Next Month" e = true <->
          eom < d <= eonm) as HN.
  { rewrite timeMatch_NextMonth, Hd, Heonm, Heom, ltN_Some, leN_Some. reflexivity. }
  split; [| split; [| intros tf; apply Music_timeMatch]].
  - split.
    + intros [tf Ht].
      apply timeMatch_true_cases in Ht.
      rewrite Hd, Hsod, Heom, Heonm in Ht.
      rewrite !leN_Some, ltN_Some in Ht.
      destruct Ht as [[Ha [Hb | [Hb | Hb]]] | [Ha Hb]].
      * destruct Hb as (x & y & Hx & Hy & Hxy).
        apply endOfDay_Some in Hy.
        apply (f_equal (fun o => match o with Some v => v | None => d end)) in Hx.
        cbv beta iota in Hx. subst x y. lia.
      * destruct Hb as (x & y & Hx & Hy & Hxy).
        apply endOfWeek_Some in Hy.
        apply (f_equal (fun o => match o with Some v => v | None => d end)) in Hx.
        cbv beta iota in Hx. subst x y. lia.
      * lia.
      * lia.
    + intros Hin.
      destruct (Z_le_gt_dec d eom) as [Hl | Hg].
      * exists "This Month". apply HM. lia.
      * exists "Next Month". apply HN. lia.
  - intros Hin.
    destruct (SportsScreen.timeMatch tza parse now "This Month" e) eqn:EM;
      destruct (SportsScreen.timeMatch tza parse now "Next Month" e) eqn:EN;
      try reflexivity; exfalso.
    + assert (sod <= d <= eom) by (apply HM; reflexivity).
      assert (eom < d <= eonm) by (apply HN; reflexivity).
      lia.
    + destruct (Z_le_gt_dec d eom) as [Hl | Hg].
      * assert (false = true) by (apply HM; lia). discriminate.
      * assert (false = true) by (apply HN; lia). discriminate.
Qed.

Lemma month_filters_partition_the_range_witness :
  SportsScreen.timeMatch denver (ISO.parse denver) 1750010400000 "This Month"
    (sampleEvent None (Some "2025-07-04T20:00:00")) =
  negb (SportsScreen.timeMatch denver (ISO.parse denver) 1750010400000 "Next Month"
          (sampleEvent None (Some "2025-07-04T20:00:00"))).
Proof.
  assert (Date_of_field (ISO.parse denver)
            (date (sampleEvent None (Some "2025-07-04T20:00:00"))) = Some 1751680800000)
    as Hd by (vm_compute; reflexivity).
  assert (SportsScreen.startOfDay denver 1750010400000 = Some 1749967200000)
    as Hs by (vm_compute; reflexivity).
  assert (SportsScreen.endOfNextMonth denver 1750010400000 = Some 1754027999999)
    as Hn by (vm_compute; reflexivity).
  destruct (month_filters_partition_the_range _ _ _ _ _ _ _ Hd Hs Hn) as (_ & H & _).
  apply H. lia.
Defined.

(** ** The normaliser and the fetch, further *)

Lemma find_first {A : Type} (p : A -> bool) pre x post :
  Forall (fun a => p a = false) pre -> p x = true ->
  find p (pre ++ x :: post) = Some x.
Proof.
  intros Hpre Hx. induction Hpre as [| a pre Ha _ IH]; cbn [app find].
  - rewrite Hx. reflexivity.
  - rewrite Ha. exact IH.
Qed.

Lemma find_none {A : Type} (p : A -> bool) l :
  Forall (fun a => p a = false) l -> find p l = None.
Proof.
  intros H. induction H as [| a l Ha _ IH]; cbn [find]; [reflexivity |].
  rewrite Ha. exact IH.
Qed.

Lemma normalize_imageUrl raw :
  imageUrl (api.normalize raw) =
  or_default (chain (chain (images raw) (find is16_9)) url) placeholderImage.
Proof. reflexivity. Qed.

(** X8: The image of a normalised event is never empty: it is the url of the
    first image of the payload whose ratio is 16_9 when that url is a
    non-empty string, and the placeholder otherwise, also when a later 16_9
    image has a url. *)
Theorem image_is_first_16_9_or_placeholder raw :
  imageUrl (api.normalize raw) <> EmptyString /\
  (forall pre img post,
     images raw = Some (pre ++ img :: post)%list ->
     Forall (fun i => is16_9 i = false) pre -> is16_9 img = true ->
     (forall u, url img = Some u -> u <> EmptyString ->
                imageUrl (api.normalize raw) = u) /\
     (url img = None \/ url img = Some EmptyString ->
      imageUrl (api.normalize raw) = placeholderImage)) /\
  (forall imgs,
     images raw = Some imgs -> Forall (fun i => is16_9 i = false) imgs ->
     imageUrl (api.normalize raw) = placeholderImage) /\
  (images raw = None -> imageUrl (api.normalize raw) = placeholderImage).
Proof.
  rewrite normalize_imageUrl.
  split; [apply or_default_nonempty; discriminate |].
  split; [| split].
  - intros pre img post Hi Hpre Himg. rewrite Hi. cbn [chain].
    rewrite (find_first is16_9 pre img post Hpre Himg). cbn [chain]. split.
    + intros u Hu Hne. rewrite Hu. unfold or_default.
      apply String.eqb_neq in Hne. rewrite Hne. reflexivity.
    + apply or_default_lacking.
  - intros imgs Hi Hall. rewrite Hi. cbn [chain].
    rewrite (find_none is16_9 imgs Hall). reflexivity.
  - intros Hi. rewrite Hi. reflexivity.
Qed.

Lemma image_is_first_16_9_or_placeholder_witness :
  imageUrl (api.normalize
              {| raw_id := "G5vzZ9"; raw_name := "Rockies vs. Dodgers";
                 classifications := None; dates_start_dateTime := None;
                 embedded_venues := None;
                 images := Some [ {| ratio := Some "4_3"; url := Some "https://img/a.jpg" |};
                                  {| ratio := Some "16_9"; url := None |};
                                  {| ratio := Some "16_9";
                                     url := Some "https://img/c.jpg" |} ] |}) =
  placeholderImage.
Proof.
  destruct (image_is_first_16_9_or_placeholder
              {| raw_id := "G5vzZ9"; raw_name := "Rockies vs. Dodgers";
                 classifications := None; dates_start_dateTime := None;
                 embedded_venues := None;
                 images := Some [ {| ratio := Some "4_3"; url := Some "https://img/a.jpg" |};
                                  {| ratio := Some "16_9"; url := None |};
                                  {| ratio := Some "16_9";
                                     url := Some "https://img/c.jpg" |} ] |})
    as (_ & H & _).
  refine (proj2 (H [ {| ratio := Some "4_3"; url := Some "https://img/a.jpg" |} ]
                   {| ratio := Some "16_9"; url := None |}
                   [ {| ratio := Some "16_9"; url := Some "https://img/c.jpg" |} ]
                   eq_refl _ eq_refl) _).
  - repeat constructor.
  - left. reflexivity.
Defined.

(** X9: The normaliser reads the first classification and the first venue of
    the payload and no other: two payload events that agree on these and on
    id, name, date and images normalise to the same event.  Without a first
    venue the venue name is absent and the address is the text "undefined,
    undefined, undefined". *)
Theorem normalize_reads_first_entries raw raw' :
  (raw_id raw = raw_id raw' -> raw_name raw = raw_name raw' ->
   dates_start_dateTime raw = dates_start_dateTime raw' -> images raw = images raw' ->
   first (classifications raw) = first (classifications raw') ->
   first (embedded_venues raw) = first (embedded_venues raw') ->
   api.normalize raw = api.normalize raw') /\
  (first (embedded_venues raw) = None ->
   venueName (api.normalize raw) = None /\
   address (api.normalize raw) = "undefined, undefined, undefined") /\
  (first (classifications raw) = None ->
   category (api.normalize raw) = "Social" /\
   subcategory (api.normalize raw) = Some "N/A").
Proof.
  split; [| split].
  - intros H1 H2 H3 H4 H5 H6. unfold api.normalize. cbv zeta.
    rewrite H1, H2, H3, H4, H5, H6. reflexivity.
  - intros H. unfold api.normalize. cbv zeta.
    cbn [venueName address]. rewrite H. split; reflexivity.
  - intros H. unfold api.normalize. cbv zeta.
    cbn [category subcategory]. rewrite H. split; reflexivity.
Qed.

Lemma normalize_reads_first_entries_witness :
  address (api.normalize bareRawEvent) = "undefined, undefined, undefined".
Proof.
  destruct (normalize_reads_first_entries bareRawEvent bareRawEvent) as (_ & H & _).
  apply H. reflexivity.
Defined.

Lemma mock_five tza now1 now2 now3 now4 :
  clockInRange tza now1 -> clockInRange tza now2 ->
  clockInRange tza now3 -> clockInRange tza now4 ->
  exists evs, mockApi.fetchTicketmasterEvents tza now1 now2 now3 now4 = Ok evs /\
              List.length evs = 5%nat.
Proof.
  intros H1 H2 H3 H4.
  destruct (mock_events tza now1 now2 now3 now4 H1 H2 H3 H4)
    as (evs & d1 & d3 & d4 & d5 & E & Hid & _).
  exists evs. split; [exact E |].
  rewrite <- (length_map id), Hid. reflexivity.
Qed.

(** X10: With the clock in range the fetch returns, whatever the network does
    and whatever the search: it throws nothing and its list is never empty.  A
    response with events gives their normalisations, one for one and in order,
    with the ids and names of the payload; anything else gives five events. *)
Theorem fetch_always_returns_events tza fetch now1 now2 now3 now4
    city stateCode radius classification :
  clockInRange tza now1 -> clockInRange tza now2 ->
  clockInRange tza now3 -> clockInRange tza now4 ->
  exists evs,
    api.fetchTicketmasterEvents tza fetch now1 now2 now3 now4
      city stateCode radius classification = Ok evs /\
    evs <> [] /\
    (forall data,
       fetch (api.TICKETMASTER_ENDPOINT city stateCode radius classification) =
         Response data ->
       payloadCount data <> O ->
       exists raws,
         chain (_embedded data) events = Some raws /\
         evs = map api.normalize raws /\
         List.length evs = payloadCount data /\
         map id evs = map raw_id raws /\ map name evs = map raw_name raws /\
         map date evs = map dates_start_dateTime raws) /\
    ((fetch (api.TICKETMASTER_ENDPOINT city stateCode radius classification) =
        TransportFailure \/
      exists data,
        fetch (api.TICKETMASTER_ENDPOINT city stateCode radius classification) =
          Response data /\ payloadCount data = O) ->
     List.length evs = 5%nat).
Proof.
  intros H1 H2 H3 H4.
  destruct (mock_five tza now1 now2 now3 now4 H1 H2 H3 H4) as (mock & Emock & Lmock).
  assert (mock <> []) as Nmock by (intros ->; discriminate).
  unfold api.fetchTicketmasterEvents. cbv zeta. rewrite Emock. unfold payloadCount.
  destruct (fetch (api.TICKETMASTER_ENDPOINT city stateCode radius classification))
    as [| data].
  { exists mock. split; [reflexivity |]. split; [exact Nmock |]. split.
    - intros data [=].
    - intros _. exact Lmock. }
  destruct (_embedded data) as [emb |] eqn:Eemb; cbn [chain].
  2:{ exists mock. split; [reflexivity |]. split; [exact Nmock |]. split.
      - intros data' [= <-]. rewrite Eemb. cbn [chain].
        intros Hc. exfalso. apply Hc. reflexivity.
      - intros _. exact Lmock. }
  destruct (events emb) as [raws |] eqn:Eraws.
  2:{ exists mock. split; [reflexivity |]. split; [exact Nmock |]. split.
      - intros data' [= <-]. rewrite Eemb. cbn [chain]. rewrite Eraws.
        intros Hc. exfalso. apply Hc. reflexivity.
      - intros _. exact Lmock. }
  destruct raws as [| raw raws].
  { exists mock. split; [reflexivity |]. split; [exact Nmock |]. split.
    - intros data' [= <-]. rewrite Eemb. cbn [chain]. rewrite Eraws.
      intros Hc. exfalso. apply Hc. reflexivity.
    - intros _. exact Lmock. }
  exists (map api.normalize (raw :: raws)).
  split; [reflexivity |]. split; [discriminate |]. split.
  - intros data' [= <-]. rewrite Eemb. cbn [chain]. rewrite Eraws. intros _.
    exists (raw :: raws). split; [reflexivity |]. split; [reflexivity |].
    split; [apply length_map |].
    rewrite !map_map. split; [| split]; reflexivity.
  - intros [[=] | (data' & [= <-] & Hc)]. rewrite Eemb in Hc.
    cbn [chain] in Hc. rewrite Eraws in Hc. discriminate.
Qed.

Lemma fetch_always_returns_events_witness :
  exists evs,
    api.fetchTicketmasterEvents denver
      (fun _ => Response {| _embedded := Some {| events := Some [bareRawEvent] |} |})
      1750010400000 1750010400000 1750010400000 1750010400000
      "Denver" "CO" 50 (Some "Sports") = Ok evs /\
    map id evs = ["Z7r9jZ1A"].
Proof.
  assert (clockInRange denver 1750010400000) as Hr
    by (unfold clockInRange, margin, maxTime, msPerDay, denver; lia).
  destruct (fetch_always_returns_events denver
              (fun _ => Response {| _embedded := Some {| events := Some [bareRawEvent] |} |})
              1750010400000 1750010400000 1750010400000 1750010400000
              "Denver" "CO" 50 (Some "Sports") Hr Hr Hr Hr)
    as (evs & E & _ & H & _).
  exists evs. split; [exact E |].
  destruct (H _ eq_refl ltac:(discriminate)) as (raws & Hr1 & _ & _ & Hid & _).
  cbn [chain _embedded events] in Hr1.
  apply (f_equal (fun o => match o with Some v => v | None => [] end)) in Hr1.
  cbv beta iota in Hr1. subst raws. exact Hid.
Defined.

(** ** The root component: navigation, modal and timers *)

Lemma idle_step st a : idle st -> idle (AppFlow.step st a).
Proof.
  intros (Hs & Hv & Ht). unfold idle.
  destruct a as [t | p | event | | c |]; cbn [AppFlow.step].
  - cbn. auto.
  - destruct (App.selectedEvent st); cbn; auto.
  - destruct (App.selectedEvent st); [cbn; auto |].
    destruct (AppFlow.content st); cbn; auto.
  - destruct (App.selectedEvent st); cbn; auto.
  - unfold App.click, App.FindMyNightModal. rewrite Hs. auto.
  - unfold App.timerFires. rewrite Ht. auto.
Qed.

Lemma idle_run actions st : idle st -> idle (AppFlow.run actions st).
Proof.
  revert st. induction actions as [| a actions IH]; intros st H; [exact H |].
  apply IH, idle_step, H.
Qed.

Lemma tab_step st a :
  In (App.activeModule st) ["Sports"; "Music"; "Social"] -> idle st ->
  In (App.activeModule (AppFlow.step st a)) ["Sports"; "Music"; "Social"].
Proof.
  intros Hin (Hs & Hv & Ht).
  destruct a as [t | p | event | | c |]; cbn [AppFlow.step].
  - destruct t; cbn; auto.
  - destruct (App.selectedEvent st); exact Hin.
  - destruct (App.selectedEvent st); [exact Hin |].
    destruct (AppFlow.content st); exact Hin.
  - destruct (App.selectedEvent st); exact Hin.
  - unfold App.click, App.FindMyNightModal. rewrite Hs. exact Hin.
  - unfold App.timerFires. rewrite Ht. exact Hin.
Qed.

Lemma selected_step st a e :
  idle st -> App.selectedEvent (AppFlow.step st a) = Some e ->
  App.selectedEvent st = Some e \/ a = AppFlow.CardPress e.
Proof.
  intros (Hs & Hv & Ht).
  destruct a as [t | p | event | | c |]; cbn [AppFlow.step].
  - cbn. auto.
  - destruct (App.selectedEvent st) eqn:E; [rewrite E | cbn; rewrite E]; auto.
  - destruct (App.selectedEvent st) as [e0 |] eqn:E; [rewrite E; auto |].
    destruct (AppFlow.content st); cbn; rewrite ?E; auto;
      intros [= ->]; right; reflexivity.
  - destruct (App.selectedEvent st) eqn:E; [cbn | rewrite E]; auto. discriminate.
  - unfold App.click, App.FindMyNightModal. rewrite Hs. auto.
  - unfold App.timerFires. rewrite Ht. auto.
Qed.

Lemma selected_run actions st e :
  idle st -> App.selectedEvent (AppFlow.run actions st) = Some e ->
  App.selectedEvent st = Some e \/ In (AppFlow.CardPress e) actions.
Proof.
  revert st. induction actions as [| a actions IH]; intros st Hi H; [left; exact H |].
  destruct (IH _ (idle_step st a Hi) H) as [H' | H'].
  - destruct (selected_step st a e Hi H') as [H'' | ->]; [left; exact H'' |].
    right. left. reflexivity.
  - right. right. exact H'.
Qed.

Lemma tab_run actions st :
  In (App.activeModule st) ["Sports"; "Music"; "Social"] -> idle st ->
  In (App.activeModule (AppFlow.run actions st)) ["Sports"; "Music"; "Social"].
Proof.
  revert st. induction actions as [| a actions IH]; intros st H Hi; [exact H |].
  apply IH; [apply tab_step; assumption | apply idle_step; exact Hi].
Qed.

(** X11: From the initial state, whatever is clicked and whenever the timers
    fire: the suggestion modal is never rendered, no event is ever suggested
    and no timer is ever pending ([App] wires no element to
    [setSuggestedEvent] or to [setFindMyNightVisible(true)]); the active
    module is one of the three tabs; and the details screen shows only an
    event whose card was pressed. *)
Theorem modal_never_opens actions :
  let st := AppFlow.run actions App.initial in
  App.modal st = None /\
  App.suggestedEvent st = None /\ App.findMyNightVisible st = false /\
  App.timers st = [] /\
  In (App.activeModule st) ["Sports"; "Music"; "Social"] /\
  forall e, App.screen st = App.EventDetailsScreen e -> In (AppFlow.CardPress e) actions.
Proof.
  cbv zeta.
  assert (idle App.initial) as Hi by (repeat split).
  pose proof (idle_run actions _ Hi) as (Hs & Hv & Ht).
  split; [unfold App.modal, App.FindMyNightModal; rewrite Hs; reflexivity |].
  repeat (split; [assumption |]).
  split; [apply tab_run; [cbn; auto | exact Hi] |].
  intros e He. unfold App.screen in He.
  destruct (App.selectedEvent (AppFlow.run actions App.initial)) as [e' |] eqn:E;
    [| discriminate].
  assert (e' = e) as -> by congruence.
  destruct (selected_run actions _ e Hi E) as [H | H]; [discriminate H | exact H].
Qed.

Lemma timers_step st a s rest :
  App.timers st = s :: rest -> a <> AppFlow.TimerFires ->
  exists rest', App.timers (AppFlow.step st a) = s :: rest'.
Proof.
  intros Ht Ha.
  destruct a as [t | p | event | | c |]; cbn [AppFlow.step].
  - exists rest. exact Ht.
  - destruct (App.selectedEvent st); exists rest; exact Ht.
  - destruct (App.selectedEvent st); [exists rest; exact Ht |].
    destruct (AppFlow.content st); exists rest; exact Ht.
  - destruct (App.selectedEvent st); exists rest; exact Ht.
  - unfold App.click.
    destruct (App.FindMyNightModal _ _); [| exists rest; exact Ht].
    destruct c; cbn; rewrite Ht; eexists; reflexivity.
  - contradiction Ha. reflexivity.
Qed.

Lemma timers_run actions st s rest :
  App.timers st = s :: rest ->
  (forall a, In a actions -> a <> AppFlow.TimerFires) ->
  exists rest', App.timers (AppFlow.run actions st) = s :: rest'.
Proof.
  revert st rest. induction actions as [| a actions IH]; intros st rest Ht Ha.
  - exists rest. exact Ht.
  - destruct (timers_step st a s rest Ht (Ha a (or_introl eq_refl))) as [rest' Ht'].
    apply (IH _ rest' Ht'). intros a' Hin. apply Ha. right. exact Hin.
Qed.

(** X12: The timer of an accepted suggestion is never cancelled: once it is
    pending, whatever is clicked before it fires (another card, Back, a tab),
    its firing puts the event that it captured on the details screen. *)
Theorem pending_timer_overrides_selection st s rest actions :
  App.timers st = Some s :: rest ->
  (forall a, In a actions -> a <> AppFlow.TimerFires) ->
  App.screen (AppFlow.step (AppFlow.run actions st) AppFlow.TimerFires) =
  App.EventDetailsScreen s.
Proof.
  intros Ht Ha.
  destruct (timers_run actions st (Some s) rest Ht Ha) as [rest' Ht'].
  cbn [AppFlow.step]. unfold App.timerFires. rewrite Ht'. reflexivity.
Qed.

Lemma pending_timer_overrides_selection_witness :
  App.screen
    (AppFlow.step
       (AppFlow.run
          [AppFlow.CardPress (sampleEvent (Some "NFL") None); AppFlow.BackButton;
           AppFlow.NavButton AppFlow.MusicTab]
          (App.click App.LetsGo
             (App.setFindMyNightVisible true
                (App.setSuggestedEvent (Some (sampleEvent None None)) App.initial))))
       AppFlow.TimerFires) =
  App.EventDetailsScreen (sampleEvent None None).
Proof.
  apply (pending_timer_overrides_selection _ (sampleEvent None None) []).
  - reflexivity.
  - cbn [In]. intros a [<- | [<- | [<- | []]]]; discriminate.
Defined.

(** X13: With no event selected, under the Sports or the Music tab: pressing a
    card shows the details of that event, and Back returns to the very state
    before the press.  While the details are shown the search form and the
    cards do nothing; a tab button changes the active module without leaving
    the details, and Back then lands on that tab. *)
Theorem details_round_trip st e :
  App.selectedEvent st = None -> AppFlow.content st <> AppFlow.SocialComingSoon ->
  App.screen (AppFlow.step st (AppFlow.CardPress e)) = App.EventDetailsScreen e /\
  AppFlow.run [AppFlow.CardPress e; AppFlow.BackButton] st = st /\
  (forall p e',
     AppFlow.run [AppFlow.CardPress e; AppFlow.Search p] st =
       AppFlow.step st (AppFlow.CardPress e) /\
     AppFlow.run [AppFlow.CardPress e; AppFlow.CardPress e'] st =
       AppFlow.step st (AppFlow.CardPress e)) /\
  (forall t,
     App.screen (AppFlow.run [AppFlow.CardPress e; AppFlow.NavButton t] st) =
       App.EventDetailsScreen e /\
     App.screen (AppFlow.run [AppFlow.CardPress e; AppFlow.NavButton t;
                              AppFlow.BackButton] st) =
       App.ModuleScreen (AppFlow.tabName t)).
Proof.
  intros Hsel Hc.
  assert (AppFlow.step st (AppFlow.CardPress e) = App.handleEventSelect e st) as E.
  { cbn [AppFlow.step]. rewrite Hsel.
    destruct (AppFlow.content st); [reflexivity | reflexivity | contradiction Hc; reflexivity]. }
  unfold AppFlow.run. cbn [fold_left]. rewrite E.
  split; [reflexivity |]. split; [| split].
  - destruct st as [m sel vis sug sp tm]. cbn in Hsel. subst sel. reflexivity.
  - intros p e'. split; reflexivity.
  - intros t. split; reflexivity.
Qed.

Lemma details_round_trip_witness :
  AppFlow.run [AppFlow.CardPress (sampleEvent None None); AppFlow.BackButton] App.initial =
  App.initial.
Proof.
  destruct (details_round_trip App.initial (sampleEvent None None)) as (_ & H & _).
  - reflexivity.
  - discriminate.
  - exact H.
Defined.

(** X14: Whatever the state: a click on any control of the modal leaves the
    modal closed and the selected and the suggested event as they were; only
    the card and "Let's Go!" start a timer, one per click; and a second click,
    on any control, changes nothing. *)
Theorem every_control_dismisses c st :
  App.modal (App.click c st) = None /\
  App.selectedEvent (App.click c st) = App.selectedEvent st /\
  App.suggestedEvent (App.click c st) = App.suggestedEvent st /\
  App.activeModule (App.click c st) = App.activeModule st /\
  (App.timers (App.click c st) = App.timers st \/
   (c = App.Card \/ c = App.LetsGo) /\
   App.timers (App.click c st) = (App.timers st ++ [App.suggestedEvent st])%list) /\
  forall c', App.click c' (App.click c st) = App.click c st.
Proof.
  assert (App.modal (App.click c st) = None) as Hm.
  { unfold App.modal, App.click, App.FindMyNightModal.
    destruct (App.suggestedEvent st) as [s |] eqn:Es; [| rewrite Es; reflexivity].
    destruct (App.findMyNightVisible st) eqn:Ev; cbn [negb].
    - destruct c; cbn; rewrite Es; reflexivity.
    - rewrite Es, Ev. reflexivity. }
  split; [exact Hm |].
  split; [| split; [| split; [| split]]].
  - unfold App.click. destruct (App.FindMyNightModal _ _); [destruct c |]; reflexivity.
  - unfold App.click. destruct (App.FindMyNightModal _ _); [destruct c |]; reflexivity.
  - unfold App.click. destruct (App.FindMyNightModal _ _); [destruct c |]; reflexivity.
  - unfold App.click. destruct (App.FindMyNightModal _ _); [destruct c |]; cbn; auto.
  - intros c'. unfold App.modal in Hm.
    unfold App.click at 1. rewrite Hm. reflexivity.
Qed.

Lemma modal_never_opens_witness :
  In (AppFlow.CardPress (sampleEvent None None))
     [AppFlow.NavButton AppFlow.MusicTab; AppFlow.CardPress (sampleEvent None None);
      AppFlow.ModalClick App.LetsGo; AppFlow.TimerFires].
Proof.
  destruct (modal_never_opens
              [AppFlow.NavButton AppFlow.MusicTab; AppFlow.CardPress (sampleEvent None None);
               AppFlow.ModalClick App.LetsGo; AppFlow.TimerFires])
    as (_ & _ & _ & _ & _ & H).
  apply H. reflexivity.
Defined.

(** ** The night plan *)

Section NightPlan.

Variable parse : string -> option Z.
Variable toLocaleDateString : option Z -> string.
Variable post : string -> Gemini.Outcome.

Local Abbreviation generateNightPlan := (Gemini.generateNightPlan parse toLocaleDateString post).
Local Abbreviation handlePlanMyNight := (Gemini.handlePlanMyNight parse toLocaleDateString post).
Local Abbreviation prompt := (Gemini.prompt parse toLocaleDateString).

(** The plan is the text of the first part of the first candidate, when the
    response has one. *)
Lemma generateNightPlan_first_part event body :
  post (prompt event) = Gemini.Response body ->
  generateNightPlan event =
  match chain (chain (first (Gemini.candidates body)) Gemini.content)
              (fun c => first (Gemini.parts c)) with
  | Some part => Gemini.text part
  | None => Some Gemini.couldNot
  end.
Proof.
  intros H. unfold Gemini.generateNightPlan. rewrite H.
  destruct (Gemini.candidates body) as [[| candidate cs] |]; try reflexivity.
  cbn [first chain hd_error].
  destruct (Gemini.content candidate) as [c |]; [| reflexivity].
  cbn [chain]. destruct (Gemini.parts c) as [[| part ps] |]; reflexivity.
Qed.

(** X15: No itinerary is shown before the first request.  Planning a night
    always ends with the button enabled again and the old plan replaced,
    whatever it was.  After a failed request the itinerary section shows the
    apology as the plan; after a response without a first part of a first
    candidate it shows the other apology; otherwise the plan is the text of
    that part, and the section is shown exactly when that text is a non-empty
    string: a response whose text is empty or missing hides a plan that was
    shown before. *)
Theorem plan_request_outcomes event st :
  let st' := handlePlanMyNight event st in
  Gemini.planShown Gemini.mounted = false /\
  Gemini.isPlanning st' = false /\
  (forall st0, handlePlanMyNight event st0 = st') /\
  (post (prompt event) = Gemini.Failure ->
   Gemini.plan st' = Some Gemini.sorry /\ Gemini.planShown st' = true) /\
  (forall body,
     post (prompt event) = Gemini.Response body ->
     (chain (chain (first (Gemini.candidates body)) Gemini.content)
            (fun c => first (Gemini.parts c)) = None ->
      Gemini.plan st' = Some Gemini.couldNot /\ Gemini.planShown st' = true) /\
     (forall part,
        chain (chain (first (Gemini.candidates body)) Gemini.content)
              (fun c => first (Gemini.parts c)) = Some part ->
        Gemini.plan st' = Gemini.text part /\
        (Gemini.planShown st' = true <->
         exists t, Gemini.text part = Some t /\ t <> EmptyString))).
Proof.
  cbv zeta. unfold Gemini.handlePlanMyNight, Gemini.planArrived, Gemini.planShown.
  cbn [Gemini.plan Gemini.isPlanning].
  split; [reflexivity |]. split; [reflexivity |]. split; [reflexivity |]. split.
  - intros H. unfold Gemini.generateNightPlan. rewrite H. split; reflexivity.
  - intros body H. rewrite (generateNightPlan_first_part event body H). split.
    + intros ->. split; reflexivity.
    + intros part ->. split; [reflexivity |].
      destruct (Gemini.text part) as [t |]; cbn [of_field].
      * rewrite truthy_VStr. split.
        -- intros Hne. exists t. split; [reflexivity | exact Hne].
        -- intros (t' & [= <-] & Hne). exact Hne.
      * cbn [truthy]. split; [discriminate |]. intros (t' & [=] & _).
Qed.

End NightPlan.

Lemma plan_request_outcomes_witness :
  Gemini.planShown
    (Gemini.handlePlanMyNight (ISO.parse 0) (fun _ => "6/15/2025")
       (fun _ => Gemini.Response
                   {| Gemini.candidates :=
                        Some [ {| Gemini.content :=
                                    Some {| Gemini.parts :=
                                              Some [ {| Gemini.text := Some EmptyString |} ] |} |} ] |})
       (sampleEvent None None)
       {| Gemini.plan := Some "Start at the taproom."; Gemini.isPlanning := false |}) = false.
Proof.
  destruct (plan_request_outcomes (ISO.parse 0) (fun _ => "6/15/2025")
              (fun _ => Gemini.Response
                   {| Gemini.candidates :=
                        Some [ {| Gemini.content :=
                                    Some {| Gemini.parts :=
                                              Some [ {| Gemini.text := Some EmptyString |} ] |} |} ] |})
              (sampleEvent None None)
              {| Gemini.plan := Some "Start at the taproom."; Gemini.isPlanning := false |})
    as (_ & _ & _ & _ & H).
  destruct (H _ eq_refl) as [_ H'].
  destruct (H' {| Gemini.text := Some EmptyString |} eq_refl) as [_ [Hshown _]].
  apply not_true_is_false. intros E.
  destruct (Hshown E) as (t & Ht & Hne).
  apply Hne. cbn [Gemini.text] in Ht. congruence.
Defined.

(** ** What the screens show of the mock list *)

Lemma now_as_local tza now :
  now = UTC tza (MakeDate (Day (LocalTime tza now)) (TimeWithinDay (LocalTime tza now))).
Proof. unfold UTC, MakeDate, TimeWithinDay, LocalTime, Day, msPerDay. zdiv. Qed.

Lemma TimeWithinDay_range t : 0 <= TimeWithinDay t < msPerDay.
Proof. unfold TimeWithinDay, msPerDay. zdiv. Qed.

(** Comparisons of an instant [k] days after a local time with the first
    and the last millisecond of a local day, by day numbers. *)
Lemma window_tests (tza D tod k a : Z) :
  0 <= tod < msPerDay ->
  (UTC tza (MakeDate a 0) <=? UTC tza (MakeDate D tod) + k * msPerDay) = (a <=? D + k) /\
  (UTC tza (MakeDate D tod) + k * msPerDay <=? UTC tza (MakeDate a (msPerDay - 1))) =
    (D + k <=? a) /\
  (UTC tza (MakeDate a (msPerDay - 1)) <? UTC tza (MakeDate D tod) + k * msPerDay) =
    (a <? D + k) /\
  (UTC tza (MakeDate D tod) + k * msPerDay <=? UTC tza (MakeDate a 0)) =
    ((D + k <? a) || ((D + k =? a) && (tod =? 0))).
Proof.
  intros H. unfold UTC, MakeDate, msPerDay in *.
  repeat split.
  - destruct (Z.leb_spec (a * 86400000 + 0 - tza) (D * 86400000 + tod - tza + k * 86400000)),
             (Z.leb_spec a (D + k)); try reflexivity; lia.
  - destruct (Z.leb_spec (D * 86400000 + tod - tza + k * 86400000)
                         (a * 86400000 + (86400000 - 1) - tza)),
             (Z.leb_spec (D + k) a); try reflexivity; lia.
  - destruct (Z.ltb_spec (a * 86400000 + (86400000 - 1) - tza)
                         (D * 86400000 + tod - tza + k * 86400000)),
             (Z.ltb_spec a (D + k)); try reflexivity; lia.
  - destruct (Z.leb_spec (D * 86400000 + tod - tza + k * 86400000) (a * 86400000 + 0 - tza)),
             (Z.ltb_spec (D + k) a), (Z.eqb_spec (D + k) a), (Z.eqb_spec tod 0);
      try reflexivity; cbn [orb andb]; lia.
Qed.

(** The time predicate on an event dated [k] days after the clock reading,
    by day numbers. *)
Lemma timeMatch_days_later tza parse now e k :
  clockInRange tza now ->
  Date_of_field parse (date e) = Some (now + k * msPerDay) ->
  let L := LocalTime tza now in
  let E1 := MakeDay (MakeFullYear (YearFromTime L)) (MonthFromTime L + 1) 0 in
  let E2 := MakeDay (MakeFullYear (YearFromTime L)) (MonthFromTime L + 2) 0 in
  SportsScreen.timeMatch tza parse now "Today" e = (Day L <=? Day L + k) && (Day L + k <=? Day L) /\
  SportsScreen.timeMatch tza parse now "This Week" e =
    (Day L <=? Day L + k) &&
    ((Day L + k <? Day L + 7 - WeekDay L) ||
     ((Day L + k =? Day L + 7 - WeekDay L) && (TimeWithinDay L =? 0))) /\
  SportsScreen.timeMatch tza parse now "This Month" e =
    (Day L <=? Day L + k) && (Day L + k <=? E1) /\
  SportsScreen.timeMatch tza parse now "Next Month" e =
    (E1 <? Day L + k) && (Day L + k <=? E2).
Proof.
  intros Hrange Hd. cbv zeta.
  destruct (windows_values tza now Hrange) as (H1 & H2 & H3 & H4 & H5).
  pose proof (TimeWithinDay_range (LocalTime tza now)) as Htod.
  pose proof (f_equal (fun x => x + k * msPerDay) (now_as_local tza now)) as Hv.
  cbv beta in Hv.
  unfold SportsScreen.timeMatch.
  rewrite Hd, H1, H2, H3, H4, H5. cbn [num_ge num_le num_gt].
  rewrite Hv.
  repeat split; eval_filter.
  - rewrite (proj1 (window_tests tza _ _ k (Day (LocalTime tza now)) Htod)).
    rewrite (proj1 (proj2 (window_tests tza _ _ k (Day (LocalTime tza now)) Htod))).
    reflexivity.
  - rewrite (proj1 (window_tests tza _ _ k (Day (LocalTime tza now)) Htod)).
    rewrite (proj2 (proj2 (proj2 (window_tests tza _ _ k
               (Day (LocalTime tza now) + 7 - WeekDay (LocalTime tza now)) Htod)))).
    reflexivity.
  - rewrite (proj1 (window_tests tza _ _ k (Day (LocalTime tza now)) Htod)).
    rewrite (proj1 (proj2 (window_tests tza _ _ k
               (MakeDay (MakeFullYear (YearFromTime (LocalTime tza now)))
                        (MonthFromTime (LocalTime tza now) + 1) 0) Htod))).
    reflexivity.
  - rewrite (proj1 (proj2 (proj2 (window_tests tza _ _ k
               (MakeDay (MakeFullYear (YearFromTime (LocalTime tza now)))
                        (MonthFromTime (LocalTime tza now) + 1) 0) Htod)))).
    rewrite (proj1 (proj2 (window_tests tza _ _ k
               (MakeDay (MakeFullYear (YearFromTime (LocalTime tza now)))
                        (MonthFromTime (LocalTime tza now) + 2) 0) Htod))).
    reflexivity.
Qed.

(** The list of the mock service when its four clock readings are one
    instant, and the instants that its date strings parse to. *)
Lemma mock_dates tza now :
  clockInRange tza now ->
  exists d1 d3 d4 d5,
    mockApi.fetchTicketmasterEvents tza now now now now = Ok (mockListOf d1 d1 d3 d4 d5) /\
    ISO.parse tza d1 = Some (now + 0 * msPerDay) /\
    ISO.parse tza d3 = Some (now + 1 * msPerDay) /\
    ISO.parse tza d4 = Some (now + 7 * msPerDay) /\
    ISO.parse tza d5 =
      Some (now + DaysInMonth (InLeapYear (LocalTime tza now))
                              (MonthFromTime (LocalTime tza now)) * msPerDay).
Proof.
  intros Hrange.
  pose proof (setDate_same_reading tza now Hrange 1 ltac:(lia)) as E1.
  pose proof (setDate_same_reading tza now Hrange 7 ltac:(lia)) as E2.
  pose proof (setMonth_same_reading tza now Hrange) as E3.
  pose proof (DaysInMonth_bounds (InLeapYear (LocalTime tza now)) _
                (MonthFromTime_range (LocalTime tza now))) as Hdim.
  set (dim := DaysInMonth (InLeapYear (LocalTime tza now))
                          (MonthFromTime (LocalTime tza now))) in *.
  clearbody dim.
  assert (forall k, 0 <= k <= 31 -> Z.abs (now + k * msPerDay) <= maxTime) as Hb.
  { intros k Hk. destruct Hrange as [_ Hn].
    unfold margin, maxTime, msPerDay in *. lia. }
  unfold mockApi.fetchTicketmasterEvents. cbv zeta.
  rewrite E1, E2, E3.
  destruct (toISOString_valid now) as (d1 & T1 & _).
  destruct (toISOString_valid (now + 1 * msPerDay)) as (d3 & T3 & _).
  destruct (toISOString_valid (now + 7 * msPerDay)) as (d4 & T4 & _).
  destruct (toISOString_valid (now + dim * msPerDay)) as (d5 & T5 & _).
  rewrite T1, T3, T4, T5. cbn [bind].
  exists d1, d3, d4, d5.
  split; [reflexivity |].
  split; [| split; [| split]].
  - replace (now + 0 * msPerDay) with now by lia.
    apply parse_toISOString; [| exact T1].
    replace now with (now + 0 * msPerDay) by lia. apply Hb. lia.
  - apply parse_toISOString; [apply Hb; lia | exact T3].
  - apply parse_toISOString; [apply Hb; lia | exact T4].
  - apply parse_toISOString; [apply Hb; lia | exact T5].
Qed.

Lemma filter_five {A : Type} (p : A -> bool) a b c d e :
  filter p [a; b; c; d; e] =
  ((if p a then [a] else []) ++ (if p b then [b] else []) ++ (if p c then [c] else []) ++
   (if p d then [d] else []) ++ (if p e then [e] else []))%list.
Proof. cbn [filter]. destruct (p a), (p b), (p c), (p d), (p e); reflexivity. Qed.

Lemma filter_same_day tza parse now now' tf (cat : Event -> bool) l :
  Day (LocalTime tza now') = Day (LocalTime tza now) ->
  filter (fun e => SportsScreen.timeMatch tza parse now' tf e && cat e) l =
  filter (fun e => SportsScreen.timeMatch tza parse now tf e && cat e) l.
Proof.
  intros H. apply filter_ext. intros e.
  rewrite (timeMatch_same_day tza parse now' now tf e H). reflexivity.
Qed.

Lemma Music_filter_as_Sports tza parse now tf gf l :
  MusicScreen.filteredEvents tza parse now l tf gf =
  Ok (filter (fun e => SportsScreen.timeMatch tza parse now tf e &&
                       accepts (MusicScreen.categoryMatch gf e)) l).
Proof.
  rewrite Music_filter_pure. apply f_equal. apply filter_ext. intros e.
  apply (f_equal2 andb); [apply Music_timeMatch | reflexivity].
Qed.

(** Decides comparisons of integers by cases. *)
Ltac bool_lia :=
  repeat match goal with
         | |- context [?x <=? ?y] => destruct (Z.leb_spec x y)
         | |- context [?x <? ?y] => destruct (Z.ltb_spec x y)
         | |- context [?x =? ?y] => destruct (Z.eqb_spec x y)
         end;
  cbn [andb orb negb]; try reflexivity; try lia.

Section MockViews.

Variables tza now now' : Z.
Hypothesis Hrange : clockInRange tza now.
Hypothesis Hday : Day (LocalTime tza now') = Day (LocalTime tza now).

Local Abbreviation L := (LocalTime tza now).
Local Abbreviation dim := (DaysInMonth (InLeapYear (LocalTime tza now))
                                       (MonthFromTime (LocalTime tza now))).

(** Five events dated as the mock service dates its events. *)
Variables e1 e2 e3 e4 e5 : Event.
Hypothesis D1 : Date_of_field (ISO.parse tza) (date e1) = Some (now + 0 * msPerDay).
Hypothesis D2 : Date_of_field (ISO.parse tza) (date e2) = Some (now + 0 * msPerDay).
Hypothesis D3 : Date_of_field (ISO.parse tza) (date e3) = Some (now + 1 * msPerDay).
Hypothesis D4 : Date_of_field (ISO.parse tza) (date e4) = Some (now + 7 * msPerDay).
Hypothesis D5 : Date_of_field (ISO.parse tza) (date e5) = Some (now + dim * msPerDay).

Lemma views_today tf (cat : Event -> bool) :
  tf = "Today" ->
  filter (fun e => SportsScreen.timeMatch tza (ISO.parse tza) now' tf e && cat e)
         [e1; e2; e3; e4; e5] =
  ((if cat e1 then [e1] else []) ++ (if cat e2 then [e2] else []))%list.
Proof.
  intros ->.
  pose proof (DaysInMonth_bounds (InLeapYear L) _ (MonthFromTime_range L)) as Hdim.
  destruct (timeMatch_days_later tza (ISO.parse tza) now e1 0 Hrange D1) as (T1 & _).
  destruct (timeMatch_days_later tza (ISO.parse tza) now e2 0 Hrange D2) as (T2 & _).
  destruct (timeMatch_days_later tza (ISO.parse tza) now e3 1 Hrange D3) as (T3 & _).
  destruct (timeMatch_days_later tza (ISO.parse tza) now e4 7 Hrange D4) as (T4 & _).
  destruct (timeMatch_days_later tza (ISO.parse tza) now e5 _ Hrange D5) as (T5 & _).
  rewrite (filter_same_day tza (ISO.parse tza) now now' "Today" cat _ Hday), filter_five.
  rewrite T1, T2, T3, T4, T5.
  set (D := Day L) in *. set (m := dim) in *. clearbody D m.
  replace ((D <=? D + 0) && (D + 0 <=? D)) with true by bool_lia.
  replace ((D <=? D + 1) && (D + 1 <=? D)) with false by bool_lia.
  replace ((D <=? D + 7) && (D + 7 <=? D)) with false by bool_lia.
  replace ((D <=? D + m) && (D + m <=? D)) with false by bool_lia.
  cbn [andb]. rewrite !app_nil_r. reflexivity.
Qed.

Lemma views_week :
  filter (SportsScreen.timeMatch tza (ISO.parse tza) now' "This Week") [e1; e2; e3; e4; e5] =
  ([e1; e2] ++
   (if (WeekDay L <? 6) || (TimeWithinDay L =? 0) then [e3] else []) ++
   (if (WeekDay L =? 0) && (TimeWithinDay L =? 0) then [e4] else []))%list.
Proof.
  pose proof (DaysInMonth_bounds (InLeapYear L) _ (MonthFromTime_range L)) as Hdim.
  pose proof (WeekDay_range L) as Hw.
  destruct (timeMatch_days_later tza (ISO.parse tza) now e1 0 Hrange D1) as (_ & T1 & _).
  destruct (timeMatch_days_later tza (ISO.parse tza) now e2 0 Hrange D2) as (_ & T2 & _).
  destruct (timeMatch_days_later tza (ISO.parse tza) now e3 1 Hrange D3) as (_ & T3 & _).
  destruct (timeMatch_days_later tza (ISO.parse tza) now e4 7 Hrange D4) as (_ & T4 & _).
  destruct (timeMatch_days_later tza (ISO.parse tza) now e5 _ Hrange D5) as (_ & T5 & _).
  rewrite (filter_ext _ _ (fun e => timeMatch_same_day tza (ISO.parse tza) now' now
                                      "This Week" e Hday)).
  rewrite filter_five, T1, T2, T3, T4, T5.
  set (D := Day L) in *. set (m := dim) in *. set (w := WeekDay L) in *.
  set (tod := TimeWithinDay L) in *. clearbody D m w tod.
  replace ((D <=? D + 0) && ((D + 0 <? D + 7 - w) || (D + 0 =? D + 7 - w) && (tod =? 0)))
    with true by bool_lia.
  replace ((D <=? D + 1) && ((D + 1 <? D + 7 - w) || (D + 1 =? D + 7 - w) && (tod =? 0)))
    with ((w <? 6) || (tod =? 0)) by bool_lia.
  replace ((D <=? D + 7) && ((D + 7 <? D + 7 - w) || (D + 7 =? D + 7 - w) && (tod =? 0)))
    with ((w =? 0) && (tod =? 0)) by bool_lia.
  replace ((D <=? D + m) && ((D + m <? D + 7 - w) || (D + m =? D + 7 - w) && (tod =? 0)))
    with false by bool_lia.
  rewrite app_nil_r. reflexivity.
Qed.

Hypothesis Hfull : fullYear L.

Lemma views_month :
  filter (SportsScreen.timeMatch tza (ISO.parse tza) now' "This Month") [e1; e2; e3; e4; e5] =
  ([e1; e2] ++
   (if lastDayOfMonth L then [] else [e3]) ++
   (if DateFromTime L + 7 <=? dim then [e4] else []))%list /\
  filter (SportsScreen.timeMatch tza (ISO.parse tza) now' "Next Month") [e1; e2; e3; e4; e5] =
  ((if lastDayOfMonth L then [e3] else []) ++
   (if DateFromTime L + 7 <=? dim then [] else [e4]) ++
   (if DateFromTime L <=? daysInNextMonth L then [e5] else []))%list.
Proof.
  pose proof (DaysInMonth_bounds (InLeapYear L) _ (MonthFromTime_range L)) as Hdim.
  pose proof (DateFromTime_range L) as Hdt.
  pose proof (MakeDay_month_end L) as Hend.
  pose proof (MakeDay_next_month (YearFromTime L) (MonthFromTime L + 1) 0) as Hnext.
  replace (MonthFromTime L + 1 + 1) with (MonthFromTime L + 2) in Hnext by lia.
  destruct (timeMatch_days_later tza (ISO.parse tza) now e1 0 Hrange D1) as (_ & _ & M1 & N1).
  destruct (timeMatch_days_later tza (ISO.parse tza) now e2 0 Hrange D2) as (_ & _ & M2 & N2).
  destruct (timeMatch_days_later tza (ISO.parse tza) now e3 1 Hrange D3) as (_ & _ & M3 & N3).
  destruct (timeMatch_days_later tza (ISO.parse tza) now e4 7 Hrange D4) as (_ & _ & M4 & N4).
  destruct (timeMatch_days_later tza (ISO.parse tza) now e5 _ Hrange D5) as (_ & _ & M5 & N5).
  rewrite (filter_ext _ _ (fun e => timeMatch_same_day tza (ISO.parse tza) now' now
                                      "This Month" e Hday)).
  rewrite (filter_ext _ _ (fun e => timeMatch_same_day tza (ISO.parse tza) now' now
                                      "Next Month" e Hday)).
  rewrite !filter_five, M1, M2, M3, M4, M5, N1, N2, N3, N4, N5.
  unfold fullYear in Hfull. rewrite Hfull.
  unfold lastDayOfMonth, daysInNextMonth.
  set (D := Day L) in *. set (m := dim) in *. set (dt := DateFromTime L) in *.
  set (E1 := MakeDay (YearFromTime L) (MonthFromTime L + 1) 0) in *.
  set (E2 := MakeDay (YearFromTime L) (MonthFromTime L + 2) 0) in *.
  clearbody D m dt E1 E2.
  split.
  - replace ((D <=? D + 0) && (D + 0 <=? E1)) with true by bool_lia.
    replace ((D <=? D + 1) && (D + 1 <=? E1)) with (negb (dt =? m)) by bool_lia.
    replace ((D <=? D + 7) && (D + 7 <=? E1)) with (dt + 7 <=? m) by bool_lia.
    replace ((D <=? D + m) && (D + m <=? E1)) with false by bool_lia.
    rewrite app_nil_r. destruct (dt =? m); reflexivity.
  - replace ((E1 <? D + 0) && (D + 0 <=? E2)) with false by bool_lia.
    replace ((E1 <? D + 1) && (D + 1 <=? E2)) with (dt =? m) by bool_lia.
    replace ((E1 <? D + 7) && (D + 7 <=? E2)) with (negb (dt + 7 <=? m)) by bool_lia.
    replace ((E1 <? D + m) && (D + m <=? E2)) with (dt <=? E2 - E1) by bool_lia.
    cbn [app]. destruct (dt + 7 <=? m); reflexivity.
Qed.

End MockViews.

(** In a zone of constant offset: what the screens show of the list of the
    mock service (its clock readings one instant in range) when the filter
    runs on the same local day, under Today and This Week and under the
    genre buttons. *)
Lemma fallback_today_and_week_fixed_offset tza now now' :
  clockInRange tza now -> Day (LocalTime tza now') = Day (LocalTime tza now) ->
  exists e1 e2 e3 e4 e5,
    mockApi.fetchTicketmasterEvents tza now now now now = Ok [e1; e2; e3; e4; e5] /\
    map id [e1; e2; e3; e4; e5] = ["tm-1"; "tm-2"; "tm-3"; "tm-4"; "tm-5"] /\
    SportsScreen.filteredEvents tza (ISO.parse tza) now' [e1; e2; e3; e4; e5]
      "Today" "Sports" = Ok [e1; e2] /\
    MusicScreen.filteredEvents tza (ISO.parse tza) now' [e1; e2; e3; e4; e5]
      "Today" "Music" = Ok [e1; e2] /\
    SportsScreen.filteredEvents tza (ISO.parse tza) now' [e1; e2; e3; e4; e5]
      "Today" "NFL" = Ok [e2] /\
    SportsScreen.filteredEvents tza (ISO.parse tza) now' [e1; e2; e3; e4; e5]
      "This Week" "Sports" =
      Ok ([e1; e2] ++
          (if (WeekDay (LocalTime tza now) <? 6) || (TimeWithinDay (LocalTime tza now) =? 0)
           then [e3] else []) ++
          (if (WeekDay (LocalTime tza now) =? 0) && (TimeWithinDay (LocalTime tza now) =? 0)
           then [e4] else []))%list /\
    (forall timeFilter genreFilter,
       In genreFilter ["Rock"; "Hip-Hop"; "Electronic"; "Country"] ->
       MusicScreen.filteredEvents tza (ISO.parse tza) now' [e1; e2; e3; e4; e5]
         timeFilter genreFilter = Ok []).
Proof.
  intros Hrange Hday.
  destruct (mock_dates tza now Hrange) as (d1 & d3 & d4 & d5 & Em & P1 & P3 & P4 & P5).
  unfold mockListOf in Em.
  eexists _, _, _, _, _. split; [exact Em |]. split; [reflexivity |].
  split; [| split; [| split; [| split]]].
  - rewrite Sports_filter_pure. apply f_equal.
    lazymatch goal with
    | |- filter _ [?a; ?b; ?c; ?d; ?e5] = _ =>
        etransitivity;
          [apply (views_today tza now now' Hrange Hday a b c d e5 P1 P1 P3 P4 P5 "Today"
                    (fun e => accepts (SportsScreen.categoryMatch "Sports" e)) eq_refl) |]
    end.
    reflexivity.
  - rewrite Music_filter_as_Sports. apply f_equal.
    lazymatch goal with
    | |- filter _ [?a; ?b; ?c; ?d; ?e5] = _ =>
        etransitivity;
          [apply (views_today tza now now' Hrange Hday a b c d e5 P1 P1 P3 P4 P5 "Today"
                    (fun e => accepts (MusicScreen.categoryMatch "Music" e)) eq_refl) |]
    end.
    reflexivity.
  - rewrite Sports_filter_pure. apply f_equal.
    lazymatch goal with
    | |- filter _ [?a; ?b; ?c; ?d; ?e5] = _ =>
        etransitivity;
          [apply (views_today tza now now' Hrange Hday a b c d e5 P1 P1 P3 P4 P5 "Today"
                    (fun e => accepts (SportsScreen.categoryMatch "NFL" e)) eq_refl) |]
    end.
    reflexivity.
  - rewrite Sports_filter_catch_all. apply f_equal.
    lazymatch goal with
    | |- filter _ [?a; ?b; ?c; ?d; ?e5] = _ =>
        apply (views_week tza now now' Hrange Hday a b c d e5 P1 P1 P3 P4 P5)
    end.
  - intros tf gf Hin. rewrite Music_filter_pure. apply f_equal.
    cbn [In] in Hin.
    destruct Hin as [<- | [<- | [<- | [<- | []]]]]; cbn [filter];
      repeat match goal with
             | |- context [accepts ?r] =>
                 let v := eval vm_compute in (accepts r) in
                 change (accepts r) with v
             end;
      rewrite !andb_false_r; reflexivity.
Qed.

(** In a zone of constant offset: the same list under the month filters,
    for a clock whose year is not one of 0..99. *)
Lemma fallback_month_views_fixed_offset tza now now' :
  clockInRange tza now -> Day (LocalTime tza now') = Day (LocalTime tza now) ->
  fullYear (LocalTime tza now) ->
  exists e1 e2 e3 e4 e5,
    mockApi.fetchTicketmasterEvents tza now now now now = Ok [e1; e2; e3; e4; e5] /\
    map id [e1; e2; e3; e4; e5] = ["tm-1"; "tm-2"; "tm-3"; "tm-4"; "tm-5"] /\
    SportsScreen.filteredEvents tza (ISO.parse tza) now' [e1; e2; e3; e4; e5]
      "This Month" "Sports" =
      Ok ([e1; e2] ++
          (if lastDayOfMonth (LocalTime tza now) then [] else [e3]) ++
          (if DateFromTime (LocalTime tza now) + 7 <=?
              DaysInMonth (InLeapYear (LocalTime tza now)) (MonthFromTime (LocalTime tza now))
           then [e4] else []))%list /\
    SportsScreen.filteredEvents tza (ISO.parse tza) now' [e1; e2; e3; e4; e5]
      "Next Month" "Sports" =
      Ok ((if lastDayOfMonth (LocalTime tza now) then [e3] else []) ++
          (if DateFromTime (LocalTime tza now) + 7 <=?
              DaysInMonth (InLeapYear (LocalTime tza now)) (MonthFromTime (LocalTime tza now))
           then [] else [e4]) ++
          (if DateFromTime (LocalTime tza now) <=? daysInNextMonth (LocalTime tza now)
           then [e5] else []))%list.
Proof.
  intros Hrange Hday Hfull.
  destruct (mock_dates tza now Hrange) as (d1 & d3 & d4 & d5 & Em & P1 & P3 & P4 & P5).
  unfold mockListOf in Em.
  eexists _, _, _, _, _. split; [exact Em |]. split; [reflexivity |].
  lazymatch goal with
  | |- SportsScreen.filteredEvents _ _ _ [?a; ?b; ?c; ?d; ?e5] _ _ = _ /\ _ =>
      destruct (views_month tza now now' Hrange Hday a b c d e5 P1 P1 P3 P4 P5 Hfull)
        as [HM HN]
  end.
  split.
  - rewrite Sports_filter_catch_all. apply f_equal. exact HM.
  - rewrite Sports_filter_catch_all. apply f_equal. exact HN.
Qed.

(** ** What the filters read of an event *)

Lemma filter_map_commute {A B : Type} (f : A -> B) (p : B -> bool) l :
  filter p (map f l) = map f (filter (fun x => p (f x)) l).
Proof.
  induction l as [| x l IH]; cbn [map filter]; [reflexivity |].
  destruct (p (f x)); cbn [map]; rewrite IH; reflexivity.
Qed.

Lemma filter_none {A : Type} (p : A -> bool) l :
  Forall (fun x => p x = false) l -> filter p l = [].
Proof.
  intros H. induction H as [| x l Hx _ IH]; cbn [filter]; [reflexivity |].
  rewrite Hx. exact IH.
Qed.

(** X18: The filters read the date and the subcategory of an event and nothing
    else: a change of the events that keeps these two properties (of the
    category, say, or of the id) changes the events kept in the same way.  So
    the sports screen never tests that an event is a sports event, nor the
    music screen that it is a music event. *)
Theorem filters_read_date_and_subcategory tza parse now (f : Event -> Event)
    events timeFilter categoryFilter :
  (forall e, date (f e) = date e) -> (forall e, subcategory (f e) = subcategory e) ->
  (forall kept,
     SportsScreen.filteredEvents tza parse now events timeFilter categoryFilter = Ok kept ->
     SportsScreen.filteredEvents tza parse now (map f events) timeFilter categoryFilter =
       Ok (map f kept)) /\
  (forall kept,
     MusicScreen.filteredEvents tza parse now events timeFilter categoryFilter = Ok kept ->
     MusicScreen.filteredEvents tza parse now (map f events) timeFilter categoryFilter =
       Ok (map f kept)).
Proof.
  intros Hd Hs.
  assert (forall e, SportsScreen.timeMatch tza parse now timeFilter (f e) =
                    SportsScreen.timeMatch tza parse now timeFilter e) as Ht.
  { intros e. unfold SportsScreen.timeMatch. rewrite Hd. reflexivity. }
  assert (forall e, SportsScreen.categoryMatch categoryFilter (f e) =
                    SportsScreen.categoryMatch categoryFilter e) as Hc.
  { intros e. unfold SportsScreen.categoryMatch. rewrite Hs. reflexivity. }
  assert (forall e, MusicScreen.categoryMatch categoryFilter (f e) =
                    MusicScreen.categoryMatch categoryFilter e) as Hm.
  { intros e. unfold MusicScreen.categoryMatch. rewrite Hs. reflexivity. }
  split; intros kept.
  - rewrite !Sports_filter_pure. intros E.
    apply (f_equal (fun r => match r with Ok x => x | Throw _ => kept end)) in E.
    cbv beta iota in E. subst kept.
    apply f_equal. rewrite filter_map_commute. apply f_equal.
    apply filter_ext. intros e. rewrite Ht, Hc. reflexivity.
  - rewrite !Music_filter_as_Sports. intros E.
    apply (f_equal (fun r => match r with Ok x => x | Throw _ => kept end)) in E.
    cbv beta iota in E. subst kept.
    apply f_equal. rewrite filter_map_commute. apply f_equal.
    apply filter_ext. intros e. rewrite Ht, Hm. reflexivity.
Qed.

Lemma filters_read_date_and_subcategory_witness :
  SportsScreen.filteredEvents denver (ISO.parse denver) 1750010400000
    (map (fun e => {| id := id e; name := name e; category := "Music";
                      subcategory := subcategory e; date := date e;
                      venueName := venueName e; imageUrl := imageUrl e;
                      address := address e |})
         [sampleEvent None (Some "2025-06-15T20:00:00")]) "Today" "Sports" =
  Ok (map (fun e => {| id := id e; name := name e; category := "Music";
                       subcategory := subcategory e; date := date e;
                       venueName := venueName e; imageUrl := imageUrl e;
                       address := address e |})
          [sampleEvent None (Some "2025-06-15T20:00:00")]).
Proof.
  destruct (filters_read_date_and_subcategory denver (ISO.parse denver) 1750010400000
              (fun e => {| id := id e; name := name e; category := "Music";
                           subcategory := subcategory e; date := date e;
                           venueName := venueName e; imageUrl := imageUrl e;
                           address := address e |})
              [sampleEvent None (Some "2025-06-15T20:00:00")] "Today" "Sports"
              (fun e => eq_refl) (fun e => eq_refl)) as [H _].
  apply H. vm_compute. reflexivity.
Defined.

Lemma no_league_in_NA cf :
  In cf ["NFL"; "NBA"; "MLB"; "NHL"] -> ~ Substring cf "N/A" /\ ~ Substring cf EmptyString.
Proof.
  intros Hin. rewrite <- !includes_spec. cbn [In] in Hin.
  destruct Hin as [<- | [<- | [<- | [<- | []]]]]; split; vm_compute; discriminate.
Qed.

(** X19: A league filter of the sports screen reads the name of the subGenre
    of the first classification of the payload: a normalised event passes the
    filter exactly when that name contains the league, and a fetched list
    whose events have no such name shows nothing under any league, whatever
    the dates. *)
Theorem league_filter_reads_subgenre cf :
  In cf ["NFL"; "NBA"; "MLB"; "NHL"] ->
  (forall raw,
     holds (SportsScreen.categoryMatch cf (api.normalize raw)) <->
     exists s, chain (chain (first (classifications raw)) subGenre) nm = Some s /\
               Substring cf s) /\
  (forall tza parse now raws timeFilter,
     Forall lacksSubGenre raws ->
     SportsScreen.filteredEvents tza parse now (map api.normalize raws) timeFilter cf =
       Ok []).
Proof.
  intros Hin. destruct (no_league_in_NA cf Hin) as [HNA Hempty].
  assert (forall raw,
            holds (SportsScreen.categoryMatch cf (api.normalize raw)) <->
            exists s, chain (chain (first (classifications raw)) subGenre) nm = Some s /\
                      Substring cf s) as Hiff.
  { intros raw. rewrite (Sports_categoryMatch_holds cf _ Hin).
    unfold api.normalize. cbv zeta. cbn [subcategory].
    destruct (chain (chain (first (classifications raw)) subGenre) nm) as [g |].
    - unfold or_default. destruct (String.eqb g EmptyString) eqn:Eg.
      + apply String.eqb_eq in Eg. subst g. split.
        * intros (s & [= <-] & Hs). contradiction.
        * intros (s & [= <-] & Hs). contradiction.
      + split; intros (s & [= <-] & Hs); exists g; auto.
    - cbn [or_default]. split.
      + intros (s & [= <-] & Hs). contradiction.
      + intros (s & [=] & _). }
  split; [exact Hiff |].
  intros tza parse now raws tf Hall.
  rewrite Sports_filter_pure. apply f_equal. apply filter_none.
  apply Forall_map. apply (Forall_impl _ (P := lacksSubGenre)); [| exact Hall].
  intros raw Hl. apply andb_false_iff. right.
  apply not_true_is_false. rewrite accepts_holds, Hiff.
  intros (s & Hs & Hsub). destruct Hl as [Hl | Hl]; rewrite Hl in Hs.
  - discriminate.
  - apply (f_equal (fun o => match o with Some v => v | None => s end)) in Hs.
    cbv beta iota in Hs. subst s. contradiction.
Qed.

Lemma league_filter_reads_subgenre_witness :
  SportsScreen.filteredEvents denver (ISO.parse denver) 1750010400000
    (map api.normalize [bareRawEvent]) "This Month" "NBA" = Ok [].
Proof.
  destruct (league_filter_reads_subgenre "NBA") as [_ H].
  - cbn [In]. auto.
  - apply H. repeat constructor.
Defined.

(** * Zones whose offset changes *)

(** ** Local time and UTC *)

Lemma offsetFrom_in o changes t : In (Zoned.offsetFrom o changes t) (o :: map snd changes).
Proof.
  revert o. induction changes as [| [from o'] later IH]; intros o; cbn [Zoned.offsetFrom].
  - left. reflexivity.
  - destruct (from <=? t); [| left; reflexivity].
    right. apply IH.
Qed.

Lemma offsetAt_in z t : In (Zoned.offsetAt z t) (Zoned.offsets z).
Proof. apply offsetFrom_in. Qed.

Lemma fold_min_spec us u :
  In (fold_left Z.min us u) (u :: us) /\ forall v, In v (u :: us) -> fold_left Z.min us u <= v.
Proof.
  revert u. induction us as [| w us IH]; intros u; cbn [fold_left].
  - split; [left; reflexivity |]. intros v [<- | []]. lia.
  - destruct (IH (Z.min u w)) as [Hin Hle]. split.
    + destruct Hin as [Hm | Hin]; [| right; right; exact Hin].
      rewrite <- Hm. destruct (Z.min_spec u w) as [[_ ->] | [_ ->]]; [left | right; left];
        reflexivity.
    + intros v [<- | [<- | Hv]].
      * specialize (Hle (Z.min u w) (or_introl eq_refl)). lia.
      * specialize (Hle (Z.min u w) (or_introl eq_refl)). lia.
      * apply Hle. right. exact Hv.
Qed.

Lemma fold_max_in us u : In (fold_left Z.max us u) (u :: us).
Proof.
  revert u. induction us as [| w us IH]; intros u; cbn [fold_left].
  - left. reflexivity.
  - destruct (IH (Z.max u w)) as [Hm | Hin]; [| right; right; exact Hin].
    rewrite <- Hm. destruct (Z.max_spec u w) as [[_ ->] | [_ ->]]; [right; left | left];
      reflexivity.
Qed.

(** The possible instants of a local time are the instants at which the
    local clock reads it. *)
Lemma possibleInstants_spec z t u :
  In u (Zoned.possibleInstants z t) <-> Zoned.LocalTime z u = t.
Proof.
  unfold Zoned.possibleInstants. rewrite filter_In, Z.eqb_eq. split.
  - intros [_ H]. exact H.
  - intros H. split; [| exact H].
    apply in_map_iff. exists (Zoned.offsetAt z u). split; [| apply offsetAt_in].
    unfold Zoned.LocalTime in H. lia.
Qed.

(** [UTC] takes off one of the offsets of the zone. *)
Lemma UTC_offset z t : exists u, Zoned.UTC z t = t - Zoned.offsetAt z u.
Proof.
  unfold Zoned.UTC.
  destruct (Zoned.earliest _) as [u |]; [exists u; reflexivity |].
  destruct (Zoned.latest _) as [u |]; [exists u; reflexivity |].
  exists t. reflexivity.
Qed.

Lemma offset_bound z t : Zoned.bounded z -> Z.abs (Zoned.offsetAt z t) <= msPerDay.
Proof.
  intros Hb. unfold Zoned.bounded in Hb. rewrite Forall_forall in Hb.
  apply Hb, offsetAt_in.
Qed.

Lemma UTC_bound z t : Zoned.bounded z -> t - msPerDay <= Zoned.UTC z t <= t + msPerDay.
Proof.
  intros Hb. destruct (UTC_offset z t) as [u ->].
  pose proof (offset_bound z u Hb). lia.
Qed.

Lemma LocalTime_bound z t :
  Zoned.bounded z -> t - msPerDay <= Zoned.LocalTime z t <= t + msPerDay.
Proof. intros Hb. unfold Zoned.LocalTime. pose proof (offset_bound z t Hb). lia. Qed.

(** A local time that occurs is read as the earliest instant at which the
    local clock shows it. *)
Lemma UTC_occurs z t :
  Zoned.occurs z t ->
  Zoned.LocalTime z (Zoned.UTC z t) = t /\
  forall u, Zoned.LocalTime z u = t -> Zoned.UTC z t <= u.
Proof.
  intros [u0 Hu0]. apply possibleInstants_spec in Hu0.
  unfold Zoned.UTC, Zoned.earliest.
  destruct (Zoned.possibleInstants z t) as [| u us] eqn:E; [contradiction |].
  destruct (fold_min_spec us u) as [Hin Hle].
  set (m := fold_left Z.min us u) in *. clearbody m.
  rewrite <- E in Hin, Hle.
  assert (Zoned.LocalTime z m = t) as Hm by (apply possibleInstants_spec; exact Hin).
  assert (t - Zoned.offsetAt z m = m) as -> by (unfold Zoned.LocalTime in Hm; lia).
  split; [exact Hm |].
  intros v Hv. apply Hle. apply possibleInstants_spec. exact Hv.
Qed.

(** Where the offset does not change, [UTC] takes it off. *)
Lemma UTC_steady z a b t :
  Zoned.bounded z -> Zoned.steady z a b ->
  a + 2 * msPerDay <= t - Zoned.offsetAt z a <= b - 2 * msPerDay ->
  Zoned.UTC z t = t - Zoned.offsetAt z a.
Proof.
  intros Hb Hs Ht.
  pose proof (offset_bound z a Hb) as Ho.
  assert (0 < msPerDay) as Hpos by (unfold msPerDay; lia).
  assert (Zoned.occurs z t) as Hocc.
  { exists (t - Zoned.offsetAt z a). unfold Zoned.LocalTime.
    rewrite (Hs (t - Zoned.offsetAt z a)) by lia. lia. }
  destruct (UTC_occurs z t Hocc) as [Hm _].
  set (m := Zoned.UTC z t) in *. clearbody m.
  pose proof (offset_bound z m Hb) as Hom.
  unfold Zoned.LocalTime in Hm.
  assert (Zoned.offsetAt z m = Zoned.offsetAt z a) as E by (apply Hs; lia).
  lia.
Qed.

Lemma LocalTime_steady z a b t :
  Zoned.steady z a b -> a <= t <= b -> Zoned.LocalTime z t = t + Zoned.offsetAt z a.
Proof. intros Hs Ht. unfold Zoned.LocalTime. rewrite (Hs t Ht). reflexivity. Qed.

(** A zone that keeps one offset is the zone of the constant offset. *)
Lemma fixed_zone tza t :
  Zoned.LocalTime (Zoned.fixed tza) t = LocalTime tza t /\
  Zoned.UTC (Zoned.fixed tza) t = UTC tza t.
Proof.
  split; [reflexivity |].
  unfold Zoned.UTC, Zoned.possibleInstants, Zoned.offsets, Zoned.fixed, Zoned.LocalTime,
    Zoned.offsetAt. cbn [Zoned.initial Zoned.transitions map Zoned.offsetFrom filter].
  replace (t - tza + tza =? t) with true by (symmetry; apply Z.eqb_eq; lia).
  reflexivity.
Qed.

(** ** The end of the week in any zone *)

Lemma Zoned_Music_windows z now :
  Zoned.MusicScreen.startOfDay z now = Zoned.SportsScreen.startOfDay z now /\
  Zoned.MusicScreen.endOfDay z now = Zoned.SportsScreen.endOfDay z now /\
  Zoned.MusicScreen.endOfWeek z now = Zoned.SportsScreen.endOfWeek z now /\
  Zoned.MusicScreen.endOfMonth z now = Zoned.SportsScreen.endOfMonth z now /\
  Zoned.MusicScreen.endOfNextMonth z now = Zoned.SportsScreen.endOfNextMonth z now.
Proof.
  unfold Zoned.MusicScreen.endOfWeek, Zoned.SportsScreen.endOfWeek,
    Zoned.MusicScreen.startOfDay, Zoned.SportsScreen.startOfDay,
    Zoned.MusicScreen.endOfDay, Zoned.SportsScreen.endOfDay,
    Zoned.MusicScreen.endOfMonth, Zoned.SportsScreen.endOfMonth,
    Zoned.MusicScreen.endOfNextMonth, Zoned.SportsScreen.endOfNextMonth.
  repeat split; exact eq_refl.
Qed.

Lemma Zoned_startOfDay_Some z now sod :
  Zoned.SportsScreen.startOfDay z now = Some sod ->
  sod = Zoned.UTC z (MakeDate (Day (Zoned.LocalTime z now)) 0) /\ Z.abs sod <= maxTime.
Proof.
  unfold Zoned.SportsScreen.startOfDay, Zoned.setHours. rewrite MakeTime_midnight.
  intros H. apply TimeClip_Some in H as [-> H]. split; [reflexivity | exact H].
Qed.

Lemma WeekDay_MakeDate d time : 0 <= time < msPerDay -> WeekDay (MakeDate d time) = (d + 4) mod 7.
Proof. intros H. unfold WeekDay. rewrite Day_MakeDate by exact H. reflexivity. Qed.

Lemma Zoned_setDate_eq z t dt :
  Zoned.setDate z (Some t) (Some dt) =
  TimeClip (Zoned.UTC z (MakeDate (MakeDay (YearFromTime (Zoned.LocalTime z t))
                                           (MonthFromTime (Zoned.LocalTime z t)) dt)
                                  (TimeWithinDay (Zoned.LocalTime z t)))).
Proof. reflexivity. Qed.

(** [endOfWeek] when today's local midnight occurs. *)
Lemma Zoned_endOfWeek_value z now sod :
  Zoned.SportsScreen.startOfDay z now = Some sod ->
  Zoned.LocalTime z sod = MakeDate (Day (Zoned.LocalTime z now)) 0 ->
  Zoned.SportsScreen.endOfWeek z now =
  TimeClip (Zoned.UTC z (MakeDate (Day (Zoned.LocalTime z now) + 7 -
                                   WeekDay (Zoned.LocalTime z now)) 0)).
Proof.
  intros Hsod Hl.
  destruct (Zoned_startOfDay_Some z now sod Hsod) as [_ Hb].
  unfold Zoned.SportsScreen.endOfWeek. rewrite Hsod.
  unfold Date_of_number. rewrite (TimeClip_in_range _ Hb).
  unfold Zoned.getDate, Zoned.getDay, option_map, num_sub, num_add.
  rewrite Zoned_setDate_eq, Hl.
  assert (0 <= 0 < msPerDay) as H0 by (unfold msPerDay; lia).
  rewrite MakeDay_same_month, TimeWithinDay_MakeDate, Day_MakeDate, WeekDay_MakeDate
    by exact H0.
  unfold WeekDay. do 2 f_equal. f_equal. lia.
Qed.

Lemma Zoned_clockInRange_day z now :
  Zoned.clockInRange z now ->
  -100000000 + 398 <= Day (Zoned.LocalTime z now) <= 100000000 - 399.
Proof.
  intros [Hb Hn]. pose proof (LocalTime_bound z now Hb) as Hl.
  set (l := Zoned.LocalTime z now) in *. clearbody l.
  unfold margin, Day, maxTime, msPerDay in *. zdiv.
Qed.

(** A local day at least three days inside the range converts to a time
    value, whatever the time of day and the zone. *)
Lemma Zoned_local_day_in_range z d time :
  Zoned.bounded z -> 0 <= time < msPerDay ->
  -100000000 + 3 <= d <= 100000000 - 3 ->
  TimeClip (Zoned.UTC z (MakeDate d time)) = Some (Zoned.UTC z (MakeDate d time)).
Proof.
  intros Hb Ht Hd. apply TimeClip_in_range.
  pose proof (UTC_bound z (MakeDate d time) Hb) as Hu.
  set (u := Zoned.UTC z (MakeDate d time)) in *. clearbody u.
  unfold MakeDate, maxTime, msPerDay in *. lia.
Qed.

Lemma Zoned_startOfDay_in_range z now :
  Zoned.clockInRange z now ->
  Zoned.SportsScreen.startOfDay z now =
  Some (Zoned.UTC z (MakeDate (Day (Zoned.LocalTime z now)) 0)).
Proof.
  intros Hr. pose proof (Zoned_clockInRange_day z now Hr) as HD. destruct Hr as [Hb _].
  unfold Zoned.SportsScreen.startOfDay, Zoned.setHours. rewrite MakeTime_midnight.
  apply Zoned_local_day_in_range; [exact Hb | unfold msPerDay; lia | lia].
Qed.

Lemma Zoned_endOfWeek_in_range z now :
  Zoned.clockInRange z now ->
  exists eow, Zoned.SportsScreen.endOfWeek z now = Some eow.
Proof.
  intros Hr. pose proof (Zoned_clockInRange_day z now Hr) as HD.
  pose proof (Zoned_startOfDay_in_range z now Hr) as Hs. destruct Hr as [Hb _].
  destruct (Zoned_startOfDay_Some z now _ Hs) as [_ Hbs].
  pose proof (UTC_bound z (MakeDate (Day (Zoned.LocalTime z now)) 0) Hb) as Hu.
  set (sod := Zoned.UTC z (MakeDate (Day (Zoned.LocalTime z now)) 0)) in *.
  pose proof (LocalTime_bound z sod Hb) as Hl.
  pose proof (Day_bounds (Zoned.LocalTime z sod)) as Hd.
  pose proof (WeekDay_range (Zoned.LocalTime z sod)) as Hw.
  pose proof (TimeWithinDay_range (Zoned.LocalTime z sod)) as Ht.
  unfold Zoned.SportsScreen.endOfWeek. rewrite Hs.
  unfold Date_of_number. rewrite (TimeClip_in_range _ Hbs).
  unfold Zoned.getDate, Zoned.getDay, option_map, num_sub, num_add.
  rewrite Zoned_setDate_eq, MakeDay_same_month.
  eexists. apply Zoned_local_day_in_range; [exact Hb | exact Ht |].
  set (ls := Zoned.LocalTime z sod) in *.
  set (D := Day (Zoned.LocalTime z now)) in *.
  set (Ds := Day ls) in *. set (w := WeekDay ls) in *. set (dt := DateFromTime ls) in *.
  clearbody sod ls D Ds w dt.
  unfold MakeDate, msPerDay in *. lia.
Qed.

(** C3 (amended): whenever [startOfDay] and [endOfWeek] are time values
    (they are, in range) and the local midnights of today and of the day
    [7 - dayOfWeek] days on occur in the zone: on the local clock
    [endOfWeek] reads 00:00:00.000 on the day that is
    [7 - dayOfWeek(startOfDay)] calendar days after the local day of
    [startOfDay], a Sunday, with [dayOfWeek] in 0 (Sunday) .. 6 (Saturday),
    the following Sunday when today is a Sunday.  As an instant it is
    [startOfDay] advanced by that many days of 24 hours, less the change of
    the zone's offset between the two instants: by exactly that many days
    when the offset is the same at both.  Both screens compute the same. *)
Theorem endOfWeek_next_sunday_midnight z now :
  (forall sod eow,
     Zoned.SportsScreen.startOfDay z now = Some sod ->
     Zoned.SportsScreen.endOfWeek z now = Some eow ->
     Zoned.occurs z (MakeDate (Day (Zoned.LocalTime z now)) 0) ->
     Zoned.occurs z (MakeDate (Day (Zoned.LocalTime z now) + 7 -
                               WeekDay (Zoned.LocalTime z now)) 0) ->
     0 <= WeekDay (Zoned.LocalTime z sod) <= 6 /\
     WeekDay (Zoned.LocalTime z sod) = WeekDay (Zoned.LocalTime z now) /\
     TimeWithinDay (Zoned.LocalTime z sod) = 0 /\
     Day (Zoned.LocalTime z eow) =
       Day (Zoned.LocalTime z sod) + (7 - WeekDay (Zoned.LocalTime z sod)) /\
     TimeWithinDay (Zoned.LocalTime z eow) = 0 /\
     WeekDay (Zoned.LocalTime z eow) = 0 /\
     eow = sod + (7 - WeekDay (Zoned.LocalTime z sod)) * msPerDay +
           (Zoned.offsetAt z sod - Zoned.offsetAt z eow) /\
     (Zoned.offsetAt z eow = Zoned.offsetAt z sod ->
      eow = sod + (7 - WeekDay (Zoned.LocalTime z sod)) * msPerDay) /\
     (WeekDay (Zoned.LocalTime z now) = 0 ->
      Day (Zoned.LocalTime z eow) = Day (Zoned.LocalTime z sod) + 7 /\
      (Zoned.offsetAt z eow = Zoned.offsetAt z sod -> eow = sod + 7 * msPerDay))) /\
  Zoned.MusicScreen.startOfDay z now = Zoned.SportsScreen.startOfDay z now /\
  Zoned.MusicScreen.endOfWeek z now = Zoned.SportsScreen.endOfWeek z now /\
  (Zoned.clockInRange z now ->
   exists sod eow,
     Zoned.SportsScreen.startOfDay z now = Some sod /\
     Zoned.SportsScreen.endOfWeek z now = Some eow).
Proof.
  destruct (Zoned_Music_windows z now) as (Msod & _ & Meow & _).
  split; [| split; [exact Msod | split; [exact Meow |]]].
  - intros sod eow Hsod Heow Ho1 Ho2.
    assert (0 <= 0 < msPerDay) as H0 by (unfold msPerDay; lia).
    destruct (Zoned_startOfDay_Some z now sod Hsod) as [Es _].
    destruct (UTC_occurs z _ Ho1) as [Ls _]. rewrite <- Es in Ls.
    rewrite (Zoned_endOfWeek_value z now sod Hsod Ls) in Heow.
    apply TimeClip_Some in Heow as [Ee _].
    destruct (UTC_occurs z _ Ho2) as [Le _]. rewrite <- Ee in Le.
    pose proof (WeekDay_range (Zoned.LocalTime z now)) as Hw.
    assert (WeekDay (Zoned.LocalTime z sod) = WeekDay (Zoned.LocalTime z now)) as Hws.
    { rewrite Ls, WeekDay_MakeDate by exact H0. reflexivity. }
    assert (Day (Zoned.LocalTime z sod) = Day (Zoned.LocalTime z now)) as Hds.
    { rewrite Ls. apply Day_MakeDate. exact H0. }
    assert (Day (Zoned.LocalTime z eow) =
            Day (Zoned.LocalTime z now) + 7 - WeekDay (Zoned.LocalTime z now)) as Hde.
    { rewrite Le. apply Day_MakeDate. exact H0. }
    assert (WeekDay (Zoned.LocalTime z eow) = 0) as Hwe.
    { rewrite Le, WeekDay_MakeDate by exact H0. unfold WeekDay. zdiv. }
    assert (TimeWithinDay (Zoned.LocalTime z sod) = 0) as Hts
      by (rewrite Ls; apply TimeWithinDay_MakeDate; exact H0).
    assert (TimeWithinDay (Zoned.LocalTime z eow) = 0) as Hte
      by (rewrite Le; apply TimeWithinDay_MakeDate; exact H0).
    rewrite Hws, Hds.
    set (D := Day (Zoned.LocalTime z now)) in *.
    set (w := WeekDay (Zoned.LocalTime z now)) in *.
    change (Zoned.LocalTime z sod) with (sod + Zoned.offsetAt z sod) in Ls.
    change (Zoned.LocalTime z eow) with (eow + Zoned.offsetAt z eow) in Le.
    set (os := Zoned.offsetAt z sod) in *. set (oe := Zoned.offsetAt z eow) in *.
    clearbody D w os oe. clear Es Ee Hsod Ho1 Ho2.
    unfold MakeDate in Ls, Le.
    repeat split; try assumption; try lia.
  - intros Hr. destruct (Zoned_endOfWeek_in_range z now Hr) as [eow He].
    exists (Zoned.UTC z (MakeDate (Day (Zoned.LocalTime z now)) 0)), eow.
    split; [apply Zoned_startOfDay_in_range; exact Hr | exact He].
Qed.

Lemma endOfWeek_next_sunday_midnight_witness :
  Day (Zoned.LocalTime Zoned.America_Denver 1762671600000) =
    Day (Zoned.LocalTime Zoned.America_Denver 1762063200000) +
    (7 - WeekDay (Zoned.LocalTime Zoned.America_Denver 1762063200000)) /\
  TimeWithinDay (Zoned.LocalTime Zoned.America_Denver 1762671600000) = 0 /\
  WeekDay (Zoned.LocalTime Zoned.America_Denver 1762671600000) = 0 /\
  1762671600000 =
    1762063200000 +
    (7 - WeekDay (Zoned.LocalTime Zoned.America_Denver 1762063200000)) * msPerDay +
    (Zoned.offsetAt Zoned.America_Denver 1762063200000 -
     Zoned.offsetAt Zoned.America_Denver 1762671600000).
Proof.
  destruct (endOfWeek_next_sunday_midnight Zoned.America_Denver 1762106400000) as [H _].
  assert (Zoned.occurs Zoned.America_Denver
            (MakeDate (Day (Zoned.LocalTime Zoned.America_Denver 1762106400000)) 0)) as O1
    by (exists 1762063200000; vm_compute; reflexivity).
  assert (Zoned.occurs Zoned.America_Denver
            (MakeDate (Day (Zoned.LocalTime Zoned.America_Denver 1762106400000) + 7 -
                       WeekDay (Zoned.LocalTime Zoned.America_Denver 1762106400000)) 0)) as O2
    by (exists 1762671600000; vm_compute; reflexivity).
  assert (Zoned.SportsScreen.startOfDay Zoned.America_Denver 1762106400000 =
          Some 1762063200000) as Hs by (vm_compute; reflexivity).
  assert (Zoned.SportsScreen.endOfWeek Zoned.America_Denver 1762106400000 =
          Some 1762671600000) as He by (vm_compute; reflexivity).
  destruct (H _ _ Hs He O1 O2) as (_ & _ & _ & Hd & Ht & Hw & Hv & _).
  exact (conj Hd (conj Ht (conj Hw Hv))).
Defined.

(** C3 as the spec states it fails where the zone changes its offset
    within the week: in America/Denver on Sunday 2025-11-02 at 11:00,
    [endOfWeek] is the midnight of Sunday 2025-11-09, seven days and one
    hour after [startOfDay].  And where a change skips the midnight that
    ends the week it is not at 00:00:00.000: in America/Santiago on
    Wednesday 2025-09-03 at noon, [endOfWeek] is four days of 24 hours
    after [startOfDay], where the clock of Sunday 2025-09-07 reads 01:00. *)
Lemma endOfWeek_across_offset_change :
  Zoned.SportsScreen.startOfDay Zoned.America_Denver 1762106400000 = Some 1762063200000 /\
  Zoned.SportsScreen.endOfWeek Zoned.America_Denver 1762106400000 = Some 1762671600000 /\
  WeekDay (Zoned.LocalTime Zoned.America_Denver 1762063200000) = 0 /\
  1762671600000 = 1762063200000 + 7 * msPerDay + 3600000 /\
  1762671600000 <>
    1762063200000 +
    (7 - WeekDay (Zoned.LocalTime Zoned.America_Denver 1762063200000)) * msPerDay /\
  Zoned.SportsScreen.startOfDay Zoned.America_Santiago 1756915200000 = Some 1756872000000 /\
  Zoned.SportsScreen.endOfWeek Zoned.America_Santiago 1756915200000 = Some 1757217600000 /\
  TimeWithinDay (Zoned.LocalTime Zoned.America_Santiago 1757217600000) = 3600000.
Proof.
  split; [vm_compute; reflexivity |]. split; [vm_compute; reflexivity |].
  split; [vm_compute; reflexivity |]. split; [reflexivity |].
  split; [| repeat split; vm_compute; reflexivity].
  replace (WeekDay (Zoned.LocalTime Zoned.America_Denver 1762063200000)) with 0
    by (vm_compute; reflexivity).
  unfold msPerDay. lia.
Qed.

(** ** The windows where the offset does not change *)

Lemma steady_days_arith (a b now off d e1 e2 : Z) :
  Z.abs off <= msPerDay -> a + 3 * msPerDay <= now ->
  d * msPerDay <= LocalTime off now < d * msPerDay + msPerDay ->
  d <= e1 -> e1 + 28 <= e2 <= e1 + 31 ->
  UTC off (MakeDate e2 (msPerDay - 1)) + 2 * msPerDay <= b ->
  Z.abs off <= msPerDay /\
  a + 2 * msPerDay <= d * msPerDay - off /\
  d <= e1 /\ e1 + 28 <= e2 /\
  e2 * msPerDay + msPerDay - 1 - off + 2 * msPerDay <= b /\
  a <= now <= b.
Proof. unfold UTC, MakeDate, LocalTime, msPerDay. intros. repeat split; lia. Qed.

Section Steady.

Variable z : Zoned.Zone.
Variables a b now : Z.
Hypothesis Hb : Zoned.bounded z.
Hypothesis Hs : Zoned.steady z a b.
Hypothesis Ha : a + 3 * msPerDay <= now.
(** The last millisecond of next month, read with the offset at [a], is
    two days before [b]. *)
Hypothesis Hlast :
  UTC (Zoned.offsetAt z a)
      (MakeDate (MakeDay (MakeFullYear (YearFromTime (LocalTime (Zoned.offsetAt z a) now)))
                         (MonthFromTime (LocalTime (Zoned.offsetAt z a) now) + 2) 0)
                (msPerDay - 1)) + 2 * msPerDay <= b.

Local Abbreviation o := (Zoned.offsetAt z a).
Local Abbreviation L := (LocalTime (Zoned.offsetAt z a) now).
Local Abbreviation D := (Day (LocalTime (Zoned.offsetAt z a) now)).
Local Abbreviation E k :=
  (MakeDay (MakeFullYear (YearFromTime (LocalTime (Zoned.offsetAt z a) now)))
           (MonthFromTime (LocalTime (Zoned.offsetAt z a) now) + k) 0).

(** The local days of the boundaries lie between today and the end of next
    month, and these in the stretch without a change. *)
Lemma steady_days :
  Z.abs o <= msPerDay /\
  a + 2 * msPerDay <= D * msPerDay - o /\
  D <= E 1 /\ E 1 + 28 <= E 2 /\
  E 2 * msPerDay + msPerDay - 1 - o + 2 * msPerDay <= b /\
  a <= now <= b.
Proof.
  exact (steady_days_arith a b now o D (E 1) (E 2) (offset_bound z a Hb) Ha
           (Day_bounds L) (today_le_monthEnd o now) (monthEnd_2 o now) Hlast).
Qed.

Lemma steady_LocalTime_now : Zoned.LocalTime z now = L.
Proof.
  destruct steady_days as (_ & _ & _ & _ & _ & Hn).
  unfold LocalTime. apply (LocalTime_steady z a b now Hs Hn).
Qed.

(** [UTC] of a time of day on a local day between today and the end of next
    month. *)
Lemma steady_UTC d time :
  D <= d <= E 2 -> 0 <= time < msPerDay ->
  Zoned.UTC z (MakeDate d time) = UTC o (MakeDate d time) /\
  a <= UTC o (MakeDate d time) <= b.
Proof.
  intros Hd Ht.
  destruct steady_days as (Ho & H0 & H1 & H2 & H3 & _).
  assert (a + 2 * msPerDay <= MakeDate d time - o <= b - 2 * msPerDay) as Hin.
  { set (dd := D) in *. set (e2 := E 2) in *. set (off := o) in *.
    clearbody dd e2 off. unfold MakeDate, msPerDay in *. lia. }
  split; [apply (UTC_steady z a b _ Hb Hs Hin) |].
  unfold UTC. unfold msPerDay in *. lia.
Qed.

Lemma steady_LocalTime_UTC d time :
  D <= d <= E 2 -> 0 <= time < msPerDay ->
  Zoned.LocalTime z (UTC o (MakeDate d time)) = MakeDate d time.
Proof.
  intros Hd Ht. destruct (steady_UTC d time Hd Ht) as [_ Hin].
  rewrite (LocalTime_steady z a b _ Hs Hin). unfold UTC. lia.
Qed.

Lemma steady_startOfDay :
  Zoned.SportsScreen.startOfDay z now = SportsScreen.startOfDay o now.
Proof.
  destruct steady_days as (_ & _ & H1 & H2 & _).
  unfold Zoned.SportsScreen.startOfDay, Zoned.setHours, SportsScreen.startOfDay, setHours.
  rewrite steady_LocalTime_now, MakeTime_midnight.
  rewrite (proj1 (steady_UTC D 0 ltac:(lia) ltac:(unfold msPerDay; lia))). reflexivity.
Qed.

Lemma steady_endOfDay :
  Zoned.SportsScreen.endOfDay z now = SportsScreen.endOfDay o now.
Proof.
  destruct steady_days as (_ & _ & H1 & H2 & _).
  unfold Zoned.SportsScreen.endOfDay, Zoned.setHours, SportsScreen.endOfDay, setHours.
  rewrite steady_LocalTime_now, MakeTime_last_ms.
  rewrite (proj1 (steady_UTC D (msPerDay - 1) ltac:(lia) ltac:(unfold msPerDay; lia))).
  reflexivity.
Qed.

Lemma steady_endOfWeek :
  Zoned.SportsScreen.endOfWeek z now = SportsScreen.endOfWeek o now.
Proof.
  destruct steady_days as (_ & _ & H1 & H2 & _).
  assert (0 <= 0 < msPerDay) as H0 by (unfold msPerDay; lia).
  pose proof (WeekDay_range L) as Hw.
  unfold Zoned.SportsScreen.endOfWeek, SportsScreen.endOfWeek.
  rewrite steady_startOfDay.
  unfold SportsScreen.startOfDay, setHours. rewrite MakeTime_midnight.
  unfold Date_of_number.
  destruct (TimeClip (UTC o (MakeDate D 0))) as [x |] eqn:Ex; [| reflexivity].
  destruct (TimeClip x) as [y |] eqn:Ey; [| reflexivity].
  apply TimeClip_Some in Ey as [-> _]. apply TimeClip_Some in Ex as [-> _].
  unfold Zoned.getDate, Zoned.getDay, getDate, getDay, option_map, num_sub, num_add.
  rewrite Zoned_setDate_eq. unfold setDate. cbv zeta.
  rewrite (steady_LocalTime_UTC D 0 ltac:(lia) H0), LocalTime_UTC.
  rewrite !MakeDay_same_month, !TimeWithinDay_MakeDate, !Day_MakeDate, !WeekDay_MakeDate
    by exact H0.
  assert (0 <= (D + 4) mod 7 < 7) as Hm by (apply Z.mod_pos_bound; lia).
  set (dt := DateFromTime (MakeDate D 0)) in *. set (w := (D + 4) mod 7) in *.
  rewrite (proj1 (steady_UTC (D - dt + (dt - w + 7)) 0 ltac:(lia) H0)). reflexivity.
Qed.

Lemma steady_monthEnd k :
  1 <= k <= 2 ->
  Zoned.setHours z
    (Zoned.Date_ymd z (Zoned.getFullYear z (Some now))
                    (num_add (Zoned.getMonth z (Some now)) (Some k)) (Some 0))
    23 59 59 999 =
  setHours o
    (Date_ymd o (getFullYear o (Some now)) (num_add (getMonth o (Some now)) (Some k))
              (Some 0))
    23 59 59 999.
Proof.
  intros Hk.
  destruct steady_days as (_ & _ & H1 & H2 & _).
  assert (D <= E k <= E 2) as He.
  { destruct (Z.eq_dec k 1) as [-> | Hne]; [lia |].
    replace k with 2 by lia. lia. }
  assert (0 <= 0 < msPerDay) as H0 by (unfold msPerDay; lia).
  assert (0 <= msPerDay - 1 < msPerDay) as H9 by (unfold msPerDay; lia).
  unfold Zoned.getFullYear, Zoned.getMonth, getFullYear, getMonth, option_map, num_add,
    Zoned.Date_ymd, Date_ymd.
  rewrite steady_LocalTime_now, MakeTime_midnight.
  rewrite (proj1 (steady_UTC (E k) 0 He H0)).
  destruct (TimeClip (UTC o (MakeDate (E k) 0))) as [x |] eqn:Ex; [| reflexivity].
  apply TimeClip_Some in Ex as [-> _].
  unfold Zoned.setHours, setHours.
  rewrite (steady_LocalTime_UTC (E k) 0 He H0), LocalTime_UTC, MakeTime_last_ms.
  rewrite Day_MakeDate by exact H0.
  rewrite (proj1 (steady_UTC (E k) (msPerDay - 1) He H9)). reflexivity.
Qed.

(** The five boundaries are those of a zone that keeps the offset. *)
Lemma steady_windows :
  Zoned.SportsScreen.startOfDay z now = SportsScreen.startOfDay o now /\
  Zoned.SportsScreen.endOfDay z now = SportsScreen.endOfDay o now /\
  Zoned.SportsScreen.endOfWeek z now = SportsScreen.endOfWeek o now /\
  Zoned.SportsScreen.endOfMonth z now = SportsScreen.endOfMonth o now /\
  Zoned.SportsScreen.endOfNextMonth z now = SportsScreen.endOfNextMonth o now.
Proof.
  split; [exact steady_startOfDay |]. split; [exact steady_endOfDay |].
  split; [exact steady_endOfWeek |].
  split.
  - unfold Zoned.SportsScreen.endOfMonth, SportsScreen.endOfMonth.
    apply steady_monthEnd. lia.
  - unfold Zoned.SportsScreen.endOfNextMonth, SportsScreen.endOfNextMonth.
    apply steady_monthEnd. lia.
Qed.

End Steady.

(** *** How far the boundaries reach, in any zone *)

Lemma local_month_days l :
  Day l <= MakeDay (MakeFullYear (YearFromTime l)) (MonthFromTime l + 1) 0 /\
  MakeDay (MakeFullYear (YearFromTime l)) (MonthFromTime l + 1) 0 + 28 <=
    MakeDay (MakeFullYear (YearFromTime l)) (MonthFromTime l + 2) 0 <=
    MakeDay (MakeFullYear (YearFromTime l)) (MonthFromTime l + 1) 0 + 31.
Proof.
  pose proof (today_le_monthEnd 0 l) as H1. pose proof (monthEnd_2 0 l) as H2.
  unfold LocalTime in H1, H2. rewrite Z.add_0_r in H1, H2.
  split; [exact H1 | exact H2].
Qed.

Lemma reach_arith (now l e2 dm ldm eonm D' : Z) :
  now - msPerDay <= l ->
  Day l + 28 <= e2 ->
  Day l * msPerDay <= l < Day l * msPerDay + msPerDay ->
  MakeDate e2 0 - msPerDay <= dm ->
  dm - msPerDay <= ldm ->
  D' * msPerDay <= ldm < D' * msPerDay + msPerDay ->
  MakeDate D' (msPerDay - 1) - msPerDay <= eonm ->
  MakeDate e2 0 - 3 * msPerDay <= eonm /\ now + 20 * msPerDay <= eonm.
Proof. unfold MakeDate, msPerDay. intros. split; lia. Qed.

(** [endOfNextMonth] is at most three days before the local midnight of
    the last day of next month, and after [now]. *)
Lemma Zoned_endOfNextMonth_reach z now eonm :
  Zoned.bounded z ->
  Zoned.SportsScreen.endOfNextMonth z now = Some eonm ->
  MakeDate (MakeDay (MakeFullYear (YearFromTime (Zoned.LocalTime z now)))
                    (MonthFromTime (Zoned.LocalTime z now) + 2) 0) 0 - 3 * msPerDay <= eonm /\
  now + 20 * msPerDay <= eonm.
Proof.
  intros Hb.
  unfold Zoned.SportsScreen.endOfNextMonth, Zoned.getFullYear, Zoned.getMonth, option_map,
    num_add, Zoned.Date_ymd.
  rewrite MakeTime_midnight.
  destruct (TimeClip (Zoned.UTC z (MakeDate (MakeDay (MakeFullYear
              (YearFromTime (Zoned.LocalTime z now)))
              (MonthFromTime (Zoned.LocalTime z now) + 2) 0) 0))) as [dm |] eqn:Edm;
    [| unfold Zoned.setHours; discriminate].
  apply TimeClip_Some in Edm as [-> _].
  unfold Zoned.setHours. rewrite MakeTime_last_ms.
  intros He. apply TimeClip_Some in He as [-> _].
  destruct (local_month_days (Zoned.LocalTime z now)) as [H1 H2].
  assert (Day (Zoned.LocalTime z now) + 28 <=
          MakeDay (MakeFullYear (YearFromTime (Zoned.LocalTime z now)))
                  (MonthFromTime (Zoned.LocalTime z now) + 2) 0) as H3 by lia.
  apply (reach_arith now (Zoned.LocalTime z now) _ _ _ _ _
           (proj1 (LocalTime_bound z now Hb)) H3
           (Day_bounds _) (proj1 (UTC_bound z _ Hb)) (proj1 (LocalTime_bound z _ Hb))
           (Day_bounds _) (proj1 (UTC_bound z _ Hb))).
Qed.

Lemma last_arith (off e2 eonm b : Z) :
  Z.abs off <= msPerDay ->
  MakeDate e2 0 - 3 * msPerDay <= eonm -> eonm + 7 * msPerDay <= b ->
  UTC off (MakeDate e2 (msPerDay - 1)) + 2 * msPerDay <= b.
Proof. unfold UTC, MakeDate, msPerDay. lia. Qed.

(** A stretch without a change that covers three days before [now] and a
    week after [endOfNextMonth] covers what the boundaries need. *)
Lemma steady_reach z a b now eonm :
  Zoned.bounded z -> Zoned.steady z a b ->
  a + 3 * msPerDay <= now ->
  Zoned.SportsScreen.endOfNextMonth z now = Some eonm ->
  eonm + 7 * msPerDay <= b ->
  UTC (Zoned.offsetAt z a)
      (MakeDate (MakeDay (MakeFullYear (YearFromTime (LocalTime (Zoned.offsetAt z a) now)))
                         (MonthFromTime (LocalTime (Zoned.offsetAt z a) now) + 2) 0)
                (msPerDay - 1)) + 2 * msPerDay <= b.
Proof.
  intros Hb Hs Ha He Hlast.
  destruct (Zoned_endOfNextMonth_reach z now eonm Hb He) as [H1 H2].
  assert (a <= now <= b) as Hn by (unfold msPerDay in *; lia).
  rewrite (LocalTime_steady z a b now Hs Hn) in H1.
  apply (last_arith _ _ eonm b (offset_bound z a Hb) H1 Hlast).
Qed.

(** *** In range every boundary is a time value, in any zone *)

Lemma local_month_range l :
  -100000000 + 398 <= Day l <= 100000000 - 399 ->
  -100000000 + 5 <= MakeDay (MakeFullYear (YearFromTime l)) (MonthFromTime l + 1) 0
    <= 100000000 - 5 /\
  -100000000 + 5 <= MakeDay (MakeFullYear (YearFromTime l)) (MonthFromTime l + 2) 0
    <= 100000000 - 5.
Proof.
  intros HD.
  destruct (local_month_days l) as [_ H2].
  pose proof (DateFromTime_range l) as Hd.
  pose proof (DaysInMonth_bounds (InLeapYear l) _ (MonthFromTime_range l)) as Hb.
  pose proof (monthEnd_1 0 l) as H1. unfold LocalTime in H1. rewrite Z.add_0_r in H1.
  destruct H1 as [[_ H1] | (_ & _ & H1)].
  - lia.
  - vm_compute (DayFromYear 1900) in H1. vm_compute (DayFromYear 2001) in H1. lia.
Qed.

Lemma day_near_arith (e dm ldm D' : Z) :
  MakeDate e 0 - msPerDay <= dm <= MakeDate e 0 + msPerDay ->
  dm - msPerDay <= ldm <= dm + msPerDay ->
  D' * msPerDay <= ldm < D' * msPerDay + msPerDay ->
  e - 2 <= D' <= e + 2.
Proof. unfold MakeDate, msPerDay. lia. Qed.

Lemma Zoned_monthEnd_in_range z now k :
  Zoned.clockInRange z now -> 1 <= k <= 2 ->
  exists v,
    Zoned.setHours z
      (Zoned.Date_ymd z (Zoned.getFullYear z (Some now))
                      (num_add (Zoned.getMonth z (Some now)) (Some k)) (Some 0))
      23 59 59 999 = Some v.
Proof.
  intros Hr Hk. pose proof (Zoned_clockInRange_day z now Hr) as HD. destruct Hr as [Hb _].
  destruct (local_month_range _ HD) as [R1 R2].
  assert (-100000000 + 5 <=
          MakeDay (MakeFullYear (YearFromTime (Zoned.LocalTime z now)))
                  (MonthFromTime (Zoned.LocalTime z now) + k) 0 <= 100000000 - 5) as R.
  { destruct (Z.eq_dec k 1) as [-> | Hne]; [exact R1 |].
    replace k with 2 by lia. exact R2. }
  assert (0 <= 0 < msPerDay) as H0 by (unfold msPerDay; lia).
  assert (0 <= msPerDay - 1 < msPerDay) as H9 by (unfold msPerDay; lia).
  unfold Zoned.getFullYear, Zoned.getMonth, option_map, num_add, Zoned.Date_ymd.
  rewrite MakeTime_midnight.
  rewrite (Zoned_local_day_in_range z _ 0 Hb H0) by lia.
  unfold Zoned.setHours. rewrite MakeTime_last_ms.
  eexists. apply (Zoned_local_day_in_range z _ _ Hb H9).
  pose proof (day_near_arith _ _ _ _ (UTC_bound z _ Hb) (LocalTime_bound z _ Hb)
                (Day_bounds (Zoned.LocalTime z (Zoned.UTC z (MakeDate (MakeDay (MakeFullYear
                   (YearFromTime (Zoned.LocalTime z now)))
                   (MonthFromTime (Zoned.LocalTime z now) + k) 0) 0))))) as Hn.
  lia.
Qed.

Lemma Zoned_windows_in_range z now :
  Zoned.clockInRange z now ->
  exists sod eod eow eom eonm,
    Zoned.SportsScreen.startOfDay z now = Some sod /\
    Zoned.SportsScreen.endOfDay z now = Some eod /\
    Zoned.SportsScreen.endOfWeek z now = Some eow /\
    Zoned.SportsScreen.endOfMonth z now = Some eom /\
    Zoned.SportsScreen.endOfNextMonth z now = Some eonm.
Proof.
  intros Hr.
  destruct (Zoned_endOfWeek_in_range z now Hr) as [eow Hw].
  destruct (Zoned_monthEnd_in_range z now 1 Hr ltac:(lia)) as [eom Hm].
  destruct (Zoned_monthEnd_in_range z now 2 Hr ltac:(lia)) as [eonm Hn].
  pose proof (Zoned_clockInRange_day z now Hr) as HD.
  exists (Zoned.UTC z (MakeDate (Day (Zoned.LocalTime z now)) 0)),
         (Zoned.UTC z (MakeDate (Day (Zoned.LocalTime z now)) (msPerDay - 1))), eow, eom, eonm.
  split; [apply Zoned_startOfDay_in_range; exact Hr |].
  split; [| split; [exact Hw | split; [exact Hm | exact Hn]]].
  destruct Hr as [Hb _].
  unfold Zoned.SportsScreen.endOfDay, Zoned.setHours. rewrite MakeTime_last_ms.
  apply Zoned_local_day_in_range; [exact Hb | unfold msPerDay; lia | lia].
Qed.

(** *** The boundaries on the local clock, in any zone *)

Lemma Zoned_endOfDay_Some z now eod :
  Zoned.SportsScreen.endOfDay z now = Some eod ->
  eod = Zoned.UTC z (MakeDate (Day (Zoned.LocalTime z now)) (msPerDay - 1)).
Proof.
  unfold Zoned.SportsScreen.endOfDay, Zoned.setHours. rewrite MakeTime_last_ms.
  intros H. apply TimeClip_Some in H as [-> _]. reflexivity.
Qed.

(** The end of a month when the midnight of its last day occurs. *)
Lemma Zoned_monthEnd_Some z now k v :
  Zoned.occurs z (MakeDate (MakeDay (MakeFullYear (YearFromTime (Zoned.LocalTime z now)))
                                    (MonthFromTime (Zoned.LocalTime z now) + k) 0) 0) ->
  Zoned.setHours z
    (Zoned.Date_ymd z (Zoned.getFullYear z (Some now))
                    (num_add (Zoned.getMonth z (Some now)) (Some k)) (Some 0))
    23 59 59 999 = Some v ->
  v = Zoned.UTC z (MakeDate (MakeDay (MakeFullYear (YearFromTime (Zoned.LocalTime z now)))
                                     (MonthFromTime (Zoned.LocalTime z now) + k) 0)
                            (msPerDay - 1)).
Proof.
  intros Ho.
  assert (0 <= 0 < msPerDay) as H0 by (unfold msPerDay; lia).
  unfold Zoned.getFullYear, Zoned.getMonth, option_map, num_add, Zoned.Date_ymd.
  rewrite MakeTime_midnight.
  destruct (TimeClip (Zoned.UTC z (MakeDate (MakeDay (MakeFullYear
              (YearFromTime (Zoned.LocalTime z now)))
              (MonthFromTime (Zoned.LocalTime z now) + k) 0) 0))) as [x |] eqn:Ex;
    [| discriminate].
  apply TimeClip_Some in Ex as [-> _].
  unfold Zoned.setHours.
  rewrite (proj1 (UTC_occurs z _ Ho)), Day_MakeDate, MakeTime_last_ms by exact H0.
  intros H. apply TimeClip_Some in H as [-> _]. reflexivity.
Qed.

Lemma Zoned_endOfMonth_Some z now eom :
  Zoned.occurs z (MakeDate (MakeDay (MakeFullYear (YearFromTime (Zoned.LocalTime z now)))
                                    (MonthFromTime (Zoned.LocalTime z now) + 1) 0) 0) ->
  Zoned.SportsScreen.endOfMonth z now = Some eom ->
  eom = Zoned.UTC z (MakeDate (MakeDay (MakeFullYear (YearFromTime (Zoned.LocalTime z now)))
                                       (MonthFromTime (Zoned.LocalTime z now) + 1) 0)
                              (msPerDay - 1)).
Proof. unfold Zoned.SportsScreen.endOfMonth. apply Zoned_monthEnd_Some. Qed.

Lemma Zoned_endOfNextMonth_Some z now eonm :
  Zoned.occurs z (MakeDate (MakeDay (MakeFullYear (YearFromTime (Zoned.LocalTime z now)))
                                    (MonthFromTime (Zoned.LocalTime z now) + 2) 0) 0) ->
  Zoned.SportsScreen.endOfNextMonth z now = Some eonm ->
  eonm = Zoned.UTC z (MakeDate (MakeDay (MakeFullYear (YearFromTime (Zoned.LocalTime z now)))
                                        (MonthFromTime (Zoned.LocalTime z now) + 2) 0)
                               (msPerDay - 1)).
Proof. unfold Zoned.SportsScreen.endOfNextMonth. apply Zoned_monthEnd_Some. Qed.

Lemma local_month_lt l :
  lastDayOfMonth l = false ->
  Day l < MakeDay (MakeFullYear (YearFromTime l)) (MonthFromTime l + 1) 0.
Proof.
  intros H. pose proof (today_lt_monthEnd 0 l) as H1.
  unfold LocalTime in H1. rewrite Z.add_0_r in H1. exact (H1 H).
Qed.

Lemma local_order_arith (l D w e1 e2 : Z) :
  D * msPerDay <= l < D * msPerDay + msPerDay ->
  0 <= w <= 6 -> D <= e1 -> e1 + 28 <= e2 ->
  (MakeDate D 0 <= l <= MakeDate D (msPerDay - 1)) /\
  (MakeDate D 0 <= MakeDate D (msPerDay - 1) < MakeDate (D + 7 - w) 0) /\
  MakeDate D (msPerDay - 1) <= MakeDate e1 (msPerDay - 1) /\
  MakeDate e1 (msPerDay - 1) < MakeDate e2 (msPerDay - 1) /\
  (D < e1 -> MakeDate D (msPerDay - 1) < MakeDate e1 (msPerDay - 1)).
Proof. unfold MakeDate, msPerDay. lia. Qed.

(** What the clock reads at the five boundaries, when the local times they
    aim at occur. *)
Lemma Zoned_boundaries_local z now sod eod eow eom eonm :
  Zoned.SportsScreen.startOfDay z now = Some sod ->
  Zoned.SportsScreen.endOfDay z now = Some eod ->
  Zoned.SportsScreen.endOfWeek z now = Some eow ->
  Zoned.SportsScreen.endOfMonth z now = Some eom ->
  Zoned.SportsScreen.endOfNextMonth z now = Some eonm ->
  Zoned.boundariesOccur z now ->
  Zoned.LocalTime z sod = MakeDate (Day (Zoned.LocalTime z now)) 0 /\
  Zoned.LocalTime z eod = MakeDate (Day (Zoned.LocalTime z now)) (msPerDay - 1) /\
  Zoned.LocalTime z eow =
    MakeDate (Day (Zoned.LocalTime z now) + 7 - WeekDay (Zoned.LocalTime z now)) 0 /\
  Zoned.LocalTime z eom =
    MakeDate (MakeDay (MakeFullYear (YearFromTime (Zoned.LocalTime z now)))
                      (MonthFromTime (Zoned.LocalTime z now) + 1) 0) (msPerDay - 1) /\
  Zoned.LocalTime z eonm =
    MakeDate (MakeDay (MakeFullYear (YearFromTime (Zoned.LocalTime z now)))
                      (MonthFromTime (Zoned.LocalTime z now) + 2) 0) (msPerDay - 1).
Proof.
  intros H1 H2 H3 H4 H5 (O1 & O2 & O3 & O4 & O5 & O6 & O7).
  destruct (Zoned_startOfDay_Some z now sod H1) as [E1 _].
  assert (Zoned.LocalTime z sod = MakeDate (Day (Zoned.LocalTime z now)) 0) as L1
    by (rewrite E1; apply (UTC_occurs z _ O1)).
  split; [exact L1 |].
  split; [rewrite (Zoned_endOfDay_Some z now eod H2); apply (UTC_occurs z _ O2) |].
  split.
  { rewrite (Zoned_endOfWeek_value z now sod H1 L1) in H3.
    apply TimeClip_Some in H3 as [-> _]. apply (UTC_occurs z _ O3). }
  split.
  - rewrite (Zoned_endOfMonth_Some z now eom O4 H4). apply (UTC_occurs z _ O5).
  - rewrite (Zoned_endOfNextMonth_Some z now eonm O6 H5). apply (UTC_occurs z _ O7).
Qed.




(** ** The fallback list in any zone *)

Lemma Zoned_setMonth_eq z t m :
  Zoned.setMonth z (Some t) (Some m) =
  TimeClip (Zoned.UTC z (MakeDate (MakeDay (YearFromTime (Zoned.LocalTime z t)) m
                                           (DateFromTime (Zoned.LocalTime z t)))
                                  (TimeWithinDay (Zoned.LocalTime z t)))).
Proof. reflexivity. Qed.

Lemma DateFromTime_small t : 1 <= DateFromTime t <= 31.
Proof.
  pose proof (DateFromTime_range t) as H.
  pose proof (DaysInMonth_bounds (InLeapYear t) _ (MonthFromTime_range t)) as B.
  lia.
Qed.

Lemma mock_day_arith (D dt dt' k : Z) :
  -100000000 + 398 <= D <= 100000000 - 399 ->
  1 <= dt <= 31 -> 1 <= dt' <= 31 -> 0 <= k <= 7 ->
  -100000000 + 3 <= D - dt + (dt' + k) <= 100000000 - 3.
Proof. lia. Qed.

Lemma mock_month_arith (D dfy diy md1 dt : Z) :
  -100000000 + 398 <= D <= 100000000 - 399 ->
  dfy <= D < dfy + diy -> diy = 365 \/ diy = 366 ->
  dfy <= md1 <= dfy + diy -> 1 <= dt <= 31 ->
  -100000000 + 3 <= md1 + dt - 1 <= 100000000 - 3.
Proof. lia. Qed.

(** [d.setDate(today.getDate() + k)] on a Date [d] in range. *)
Lemma Zoned_setDate_of_today z today t k :
  Zoned.clockInRange z t -> 0 <= k <= 7 ->
  Zoned.setDate z (Some t) (num_add (Zoned.getDate z (Some today)) (Some k)) =
  Some (Zoned.UTC z (MakeDate (Day (Zoned.LocalTime z t) - DateFromTime (Zoned.LocalTime z t) +
                               (DateFromTime (Zoned.LocalTime z today) + k))
                              (TimeWithinDay (Zoned.LocalTime z t)))).
Proof.
  intros Ht Hk.
  pose proof (Zoned_clockInRange_day z t Ht) as HD. destruct Ht as [Hb _].
  unfold Zoned.getDate, option_map, num_add.
  rewrite Zoned_setDate_eq, MakeDay_same_month.
  apply Zoned_local_day_in_range; [exact Hb | apply TimeWithinDay_range |].
  apply mock_day_arith; try assumption; apply DateFromTime_small.
Qed.

(** [d.setMonth(today.getMonth() + 1)] on a Date [d] in range. *)
Lemma Zoned_setMonth_of_today z today t :
  Zoned.clockInRange z t ->
  Zoned.setMonth z (Some t) (num_add (Zoned.getMonth z (Some today)) (Some 1)) =
  Some (Zoned.UTC z (MakeDate (MakeDay (YearFromTime (Zoned.LocalTime z t))
                                       (MonthFromTime (Zoned.LocalTime z today) + 1)
                                       (DateFromTime (Zoned.LocalTime z t)))
                              (TimeWithinDay (Zoned.LocalTime z t)))).
Proof.
  intros Ht.
  pose proof (Zoned_clockInRange_day z t Ht) as HD. destruct Ht as [Hb _].
  unfold Zoned.getMonth, option_map, num_add.
  rewrite Zoned_setMonth_eq.
  apply Zoned_local_day_in_range; [exact Hb | apply TimeWithinDay_range |].
  rewrite MakeDay_date.
  pose proof (MonthFromTime_range (Zoned.LocalTime z today)) as HM.
  pose proof (MakeDay_year_bounds (YearFromTime (Zoned.LocalTime z t))
                (MonthFromTime (Zoned.LocalTime z today) + 1) ltac:(lia)) as HY.
  pose proof (YearFromTime_spec (Zoned.LocalTime z t)) as HS.
  rewrite DayFromYear_succ in HS, HY.
  apply (mock_month_arith (Day (Zoned.LocalTime z t))
           (DayFromYear (YearFromTime (Zoned.LocalTime z t)))
           (DaysInYear (YearFromTime (Zoned.LocalTime z t))));
    auto using DaysInYear_cases, DateFromTime_small.
Qed.

(** The local day that [setDate] and [setMonth] aim at, when the readings
    are one instant. *)
Lemma same_reading_days l k :
  Day l - DateFromTime l + (DateFromTime l + k) = Day l + k /\
  MakeDay (YearFromTime l) (MonthFromTime l + 1) (DateFromTime l) =
  Day l + DaysInMonth (InLeapYear l) (MonthFromTime l).
Proof.
  split; [lia |].
  rewrite MakeDay_date.
  pose proof (MakeDay_month_end l) as H. rewrite MakeDay_date in H. lia.
Qed.

(** On a failure or an empty result set the fetch is the mock service. *)
Lemma Zoned_fetch_fallback z fetch now1 now2 now3 now4 city stateCode radius category :
  fetch (api.TICKETMASTER_ENDPOINT city stateCode radius category) = TransportFailure \/
  (exists data,
     fetch (api.TICKETMASTER_ENDPOINT city stateCode radius category) = Response data /\
     emptyResultSet data) ->
  Zoned.api.fetchTicketmasterEvents z fetch now1 now2 now3 now4 city stateCode radius category =
  Zoned.mockApi.fetchTicketmasterEvents z now1 now2 now3 now4.
Proof.
  unfold Zoned.api.fetchTicketmasterEvents, emptyResultSet. cbv zeta.
  intros [-> | (data & -> & Hempty)]; [reflexivity |].
  destruct (_embedded data) as [emb |]; [| reflexivity].
  destruct (events emb) as [evs |] eqn:Hevs; [| reflexivity].
  rewrite (Hempty emb evs eq_refl Hevs). reflexivity.
Qed.

Lemma mockListOf_populated d1 d2 d3 d4 d5 :
  d1 <> EmptyString -> d2 <> EmptyString -> d3 <> EmptyString ->
  d4 <> EmptyString -> d5 <> EmptyString ->
  Forall populated (mockListOf d1 d2 d3 d4 d5).
Proof.
  intros N1 N2 N3 N4 N5.
  repeat constructor; cbn [id name category date venueName imageUrl address];
    try discriminate; eexists; (split; [reflexivity |]); (assumption || discriminate).
Qed.

(** What the mock service returns when its clock readings are in range. *)
Lemma Zoned_mock_events z now1 now2 now3 now4 :
  Zoned.clockInRange z now2 -> Zoned.clockInRange z now3 -> Zoned.clockInRange z now4 ->
  exists d1 d3 d4 d5 t3 t4 t5,
    Zoned.mockApi.fetchTicketmasterEvents z now1 now2 now3 now4 =
      Ok (mockListOf d1 d1 d3 d4 d5) /\
    (d1 <> EmptyString /\ d3 <> EmptyString /\ d4 <> EmptyString /\ d5 <> EmptyString) /\
    Zoned.setDate z (Some now2) (num_add (Zoned.getDate z (Some now1)) (Some 1)) = Some t3 /\
    Zoned.setDate z (Some now3) (num_add (Zoned.getDate z (Some now1)) (Some 7)) = Some t4 /\
    Zoned.setMonth z (Some now4) (num_add (Zoned.getMonth z (Some now1)) (Some 1)) = Some t5 /\
    ISO.toISOString (Some now1) = Ok d1 /\
    ISO.toISOString (Some t3) = Ok d3 /\
    ISO.toISOString (Some t4) = Ok d4 /\
    ISO.toISOString (Some t5) = Ok d5.
Proof.
  intros H2 H3 H4.
  pose proof (Zoned_setDate_of_today z now1 now2 1 H2 ltac:(lia)) as E1.
  pose proof (Zoned_setDate_of_today z now1 now3 7 H3 ltac:(lia)) as E2.
  pose proof (Zoned_setMonth_of_today z now1 now4 H4) as E3.
  unfold Zoned.mockApi.fetchTicketmasterEvents. cbv zeta.
  rewrite E1, E2, E3.
  destruct (toISOString_valid now1) as (d1 & I1 & N1).
  match goal with |- context [ISO.toISOString (Some (Zoned.UTC z ?v))] =>
    destruct (toISOString_valid (Zoned.UTC z v)) as (d3 & I3 & N3) end.
  rewrite I1, I3. cbn [bind].
  match goal with |- context [bind (ISO.toISOString (Some (Zoned.UTC z ?v)))] =>
    destruct (toISOString_valid (Zoned.UTC z v)) as (d4 & I4 & N4) end.
  rewrite I4. cbn [bind].
  match goal with |- context [bind (ISO.toISOString (Some (Zoned.UTC z ?v)))] =>
    destruct (toISOString_valid (Zoned.UTC z v)) as (d5 & I5 & N5) end.
  rewrite I5. cbn [bind].
  exists d1, d3, d4, d5. do 3 eexists.
  split; [reflexivity |]. split; [auto |].
  repeat (split; [reflexivity |]).
  repeat split; assumption.
Qed.

Lemma Zoned_setDate_Some z d dt v : Zoned.setDate z d dt = Some v -> Z.abs v <= maxTime.
Proof.
  destruct d as [t |], dt as [n |]; unfold Zoned.setDate; cbv zeta; try discriminate.
  intros H. apply TimeClip_Some in H as [-> H]. exact H.
Qed.

Lemma Zoned_setMonth_Some z d m v : Zoned.setMonth z d m = Some v -> Z.abs v <= maxTime.
Proof.
  destruct d as [t |], m as [n |]; unfold Zoned.setMonth; cbv zeta; try discriminate.
  intros H. apply TimeClip_Some in H as [-> H]. exact H.
Qed.

Lemma MakeDate_shift l k : MakeDate (Day l + k) (TimeWithinDay l) = l + k * msPerDay.
Proof. unfold MakeDate, Day, TimeWithinDay, msPerDay. zdiv. Qed.

(** A string that parses to one instant in every zone of constant offset
    carries a zone designator, and parses to that instant in any zone. *)
Lemma Date_parse_designated z s t :
  (forall tza, ISO.parse tza s = Some t) -> Zoned.Date_parse z s = Some t.
Proof.
  intros H. pose proof (H 0) as H0. pose proof (H 1) as H1.
  unfold ISO.parse in H0, H1. unfold Zoned.Date_parse.
  destruct (ISO.fields s) as [[x [off |]] |]; [exact H0 | | exact H0].
  apply TimeClip_Some in H0 as [E0 _]. apply TimeClip_Some in H1 as [E1 _].
  unfold UTC in E0, E1. lia.
Qed.

Lemma DateFromTime_Day t t' : Day t = Day t' -> DateFromTime t = DateFromTime t'.
Proof.
  intros H. unfold DateFromTime, DayWithinYear, InLeapYear.
  rewrite (YearFromTime_Day t t' H), (MonthFromTime_Day t t' H), H. reflexivity.
Qed.

(** When the two readings fall on one local day and the local time [k] days
    on occurs in the zone, the clock reads that local time at the new
    Date. *)
Lemma Zoned_setDate_same_day z today t k v :
  Zoned.clockInRange z t -> 0 <= k <= 7 ->
  Day (Zoned.LocalTime z t) = Day (Zoned.LocalTime z today) ->
  Zoned.setDate z (Some t) (num_add (Zoned.getDate z (Some today)) (Some k)) = Some v ->
  Zoned.occurs z (Zoned.LocalTime z t + k * msPerDay) ->
  Zoned.LocalTime z v = Zoned.LocalTime z t + k * msPerDay.
Proof.
  intros Hr Hk Hd E Ho.
  rewrite (Zoned_setDate_of_today z today t k Hr Hk) in E.
  rewrite <- (DateFromTime_Day _ _ Hd) in E.
  rewrite (proj1 (same_reading_days (Zoned.LocalTime z t) k)), MakeDate_shift in E.
  injection E as <-. apply (UTC_occurs z _ Ho).
Qed.

(** The same for [setMonth], the length of the current month on. *)
Lemma Zoned_setMonth_same_day z today t v :
  Zoned.clockInRange z t ->
  Day (Zoned.LocalTime z t) = Day (Zoned.LocalTime z today) ->
  Zoned.setMonth z (Some t) (num_add (Zoned.getMonth z (Some today)) (Some 1)) = Some v ->
  Zoned.occurs z (Zoned.LocalTime z t +
                  DaysInMonth (InLeapYear (Zoned.LocalTime z t))
                              (MonthFromTime (Zoned.LocalTime z t)) * msPerDay) ->
  Zoned.LocalTime z v =
  Zoned.LocalTime z t +
  DaysInMonth (InLeapYear (Zoned.LocalTime z t))
              (MonthFromTime (Zoned.LocalTime z t)) * msPerDay.
Proof.
  intros Hr Hd E Ho.
  rewrite (Zoned_setMonth_of_today z today t Hr) in E.
  rewrite <- (MonthFromTime_Day _ _ Hd) in E.
  rewrite (proj2 (same_reading_days (Zoned.LocalTime z t) 0)), MakeDate_shift in E.
  injection E as <-. apply (UTC_occurs z _ Ho).
Qed.



(** ** The fallback list in the screens, where the offset does not change *)

(** The filters see [Date.parse] only at the dates of the events. *)
Lemma Sports_filter_parse tza p1 p2 now events tf cf :
  (forall e, In e events -> Date_of_field p1 (date e) = Date_of_field p2 (date e)) ->
  SportsScreen.filteredEvents tza p1 now events tf cf =
  SportsScreen.filteredEvents tza p2 now events tf cf.
Proof.
  intros H. rewrite !Sports_filter_pure. f_equal. apply filter_ext_in.
  intros e He. unfold SportsScreen.timeMatch. cbv zeta. rewrite (H e He). reflexivity.
Qed.

Lemma Music_filter_parse tza p1 p2 now events tf gf :
  (forall e, In e events -> Date_of_field p1 (date e) = Date_of_field p2 (date e)) ->
  MusicScreen.filteredEvents tza p1 now events tf gf =
  MusicScreen.filteredEvents tza p2 now events tf gf.
Proof.
  intros H. rewrite !Music_filter_pure. f_equal. apply filter_ext_in.
  intros e He. unfold MusicScreen.timeMatch. cbv zeta. rewrite (H e He). reflexivity.
Qed.

(** Where the offset does not change around [now], the screens filter as in
    the zone that keeps the offset. *)
Lemma steady_Sports_filter z a b now eonm parse events tf cf :
  Zoned.bounded z -> Zoned.steady z a b -> a + 3 * msPerDay <= now ->
  Zoned.SportsScreen.endOfNextMonth z now = Some eonm -> eonm + 7 * msPerDay <= b ->
  Zoned.SportsScreen.filteredEvents z parse now events tf cf =
  SportsScreen.filteredEvents (Zoned.offsetAt z a) parse now events tf cf.
Proof.
  intros Hb Hs Ha He Hlast.
  pose proof (steady_reach z a b now eonm Hb Hs Ha He Hlast) as Hreach.
  destruct (steady_windows z a b now Hb Hs Ha Hreach) as (T1 & T2 & T3 & T4 & T5).
  unfold Zoned.SportsScreen.filteredEvents, SportsScreen.filteredEvents,
    Zoned.SportsScreen.timeMatch, SportsScreen.timeMatch.
  rewrite T1, T2, T3, T4, T5. reflexivity.
Qed.

Lemma steady_Music_filter z a b now eonm parse events tf gf :
  Zoned.bounded z -> Zoned.steady z a b -> a + 3 * msPerDay <= now ->
  Zoned.SportsScreen.endOfNextMonth z now = Some eonm -> eonm + 7 * msPerDay <= b ->
  Zoned.MusicScreen.filteredEvents z parse now events tf gf =
  MusicScreen.filteredEvents (Zoned.offsetAt z a) parse now events tf gf.
Proof.
  intros Hb Hs Ha He Hlast.
  pose proof (steady_reach z a b now eonm Hb Hs Ha He Hlast) as Hreach.
  destruct (steady_windows z a b now Hb Hs Ha Hreach) as (T1 & T2 & T3 & T4 & T5).
  destruct (Zoned_Music_windows z now) as (Z1 & Z2 & Z3 & Z4 & Z5).
  destruct (Music_windows (Zoned.offsetAt z a) now) as (M1 & M2 & M3 & M4 & M5).
  unfold Zoned.MusicScreen.filteredEvents, MusicScreen.filteredEvents,
    Zoned.MusicScreen.timeMatch, MusicScreen.timeMatch.
  rewrite Z1, Z2, Z3, Z4, Z5, M1, M2, M3, M4, M5, T1, T2, T3, T4, T5. reflexivity.
Qed.

(** The dates of the mock service a day, a week and a month on, where the
    offset does not change. *)
Lemma steady_setDate_of_today z a b now k :
  Zoned.clockInRange z now -> Zoned.steady z a b ->
  a + 3 * msPerDay <= now -> now + 33 * msPerDay <= b -> 0 <= k <= 7 ->
  Zoned.setDate z (Some now) (num_add (Zoned.getDate z (Some now)) (Some k)) =
  Some (now + k * msPerDay).
Proof.
  intros Hr Hs Ha Hfar Hk.
  rewrite (Zoned_setDate_of_today z now now k Hr Hk).
  rewrite (proj1 (same_reading_days (Zoned.LocalTime z now) k)), MakeDate_shift.
  f_equal. destruct Hr as [Hb _].
  assert (a <= now <= b) as Hn by (unfold msPerDay in *; lia).
  rewrite (LocalTime_steady z a b now Hs Hn).
  rewrite (UTC_steady z a b _ Hb Hs); unfold msPerDay in *; lia.
Qed.

Lemma steady_setMonth_of_today z a b now :
  Zoned.clockInRange z now -> Zoned.steady z a b ->
  a + 3 * msPerDay <= now -> now + 33 * msPerDay <= b ->
  Zoned.setMonth z (Some now) (num_add (Zoned.getMonth z (Some now)) (Some 1)) =
  Some (now + DaysInMonth (InLeapYear (Zoned.LocalTime z now))
                          (MonthFromTime (Zoned.LocalTime z now)) * msPerDay).
Proof.
  intros Hr Hs Ha Hfar.
  rewrite (Zoned_setMonth_of_today z now now Hr).
  rewrite (proj2 (same_reading_days (Zoned.LocalTime z now) 0)), MakeDate_shift.
  f_equal. destruct Hr as [Hb _].
  pose proof (DaysInMonth_bounds (InLeapYear (Zoned.LocalTime z now)) _
                (MonthFromTime_range (Zoned.LocalTime z now))) as Hdim.
  set (dim := DaysInMonth (InLeapYear (Zoned.LocalTime z now))
                          (MonthFromTime (Zoned.LocalTime z now))) in *.
  clearbody dim.
  assert (a <= now <= b) as Hn by (unfold msPerDay in *; lia).
  rewrite (LocalTime_steady z a b now Hs Hn).
  rewrite (UTC_steady z a b _ Hb Hs); unfold msPerDay in *; lia.
Qed.

Lemma steady_clock z a b now :
  Zoned.clockInRange z now -> Zoned.steady z a b -> a <= now <= b ->
  clockInRange (Zoned.offsetAt z a) now /\
  LocalTime (Zoned.offsetAt z a) now = Zoned.LocalTime z now.
Proof.
  intros [Hb Hn] Hs Hab. split.
  - split; [apply offset_bound; exact Hb | exact Hn].
  - rewrite (LocalTime_steady z a b now Hs Hab). reflexivity.
Qed.

(** There the mock service builds the list of the zone that keeps the
    offset. *)
Lemma steady_mock z a b now :
  Zoned.clockInRange z now -> Zoned.steady z a b ->
  a + 3 * msPerDay <= now -> now + 33 * msPerDay <= b ->
  Zoned.mockApi.fetchTicketmasterEvents z now now now now =
  mockApi.fetchTicketmasterEvents (Zoned.offsetAt z a) now now now now.
Proof.
  intros Hr Hs Ha Hfar.
  assert (a <= now <= b) as Hn by (unfold msPerDay in *; lia).
  destruct (steady_clock z a b now Hr Hs Hn) as [Hro HL].
  unfold Zoned.mockApi.fetchTicketmasterEvents, mockApi.fetchTicketmasterEvents. cbv zeta.
  rewrite (steady_setDate_of_today z a b now 1 Hr Hs Ha Hfar ltac:(lia)).
  rewrite (steady_setDate_of_today z a b now 7 Hr Hs Ha Hfar ltac:(lia)).
  rewrite (steady_setMonth_of_today z a b now Hr Hs Ha Hfar).
  rewrite (setDate_same_reading _ now Hro 1 ltac:(lia)).
  rewrite (setDate_same_reading _ now Hro 7 ltac:(lia)).
  rewrite (setMonth_same_reading _ now Hro), HL.
  reflexivity.
Qed.

(** The date strings of the mock service carry the designator Z: they parse
    alike in every zone. *)
Lemma mock_parse_alike z tza now evs :
  clockInRange tza now ->
  mockApi.fetchTicketmasterEvents tza now now now now = Ok evs ->
  forall e, In e evs ->
    Date_of_field (Zoned.Date_parse z) (date e) = Date_of_field (ISO.parse tza) (date e).
Proof.
  intros Hrange.
  pose proof (setDate_same_reading tza now Hrange 1 ltac:(lia)) as E1.
  pose proof (setDate_same_reading tza now Hrange 7 ltac:(lia)) as E2.
  pose proof (setMonth_same_reading tza now Hrange) as E3.
  pose proof (DaysInMonth_bounds (InLeapYear (LocalTime tza now)) _
                (MonthFromTime_range (LocalTime tza now))) as Hdim.
  set (dim := DaysInMonth (InLeapYear (LocalTime tza now))
                          (MonthFromTime (LocalTime tza now))) in *.
  clearbody dim.
  assert (forall k, 0 <= k <= 31 -> Z.abs (now + k * msPerDay) <= maxTime) as Hb.
  { intros k Hk. destruct Hrange as [_ Hn].
    unfold margin, maxTime, msPerDay in *. lia. }
  assert (Z.abs now <= maxTime) as Hb0 by (specialize (Hb 0); lia).
  unfold mockApi.fetchTicketmasterEvents. cbv zeta.
  rewrite E1, E2, E3.
  destruct (toISOString_valid now) as (d1 & T1 & _).
  destruct (toISOString_valid (now + 1 * msPerDay)) as (d3 & T3 & _).
  destruct (toISOString_valid (now + 7 * msPerDay)) as (d4 & T4 & _).
  destruct (toISOString_valid (now + dim * msPerDay)) as (d5 & T5 & _).
  rewrite T1, T3, T4, T5. cbn [bind].
  intros [= <-] e He.
  assert (forall t d, Z.abs t <= maxTime -> ISO.toISOString (Some t) = Ok d ->
                      Zoned.Date_parse z d = ISO.parse tza d) as Hp.
  { intros t d Ht Hd. rewrite (parse_toISOString tza t d Ht Hd).
    apply Date_parse_designated. intros tza'. apply (parse_toISOString tza' t d Ht Hd). }
  unfold mockListOf in He. cbn [In] in He.
  destruct He as [<- | [<- | [<- | [<- | [<- | []]]]]]; cbn [date Date_of_field].
  - apply (Hp now d1 Hb0 T1).
  - apply (Hp now d1 Hb0 T1).
  - apply (Hp _ d3 (Hb 1 ltac:(lia)) T3).
  - apply (Hp _ d4 (Hb 7 ltac:(lia)) T4).
  - apply (Hp _ d5 (Hb dim ltac:(lia)) T5).
Qed.

(** What the transfer to the zone that keeps the offset needs, for the
    list of the mock service read at [now] and the filter run at [now']. *)
Lemma steady_fallback z a b now now' eonm :
  Zoned.clockInRange z now -> Zoned.steady z a b ->
  a + 3 * msPerDay <= now -> a + 3 * msPerDay <= now' ->
  now + 33 * msPerDay <= b ->
  Zoned.SportsScreen.endOfNextMonth z now' = Some eonm -> eonm + 7 * msPerDay <= b ->
  Day (Zoned.LocalTime z now') = Day (Zoned.LocalTime z now) ->
  clockInRange (Zoned.offsetAt z a) now /\
  LocalTime (Zoned.offsetAt z a) now = Zoned.LocalTime z now /\
  Day (LocalTime (Zoned.offsetAt z a) now') = Day (LocalTime (Zoned.offsetAt z a) now).
Proof.
  intros Hr Hs Ha Ha' Hfar He Hlast Hday.
  assert (a <= now <= b) as Hn by (unfold msPerDay in *; lia).
  destruct (steady_clock z a b now Hr Hs Hn) as [Hro HL].
  destruct (Zoned_endOfNextMonth_reach z now' eonm (proj1 Hr) He) as [_ Hreach].
  assert (a <= now' <= b) as Hn' by (unfold msPerDay in *; lia).
  split; [exact Hro |]. split; [exact HL |].
  rewrite HL. unfold LocalTime. rewrite <- (LocalTime_steady z a b now' Hs Hn'). exact Hday.
Qed.

(** X16: Where the offset of the zone does not change from three days
    before the clock readings to a week after the end of next month (in a
    zone that keeps one offset, always).  When the fetch falls back on the
    mock service (its clock readings one instant in range) and the filter
    runs on the same local day: Today shows the two events dated today, in
    both screens, and under NFL the Broncos game alone; This Week shows
    them, tomorrow's event unless tomorrow starts the next week (on a
    Saturday, when the event is not at local midnight), and next week's
    event only on a Sunday at local midnight; and the genre buttons of the
    music screen show none of the five events, whatever the time filter. *)
Theorem fallback_today_and_week z a b now now' eonm :
  Zoned.clockInRange z now -> Zoned.steady z a b ->
  a + 3 * msPerDay <= now -> a + 3 * msPerDay <= now' ->
  now + 33 * msPerDay <= b ->
  Zoned.SportsScreen.endOfNextMonth z now' = Some eonm -> eonm + 7 * msPerDay <= b ->
  Day (Zoned.LocalTime z now') = Day (Zoned.LocalTime z now) ->
  exists e1 e2 e3 e4 e5,
    Zoned.mockApi.fetchTicketmasterEvents z now now now now = Ok [e1; e2; e3; e4; e5] /\
    map id [e1; e2; e3; e4; e5] = ["tm-1"; "tm-2"; "tm-3"; "tm-4"; "tm-5"] /\
    Zoned.SportsScreen.filteredEvents z (Zoned.Date_parse z) now' [e1; e2; e3; e4; e5]
      "Today" "Sports" = Ok [e1; e2] /\
    Zoned.MusicScreen.filteredEvents z (Zoned.Date_parse z) now' [e1; e2; e3; e4; e5]
      "Today" "Music" = Ok [e1; e2] /\
    Zoned.SportsScreen.filteredEvents z (Zoned.Date_parse z) now' [e1; e2; e3; e4; e5]
      "Today" "NFL" = Ok [e2] /\
    Zoned.SportsScreen.filteredEvents z (Zoned.Date_parse z) now' [e1; e2; e3; e4; e5]
      "This Week" "Sports" =
      Ok ([e1; e2] ++
          (if (WeekDay (Zoned.LocalTime z now) <? 6) ||
              (TimeWithinDay (Zoned.LocalTime z now) =? 0)
           then [e3] else []) ++
          (if (WeekDay (Zoned.LocalTime z now) =? 0) &&
              (TimeWithinDay (Zoned.LocalTime z now) =? 0)
           then [e4] else []))%list /\
    (forall timeFilter genreFilter,
       In genreFilter ["Rock"; "Hip-Hop"; "Electronic"; "Country"] ->
       Zoned.MusicScreen.filteredEvents z (Zoned.Date_parse z) now' [e1; e2; e3; e4; e5]
         timeFilter genreFilter = Ok []).
Proof.
  intros Hr Hs Ha Ha' Hfar He Hlast Hday.
  destruct (steady_fallback z a b now now' eonm Hr Hs Ha Ha' Hfar He Hlast Hday)
    as (Hro & HL & Hday').
  destruct (fallback_today_and_week_fixed_offset (Zoned.offsetAt z a) now now' Hro Hday')
    as (e1 & e2 & e3 & e4 & e5 & Em & Hid & F1 & F2 & F3 & F4 & F5).
  pose proof (mock_parse_alike z _ now _ Hro Em) as Hp.
  pose proof (proj1 Hr) as Hb.
  rewrite HL in F4.
  exists e1, e2, e3, e4, e5.
  split; [rewrite (steady_mock z a b now Hr Hs Ha Hfar); exact Em |].
  split; [exact Hid |].
  split; [| split; [| split; [| split]]].
  - rewrite (steady_Sports_filter z a b now' eonm _ _ _ _ Hb Hs Ha' He Hlast).
    rewrite (Sports_filter_parse _ _ _ _ _ _ _ Hp). exact F1.
  - rewrite (steady_Music_filter z a b now' eonm _ _ _ _ Hb Hs Ha' He Hlast).
    rewrite (Music_filter_parse _ _ _ _ _ _ _ Hp). exact F2.
  - rewrite (steady_Sports_filter z a b now' eonm _ _ _ _ Hb Hs Ha' He Hlast).
    rewrite (Sports_filter_parse _ _ _ _ _ _ _ Hp). exact F3.
  - rewrite (steady_Sports_filter z a b now' eonm _ _ _ _ Hb Hs Ha' He Hlast).
    rewrite (Sports_filter_parse _ _ _ _ _ _ _ Hp). exact F4.
  - intros tf gf Hin.
    rewrite (steady_Music_filter z a b now' eonm _ _ _ _ Hb Hs Ha' He Hlast).
    rewrite (Music_filter_parse _ _ _ _ _ _ _ Hp). exact (F5 tf gf Hin).
Qed.

Lemma fallback_today_and_week_witness :
  exists e1 e2 e3 e4 e5,
    Zoned.mockApi.fetchTicketmasterEvents Zoned.America_Denver 1750010400000 1750010400000
      1750010400000 1750010400000 = Ok [e1; e2; e3; e4; e5] /\
    Zoned.SportsScreen.filteredEvents Zoned.America_Denver
      (Zoned.Date_parse Zoned.America_Denver) 1750020000000 [e1; e2; e3; e4; e5]
      "This Week" "Sports" = Ok [e1; e2; e3].
Proof.
  assert (Zoned.clockInRange Zoned.America_Denver 1750010400000) as Hr.
  { split; [repeat constructor; unfold msPerDay; cbn; lia |].
    unfold margin, maxTime, msPerDay. lia. }
  assert (Zoned.steady Zoned.America_Denver 1749751200000 1754632799999) as Hs.
  { intros t Ht. unfold Zoned.offsetAt, Zoned.America_Denver.
    cbn [Zoned.initial Zoned.transitions Zoned.offsetFrom].
    destruct (Z.leb_spec 1741510800000 t); [| lia].
    destruct (Z.leb_spec 1762070400000 t); [lia |].
    reflexivity. }
  assert (1749751200000 + 3 * msPerDay <= 1750010400000) as Ha by (unfold msPerDay; lia).
  assert (1749751200000 + 3 * msPerDay <= 1750020000000) as Ha' by (unfold msPerDay; lia).
  assert (1750010400000 + 33 * msPerDay <= 1754632799999) as Hfar by (unfold msPerDay; lia).
  assert (Zoned.SportsScreen.endOfNextMonth Zoned.America_Denver 1750020000000 =
          Some 1754027999999) as He by (vm_compute; reflexivity).
  assert (1754027999999 + 7 * msPerDay <= 1754632799999) as Hlast by (unfold msPerDay; lia).
  assert (Day (Zoned.LocalTime Zoned.America_Denver 1750020000000) =
          Day (Zoned.LocalTime Zoned.America_Denver 1750010400000)) as Hd
    by (vm_compute; reflexivity).
  destruct (fallback_today_and_week Zoned.America_Denver 1749751200000 1754632799999
              1750010400000 1750020000000 1754027999999 Hr Hs Ha Ha' Hfar He Hlast Hd)
    as (e1 & e2 & e3 & e4 & e5 & Em & _ & _ & _ & _ & Hw & _).
  exists e1, e2, e3, e4, e5. split; [exact Em |].
  etransitivity; [exact Hw |].
  replace (WeekDay (Zoned.LocalTime Zoned.America_Denver 1750010400000)) with 0
    by (vm_compute; reflexivity).
  replace (TimeWithinDay (Zoned.LocalTime Zoned.America_Denver 1750010400000)) with 43200000
    by (vm_compute; reflexivity).
  reflexivity.
Defined.

(** X17: Where the offset of the zone does not change from three days
    before the clock readings to a week after the end of next month.  The
    same fallback, a clock whose year is not one of 0..99, and the month
    filters with the catch-all category.  This Month, the view in which the
    sports screen starts, shows the two events dated today, tomorrow's
    event unless today is the last day of the month, and next week's event
    when seven days on is still this month; it never shows the event that
    the mock service dates next month.  Next Month shows the events that
    This Month leaves out, the last of them only when the day of the month
    of today exists in the next month. *)
Theorem fallback_month_views z a b now now' eonm :
  Zoned.clockInRange z now -> Zoned.steady z a b ->
  a + 3 * msPerDay <= now -> a + 3 * msPerDay <= now' ->
  now + 33 * msPerDay <= b ->
  Zoned.SportsScreen.endOfNextMonth z now' = Some eonm -> eonm + 7 * msPerDay <= b ->
  Day (Zoned.LocalTime z now') = Day (Zoned.LocalTime z now) ->
  fullYear (Zoned.LocalTime z now) ->
  exists e1 e2 e3 e4 e5,
    Zoned.mockApi.fetchTicketmasterEvents z now now now now = Ok [e1; e2; e3; e4; e5] /\
    map id [e1; e2; e3; e4; e5] = ["tm-1"; "tm-2"; "tm-3"; "tm-4"; "tm-5"] /\
    Zoned.SportsScreen.filteredEvents z (Zoned.Date_parse z) now' [e1; e2; e3; e4; e5]
      "This Month" "Sports" =
      Ok ([e1; e2] ++
          (if lastDayOfMonth (Zoned.LocalTime z now) then [] else [e3]) ++
          (if DateFromTime (Zoned.LocalTime z now) + 7 <=?
              DaysInMonth (InLeapYear (Zoned.LocalTime z now))
                          (MonthFromTime (Zoned.LocalTime z now))
           then [e4] else []))%list /\
    Zoned.SportsScreen.filteredEvents z (Zoned.Date_parse z) now' [e1; e2; e3; e4; e5]
      "Next Month" "Sports" =
      Ok ((if lastDayOfMonth (Zoned.LocalTime z now) then [e3] else []) ++
          (if DateFromTime (Zoned.LocalTime z now) + 7 <=?
              DaysInMonth (InLeapYear (Zoned.LocalTime z now))
                          (MonthFromTime (Zoned.LocalTime z now))
           then [] else [e4]) ++
          (if DateFromTime (Zoned.LocalTime z now) <=? daysInNextMonth (Zoned.LocalTime z now)
           then [e5] else []))%list.
Proof.
  intros Hr Hs Ha Ha' Hfar He Hlast Hday Hfull.
  destruct (steady_fallback z a b now now' eonm Hr Hs Ha Ha' Hfar He Hlast Hday)
    as (Hro & HL & Hday').
  rewrite <- HL in Hfull.
  destruct (fallback_month_views_fixed_offset (Zoned.offsetAt z a) now now' Hro Hday' Hfull)
    as (e1 & e2 & e3 & e4 & e5 & Em & Hid & F1 & F2).
  pose proof (mock_parse_alike z _ now _ Hro Em) as Hp.
  pose proof (proj1 Hr) as Hb.
  rewrite HL in F1, F2.
  exists e1, e2, e3, e4, e5.
  split; [rewrite (steady_mock z a b now Hr Hs Ha Hfar); exact Em |].
  split; [exact Hid |].
  split.
  - rewrite (steady_Sports_filter z a b now' eonm _ _ _ _ Hb Hs Ha' He Hlast).
    rewrite (Sports_filter_parse _ _ _ _ _ _ _ Hp). exact F1.
  - rewrite (steady_Sports_filter z a b now' eonm _ _ _ _ Hb Hs Ha' He Hlast).
    rewrite (Sports_filter_parse _ _ _ _ _ _ _ Hp). exact F2.
Qed.

Lemma fallback_month_views_witness :
  exists e1 e2 e3 e4 e5,
    Zoned.mockApi.fetchTicketmasterEvents Zoned.America_Denver 1738350000000 1738350000000
      1738350000000 1738350000000 = Ok [e1; e2; e3; e4; e5] /\
    Zoned.SportsScreen.filteredEvents Zoned.America_Denver
      (Zoned.Date_parse Zoned.America_Denver) 1738350000000 [e1; e2; e3; e4; e5]
      "This Month" "Sports" = Ok [e1; e2] /\
    Zoned.SportsScreen.filteredEvents Zoned.America_Denver
      (Zoned.Date_parse Zoned.America_Denver) 1738350000000 [e1; e2; e3; e4; e5]
      "Next Month" "Sports" = Ok [e3; e4].
Proof.
  assert (Zoned.clockInRange Zoned.America_Denver 1738350000000) as Hr.
  { split; [repeat constructor; unfold msPerDay; cbn; lia |].
    unfold margin, maxTime, msPerDay. lia. }
  assert (Zoned.steady Zoned.America_Denver 1738000000000 1741510799999) as Hs.
  { intros t Ht. unfold Zoned.offsetAt, Zoned.America_Denver.
    cbn [Zoned.initial Zoned.transitions Zoned.offsetFrom].
    destruct (Z.leb_spec 1741510800000 t); [lia |].
    reflexivity. }
  assert (1738000000000 + 3 * msPerDay <= 1738350000000) as Ha by (unfold msPerDay; lia).
  assert (1738350000000 + 33 * msPerDay <= 1741510799999) as Hfar by (unfold msPerDay; lia).
  assert (Zoned.SportsScreen.endOfNextMonth Zoned.America_Denver 1738350000000 =
          Some 1740812399999) as He by (vm_compute; reflexivity).
  assert (1740812399999 + 7 * msPerDay <= 1741510799999) as Hlast by (unfold msPerDay; lia).
  assert (fullYear (Zoned.LocalTime Zoned.America_Denver 1738350000000)) as Hf
    by (vm_compute; reflexivity).
  destruct (fallback_month_views Zoned.America_Denver 1738000000000 1741510799999
              1738350000000 1738350000000 1740812399999 Hr Hs Ha Ha Hfar He Hlast eq_refl Hf)
    as (e1 & e2 & e3 & e4 & e5 & Em & _ & HM & HN).
  exists e1, e2, e3, e4, e5. split; [exact Em |].
  replace (lastDayOfMonth (Zoned.LocalTime Zoned.America_Denver 1738350000000)) with true
    in HM, HN by (vm_compute; reflexivity).
  replace (DateFromTime (Zoned.LocalTime Zoned.America_Denver 1738350000000)) with 31
    in HM, HN by (vm_compute; reflexivity).
  replace (DaysInMonth (InLeapYear (Zoned.LocalTime Zoned.America_Denver 1738350000000))
                       (MonthFromTime (Zoned.LocalTime Zoned.America_Denver 1738350000000)))
    with 31 in HM, HN by (vm_compute; reflexivity).
  replace (daysInNextMonth (Zoned.LocalTime Zoned.America_Denver 1738350000000)) with 28 in HN
    by (vm_compute; reflexivity).
  split; [exact HM | exact HN].
Defined.

(** ** Find My Night: the retry and accept controls *)



